(** * Server-sent-events node: subscriber registry, lifecycle and broadcast

    A shallow embedding of the two implementations of the [sse-server]
    node found in the repository,

    - [src/sse-server/sse-server.js]  (module [SseServer] below), and
    - [src/unnamed/part_000]          (module [Part000] below),

    followed by the properties of the registry protocol.

    The JavaScript is effectful: it mutates [node.subscribers], calls
    methods of the HTTP response object that may throw, and reports to the
    host runtime (status, log, downstream messages).  An operation is
    therefore a function from the node to the node afterwards, the list of
    external calls it attempted (in order), and a completion, which is
    either normal or a thrown exception.  Mutations made before a throw
    persist, as they do in JavaScript. *)

From Stdlib Require Import List String Ascii ZArith Bool Arith Lia DecimalString Permutation.
Import ListNotations.

Local Open Scope string_scope.
Local Open Scope list_scope.
Local Set Warnings "-register-all".

Infix "+++" := String.append (right associativity, at level 60).

(** ** JavaScript values *)

Module Js.

(** The values a work item or a configuration field can hold.  Numbers are
    the integer-valued ones of magnitude below 1e21 (those a template
    literal prints digit by digit) and [NaN]; an object is its list of own
    enumerable properties. *)
Inductive JSValue : Type :=
| JUndefined
| JNull
| JBool (b : bool)
| JNum (n : Z)
| JNaN
| JStr (s : string)
| JObj (fields : list (string * JSValue)).

(** [ToBoolean]: what [||] and [if] test. *)
Definition truthy (v : JSValue) : bool :=
  match v with
  | JUndefined | JNull | JNaN => false
  | JBool b => b
  | JNum n => negb (n =? 0)%Z
  | JStr s => negb (s =? EmptyString)%string
  | JObj _ => true
  end.

(** [a || b] *)
Definition js_or (a b : JSValue) : JSValue := if truthy a then a else b.

(** [typeof v === 'string'] *)
Definition is_string (v : JSValue) : bool :=
  match v with JStr _ => true | _ => false end.

(** [ToString], the conversion a template literal applies to an
    interpolated value (plain objects print as [[object Object]]). *)
Definition ToString (v : JSValue) : string :=
  match v with
  | JUndefined => "undefined"
  | JNull => "null"
  | JBool true => "true"
  | JBool false => "false"
  | JNum n => NilZero.string_of_int (Z.to_int n)
  | JNaN => "NaN"
  | JStr s => s
  | JObj _ => "[object Object]"
  end.

(** [`${n}`] for an array length. *)
Definition nat_to_string (n : nat) : string :=
  NilZero.string_of_uint (Nat.to_uint n).

(** The line feed written as [\n] in the source. *)
Definition LF : string := String (ascii_of_nat 10) EmptyString.

(** Exceptions: the thrown object's class and its [message]. *)
Inductive Exn : Type :=
| Error (msg : string)
| TypeError (msg : string)
| ReferenceError (msg : string).

Definition message (e : Exn) : string :=
  match e with Error m | TypeError m | ReferenceError m => m end.

(** How an evaluation ends. *)
Inductive Completion (A : Type) : Type :=
| Normal (a : A)
| Throw (e : Exn).

Arguments Normal {A} a.
Arguments Throw {A} e.

(** The built-ins the node calls and does not define.  [JSON.stringify]
    returns a string, or [undefined] for a value with no JSON form, or
    throws (a cyclic structure, a [toJSON] that throws). *)
Class Builtins : Type := {
  JSON_stringify : JSValue -> Completion JSValue
}.

End Js.
Export Js.

(** ** The transport and the registry *)

Module Model.

(** The [msg.res] object of a work item: the wrapped HTTP response
    [_res] and its request [_res.req].  [handle] is the object's
    identity.  Each method either returns or throws an [Error] carrying a
    message; [flush] may be missing altogether. *)
Record Response : Type := {
  handle : nat;
  writeHead_fails : option string;
  write_fails : string -> option string;
  flush : option (option string);
  end_fails : option string;
  on_fails : option string;
  removeListener_fails : option string;
  remoteAddress : JSValue
}.

(** The variables a [closeHandler] closure of [part_000] captures. *)
Record Closure : Type := {
  subscriberId : string;
  responseSocket : Response;
  clientIP : JSValue
}.

(** An element of [node.subscribers].  [closeHandler] is [None] where the
    object literal has no such property. *)
Record Subscriber : Type := {
  id : string;
  socket : Response;
  closeHandler : option Closure
}.

(** The node instance: configuration and the registry. *)
Record Node : Type := {
  event : JSValue;
  data : JSValue;
  subscribers : list Subscriber
}.

(** An inbound work item. *)
Record Msg : Type := {
  _msgid : string;
  res : option Response;
  payload : JSValue;
  topic : JSValue
}.

(** Every call that leaves the node, recorded when it is attempted
    (whether or not it then throws). *)
Inductive Call : Type :=
| CWriteHead (h : nat) (status : Z) (headers : list (string * string))
| CWrite (h : nat) (chunk : string)
| CFlush (h : nat)
| CEnd (h : nat)
| COn (h : nat) (listener : string)
| CRemoveListener (h : nat) (listener : string)
| CSend (msgid : string) (payload : JSValue)
| CStatus (fill shape text : string)
| CLogDebug (text : string)
| CLogWarn (text : string)
| CLogError (e : Exn)
| CDone.

(** *** Operations on the node *)

Definition Op (A : Type) : Type := Node -> Node * list Call * Completion A.

Definition ret {A} (a : A) : Op A := fun n => (n, [], Normal a).

Definition bind {A B} (m : Op A) (k : A -> Op B) : Op B :=
  fun n =>
    match m n with
    | (n1, c1, Normal a) =>
        match k a n1 with (n2, c2, r) => (n2, c1 ++ c2, r) end
    | (n1, c1, Throw e) => (n1, c1, Throw e)
    end.

Definition throw {A} (e : Exn) : Op A := fun n => (n, [], Throw e).

Definition lift {A} (c : Completion A) : Op A := fun n => (n, [], c).

(** [try { m } catch (e) { h e }] *)
Definition try_catch {A} (m : Op A) (h : Exn -> Op A) : Op A :=
  fun n =>
    match m n with
    | (n1, c1, Normal a) => (n1, c1, Normal a)
    | (n1, c1, Throw e) =>
        match h e n1 with (n2, c2, r) => (n2, c1 ++ c2, r) end
    end.

(** [try { m } finally { f }]: [f] runs in either case; the completion is
    that of [m] unless [f] itself throws. *)
Definition try_finally {A} (m : Op A) (f : Op unit) : Op A :=
  fun n =>
    match m n with
    | (n1, c1, r1) =>
        match f n1 with
        | (n2, c2, Normal _) => (n2, c1 ++ c2, r1)
        | (n2, c2, Throw e) => (n2, c1 ++ c2, Throw e)
        end
    end.

Definition emit (c : Call) : Op unit := fun n => (n, [c], Normal tt).

(** A call into the transport: recorded, then it returns or throws. *)
Definition transport (c : Call) (fails : option string) : Op unit :=
  fun n =>
    match fails with
    | None => (n, [c], Normal tt)
    | Some m => (n, [c], Throw (Error m))
    end.

Definition get_subscribers : Op (list Subscriber) :=
  fun n => (n, [], Normal (subscribers n)).

(** [node.subscribers = l], and the in-place updates of the array. *)
Definition set_subscribers (l : list Subscriber) : Op unit :=
  fun n => ({| event := event n; data := data n; subscribers := l |}, [], Normal tt).

Definition state_of {A} (o : Node * list Call * Completion A) : Node := fst (fst o).
Definition calls_of {A} (o : Node * list Call * Completion A) : list Call := snd (fst o).
Definition completion_of {A} (o : Node * list Call * Completion A) : Completion A := snd o.

End Model.
Export Model.

Declare Scope op_scope.
Delimit Scope op_scope with op.
Notation "x <- m ;; k" := (bind m (fun x => k))
  (at level 61, m at next level, right associativity) : op_scope.
Notation "m ;; k" := (bind m (fun _ => k))
  (at level 61, right associativity) : op_scope.
Local Open Scope op_scope.

(** ** Code common to both files *)

Module Shared.
Section WithBuiltins.
Context `{Builtins}.

(** [_serializeData], lines 6-8 of both files. *)
Definition _serializeData (data : JSValue) : Completion JSValue :=
  if is_string data then Normal data else JSON_stringify data.

(** The host's sinks.  They are the runtime's own and return normally. *)
Definition RED_log_debug (text : string) : Op unit := emit (CLogDebug text).
Definition RED_log_warn (text : string) : Op unit := emit (CLogWarn text).
Definition RED_log_error (e : Exn) : Op unit := emit (CLogError e).
Definition node_status (fill shape text : string) : Op unit :=
  emit (CStatus fill shape text).
Definition node_send (msgid : string) (payload : JSValue) : Op unit :=
  emit (CSend msgid payload).

(** [updateNodeStatus], lines 15-21 of both files. *)
Definition updateNodeStatus (type : string) : Op unit :=
  subs <- get_subscribers ;;
  node_status (if (type =? "success")%string then "green" else "red")
              "dot"
              (nat_to_string (List.length subs) +++ " client(s) connected").

(** The methods of [socket._res] and [socket._res.req]. *)
Definition writeHead (r : Response) (status : Z) (headers : list (string * string)) : Op unit :=
  transport (CWriteHead (handle r) status headers) (writeHead_fails r).
Definition write (r : Response) (chunk : string) : Op unit :=
  transport (CWrite (handle r) chunk) (write_fails r chunk).
Definition end_ (r : Response) : Op unit :=
  transport (CEnd (handle r)) (end_fails r).
Definition req_on_close (r : Response) (listener : string) : Op unit :=
  transport (COn (handle r) listener) (on_fails r).
Definition req_removeListener (r : Response) (listener : string) : Op unit :=
  transport (CRemoveListener (handle r) listener) (removeListener_fails r).

(** [if (r.flush) r.flush();] *)
Definition flush_if_supported (r : Response) : Op unit :=
  match flush r with
  | None => ret tt
  | Some fails => transport (CFlush (handle r)) fails
  end.

(** [msg.res._res]: a [TypeError] when the work item has no [res]. *)
Definition msg_res (msg : Msg) : Op Response :=
  match res msg with
  | Some r => ret r
  | None => throw (TypeError "Cannot read properties of undefined (reading '_res')")
  end.

(** The response headers of [registerSubscriber]. *)
Definition sse_headers : list (string * string) :=
  [("Content-Type", "text/event-stream");
   ("Cache-Control", "no-cache");
   ("Connection", "keep-alive")].

(** [`data: ${_serializeData(msg.payload || 'Connection opened')}\n`],
    the second line of the open frame in both files. *)
Definition open_data_line (msg : Msg) : Completion string :=
  match _serializeData (js_or (payload msg) (JStr "Connection opened")) with
  | Normal d => Normal ("data: " +++ ToString d +++ LF)
  | Throw e => Throw e
  end.

(** [Array.prototype.filter] with an effectful callback: the callback
    runs on the elements in index order; the array itself is untouched. *)
Fixpoint filter_op (f : Subscriber -> Op bool) (l : list Subscriber) : Op (list Subscriber) :=
  match l with
  | [] => ret []
  | x :: t =>
      keep <- f x ;;
      rest <- filter_op f t ;;
      ret (if keep then x :: rest else rest)
  end.

(** [Array.prototype.forEach]. *)
Fixpoint forEach (f : Subscriber -> Op unit) (l : list Subscriber) : Op unit :=
  match l with
  | [] => ret tt
  | x :: t => f x ;; forEach f t
  end.

(** [Array.prototype.findIndex]: [None] stands for [-1]. *)
Fixpoint findIndex (p : Subscriber -> bool) (l : list Subscriber) : option nat :=
  match l with
  | [] => None
  | x :: t => if p x then Some 0 else option_map S (findIndex p t)
  end.

(** [l.splice(i, 1)] *)
Fixpoint splice1 (i : nat) (l : list Subscriber) : list Subscriber :=
  match l, i with
  | [], _ => []
  | _ :: t, 0 => t
  | x :: t, S j => x :: splice1 j t
  end.

(** The effective event name and payload of a broadcast,
    [node.event || msg.topic || 'message'] and [node.data || msg.payload]. *)
Definition broadcast_event (n : Node) (msg : Msg) : string :=
  ToString (js_or (js_or (event n) (topic msg)) (JStr "message")).
Definition broadcast_payload (n : Node) (msg : Msg) : JSValue :=
  js_or (data n) (payload msg).

(** The callback of the [filter] in [handleServerEvent]. *)
Definition send_event (ev dat messageId : string) (subscriber : Subscriber) : Op bool :=
  try_catch
    (write (socket subscriber) ("event: " +++ ev +++ LF) ;;
     write (socket subscriber) ("data: " +++ dat +++ LF) ;;
     write (socket subscriber) ("id: " +++ messageId +++ LF +++ LF) ;;
     flush_if_supported (socket subscriber) ;;
     ret true)
    (fun e =>
       RED_log_warn ("Error sending event to subscriber " +++ id subscriber +++ ": " +++ message e) ;;
       try_catch
         (end_ (socket subscriber))
         (fun endErr => RED_log_warn ("Error ending subscriber response: " +++ message endErr)) ;;
       ret false).

(** [handleServerEvent], lines 115-141 of [sse-server.js] and 173-205 of
    [part_000] (which differ only in copying [msg._msgid] first). *)
Definition handleServerEvent (msg : Msg) : Op unit :=
  fun n =>
    (let ev := broadcast_event n msg in
     d <- lift (_serializeData (broadcast_payload n msg)) ;;
     let dat := ToString d in
     RED_log_debug ("Sent event: " +++ ev) ;;
     RED_log_debug ("Data: " +++ dat) ;;
     subs <- get_subscribers ;;
     kept <- filter_op (send_event ev dat (_msgid msg)) subs ;;
     set_subscribers kept) n.

(** The ['input'] handler, lines 159-172 of [sse-server.js] and 223-236
    of [part_000]; [done] tells whether the third argument is a function. *)
Definition on_input (registerSubscriber : Msg -> Op unit) (msg : Msg) (done : bool) : Op unit :=
  try_finally
    (try_catch
       (match res msg with
        | Some _ => registerSubscriber msg
        | None => handleServerEvent msg
        end)
       (fun error => RED_log_error error ;; updateNodeStatus "error"))
    (if done then emit CDone else ret tt).

(** The runtime delivers work items one at a time, in arrival order. *)
Fixpoint deliver (handler : Msg -> Op unit) (msgs : list Msg) : Op unit :=
  match msgs with
  | [] => ret tt
  | m :: t => handler m ;; deliver handler t
  end.

End WithBuiltins.
End Shared.
Export Shared.

(** ** [src/sse-server/sse-server.js] *)

Module SseServer.
Section WithBuiltins.
Context `{Builtins}.

(** [unregisterSubscriber] names [RED] in its two [catch] blocks, but
    [RED] is neither a parameter of the function nor bound at the top of
    the file: evaluating [RED.log.warn(...)] throws a [ReferenceError]
    before anything is logged. *)
Definition unbound_RED_log_warn (text : string) : Op unit :=
  throw (ReferenceError "RED is not defined").

(** [unregisterSubscriber], lines 81-107. *)
Definition unregisterSubscriber (msg : Msg) : Op unit :=
  try_catch
    (r <- msg_res msg ;;
     write r ("event: close" +++ LF) ;;
     write r ("data: The connection was closed by the server." +++ LF) ;;
     write r ("id: " +++ _msgid msg +++ LF +++ LF) ;;
     flush_if_supported r)
    (fun e => unbound_RED_log_warn ("Error writing close event: " +++ message e)) ;;
  node_send (_msgid msg) (JObj [("event", JStr "disconnect")]) ;;
  subs <- get_subscribers ;;
  set_subscribers
    (filter (fun subscriber => negb (id subscriber =? _msgid msg)%string) subs) ;;
  try_catch
    (r <- msg_res msg ;; end_ r)
    (fun e => unbound_RED_log_warn ("Error closing response: " +++ message e)).

(** The [closeHandler] closure of lines 55-60; it captures [msg]. *)
Definition closeHandler (msg : Msg) : Op unit :=
  unregisterSubscriber msg ;;
  updateNodeStatus "success" ;;
  r <- msg_res msg ;;
  req_removeListener r (_msgid msg).

(** [registerSubscriber], lines 33-71. *)
Definition registerSubscriber (msg : Msg) : Op unit :=
  RED_log_debug "Client connected" ;;
  r <- msg_res msg ;;
  writeHead r 200 sse_headers ;;
  write r ("event: open" +++ LF) ;;
  line <- lift (open_data_line msg) ;;
  write r line ;;
  write r ("id: " +++ _msgid msg +++ LF +++ LF) ;;
  flush_if_supported r ;;
  node_send (_msgid msg) (JObj [("event", JStr "connect")]) ;;
  req_on_close r (_msgid msg) ;;
  subs <- get_subscribers ;;
  (if existsb (fun sub => (id sub =? _msgid msg)%string) subs
   then ret tt
   else set_subscribers
          (subs ++ [{| id := _msgid msg; socket := r; Model.closeHandler := None |}])) ;;
  updateNodeStatus "success".

(** The callback of the [forEach] in the ['runtime-event'] handler. *)
Definition close_collection (subscriber : Subscriber) : Op unit :=
  write (socket subscriber) ("event: close" +++ LF) ;;
  write (socket subscriber) ("data: Collection closed" +++ LF) ;;
  write (socket subscriber) ("id: 0" +++ LF +++ LF) ;;
  flush_if_supported (socket subscriber) ;;
  try_catch
    (end_ (socket subscriber))
    (fun e => RED_log_warn ("Error closing subscriber response: " +++ message e)).

(** The ['runtime-event'] handler, lines 175-192. *)
Definition runtime_event : Op unit :=
  updateNodeStatus "success" ;;
  subs <- get_subscribers ;;
  forEach close_collection subs ;;
  set_subscribers [].

(** The ['input'] handler of this file. *)
Definition input (msg : Msg) (done : bool) : Op unit :=
  on_input registerSubscriber msg done.

End WithBuiltins.
End SseServer.

(** ** [src/unnamed/part_000] *)

Module Part000.
Section WithBuiltins.
Context `{Builtins}.

(** As in the other file, [unregisterSubscriber] (lines 119-165) names
    [RED] without binding it: [RED.log.warn(...)] throws a
    [ReferenceError] there. *)
Definition unbound_RED_log_warn (text : string) : Op unit :=
  throw (ReferenceError "RED is not defined").

(** [node.subscribers[i]], read where the source goes on to use its
    properties. *)
Definition subscriber_at (subs : list Subscriber) (i : nat) : Op Subscriber :=
  match nth_error subs i with
  | Some s => ret s
  | None => throw (TypeError "Cannot read properties of undefined")
  end.

(** [{event, subscribers: node.subscribers.length, ip}] *)
Definition notification (ev : string) (count : nat) (ip : JSValue) : JSValue :=
  JObj [("event", JStr ev); ("subscribers", JNum (Z.of_nat count)); ("ip", ip)].

(** The [closeHandler] closure of lines 56-88. *)
Definition closeHandler (c : Closure) : Op unit :=
  subs <- get_subscribers ;;
  match findIndex (fun sub => (id sub =? subscriberId c)%string) subs with
  | Some subscriberIndex =>
      try_catch
        (subscriber <- subscriber_at subs subscriberIndex ;;
         write (socket subscriber) ("event: close" +++ LF) ;;
         write (socket subscriber) ("data: The connection was closed by the client." +++ LF) ;;
         write (socket subscriber) ("id: " +++ subscriberId c +++ LF +++ LF) ;;
         flush_if_supported (socket subscriber) ;;
         end_ (socket subscriber))
        (fun e => RED_log_warn ("Error writing close event: " +++ message e)) ;;
      set_subscribers (splice1 subscriberIndex subs) ;;
      now <- get_subscribers ;;
      node_send (subscriberId c) (notification "disconnect" (List.length now) (clientIP c))
  | None => ret tt
  end ;;
  updateNodeStatus "success" ;;
  req_removeListener (responseSocket c) (subscriberId c).

(** [registerSubscriber], lines 33-109. *)
Definition registerSubscriber (msg : Msg) : Op unit :=
  RED_log_debug "Client connected" ;;
  r <- msg_res msg ;;
  writeHead r 200 sse_headers ;;
  write r ("event: open" +++ LF) ;;
  line <- lift (open_data_line msg) ;;
  write r line ;;
  write r ("id: " +++ _msgid msg +++ LF +++ LF) ;;
  flush_if_supported r ;;
  let c := {| subscriberId := _msgid msg; responseSocket := r; clientIP := remoteAddress r |} in
  req_on_close r (subscriberId c) ;;
  subs <- get_subscribers ;;
  (if existsb (fun sub => (id sub =? subscriberId c)%string) subs
   then ret tt
   else set_subscribers
          (subs ++ [{| id := subscriberId c; socket := r; Model.closeHandler := Some c |}])) ;;
  updateNodeStatus "success" ;;
  now <- get_subscribers ;;
  node_send (_msgid msg) (notification "connect" (List.length now) (clientIP c)).

(** [unregisterSubscriber], lines 119-165. *)
Definition unregisterSubscriber (msg : Msg) : Op unit :=
  let subscriberId := _msgid msg in
  subs <- get_subscribers ;;
  match findIndex (fun sub => (id sub =? subscriberId)%string) subs with
  | None =>
      unbound_RED_log_warn ("Subscriber " +++ subscriberId +++ " not found for unregistration")
  | Some subscriberIndex =>
      subscriber <- subscriber_at subs subscriberIndex ;;
      try_catch
        (r <- msg_res msg ;;
         write r ("event: close" +++ LF) ;;
         write r ("data: The connection was closed by the server." +++ LF) ;;
         write r ("id: " +++ subscriberId +++ LF +++ LF) ;;
         flush_if_supported r)
        (fun e => unbound_RED_log_warn ("Error writing close event: " +++ message e)) ;;
      match Model.closeHandler subscriber with
      | Some c =>
          try_catch
            (req_removeListener (socket subscriber) (Model.subscriberId c))
            (fun e => unbound_RED_log_warn ("Error removing close listener: " +++ message e))
      | None => ret tt
      end ;;
      set_subscribers (splice1 subscriberIndex subs) ;;
      try_catch
        (r <- msg_res msg ;; end_ r)
        (fun e => unbound_RED_log_warn ("Error closing response: " +++ message e)) ;;
      r <- msg_res msg ;;
      now <- get_subscribers ;;
      node_send subscriberId (notification "disconnect" (List.length now) (remoteAddress r))
  end.

(** The body both drain handlers run on each subscriber, lines 240-256
    and 271-286; [reason] is ["Node closed"] or ["Collection closed"]. *)
Definition close_subscriber (reason : string) (subscriber : Subscriber) : Op unit :=
  try_catch
    (match Model.closeHandler subscriber with
     | Some c => req_removeListener (socket subscriber) (subscriberId c)
     | None => ret tt
     end ;;
     write (socket subscriber) ("event: close" +++ LF) ;;
     write (socket subscriber) ("data: " +++ reason +++ LF) ;;
     write (socket subscriber) ("id: 0" +++ LF +++ LF) ;;
     flush_if_supported (socket subscriber) ;;
     end_ (socket subscriber))
    (fun e => RED_log_warn ("Error closing subscriber response: " +++ message e)).

(** [this._runtimeHandler], lines 268-290. *)
Definition _runtimeHandler : Op unit :=
  updateNodeStatus "success" ;;
  subs <- get_subscribers ;;
  forEach (close_subscriber "Collection closed") subs ;;
  set_subscribers [].

(** The node's ['close'] handler, lines 238-265, up to the removal of the
    runtime listener and the completion callback, which touch neither the
    registry nor a stream. *)
Definition on_close : Op unit :=
  subs <- get_subscribers ;;
  forEach (close_subscriber "Node closed") subs ;;
  set_subscribers [].

(** The ['input'] handler of this file. *)
Definition input (msg : Msg) (done : bool) : Op unit :=
  on_input registerSubscriber msg done.

End WithBuiltins.
End Part000.

(** ** Vocabulary of the properties *)

Module Props.
Section WithBuiltins.
Context `{Builtins}.

(** The ids held by the registry, in insertion order. *)
Definition ids (n : Node) : list string := map id (subscribers n).

(** A transport method that returns. *)
Definition returns (fails : option string) : bool :=
  match fails with None => true | Some _ => false end.

(** [flush] is missing, or returns. *)
Definition flush_returns (r : Response) : bool :=
  match flush r with None => true | Some fails => returns fails end.

(** The three writes and the flush of one broadcast frame all return on
    this subscriber's stream. *)
Definition sent_ok (ev dat messageId : string) (s : Subscriber) : bool :=
  returns (write_fails (socket s) ("event: " +++ ev +++ LF)) &&
  returns (write_fails (socket s) ("data: " +++ dat +++ LF)) &&
  returns (write_fails (socket s) ("id: " +++ messageId +++ LF +++ LF)) &&
  flush_returns (socket s).

(** The work item carries a response on which the head, the open frame,
    the flush and the listener registration all return: the connection
    goes from Pending to Open. *)
Definition opens_stream (msg : Msg) : bool :=
  match res msg, open_data_line msg with
  | Some r, Normal line =>
      returns (writeHead_fails r) &&
      returns (write_fails r ("event: open" +++ LF)) &&
      returns (write_fails r line) &&
      returns (write_fails r ("id: " +++ _msgid msg +++ LF +++ LF)) &&
      flush_returns r &&
      returns (on_fails r)
  | _, _ => false
  end.

(** The close frame of a drain and its flush return on this stream. *)
Definition close_frame_ok (reason : string) (s : Subscriber) : bool :=
  returns (write_fails (socket s) ("event: close" +++ LF)) &&
  returns (write_fails (socket s) ("data: " +++ reason +++ LF)) &&
  returns (write_fails (socket s) ("id: 0" +++ LF +++ LF)) &&
  flush_returns (socket s).

(** The listener removal that [part_000] performs first returns too. *)
Definition unhooked_ok (s : Subscriber) : bool :=
  match closeHandler s with
  | Some _ => returns (removeListener_fails (socket s))
  | None => true
  end.

(** The drain of [part_000] got through this subscriber without a throw. *)
Definition closes_cleanly (reason : string) (s : Subscriber) : bool :=
  unhooked_ok s && close_frame_ok reason s && returns (end_fails (socket s)).

(** The first call the drain of [part_000] makes for a subscriber. *)
Definition first_close_call (s : Subscriber) : Call :=
  match closeHandler s with
  | Some c => CRemoveListener (handle (socket s)) (subscriberId c)
  | None => CWrite (handle (socket s)) ("event: close" +++ LF)
  end.

(** The notification shape [{event, subscribers: N, ip}]. *)
Definition shaped (ev : string) (N : nat) (ip : JSValue) : JSValue :=
  JObj [("event", JStr ev); ("subscribers", JNum (Z.of_nat N)); ("ip", ip)].

(** The notification that carries the event name alone. *)
Definition bare (ev : string) : JSValue := JObj [("event", JStr ev)].

(** A downstream notification. *)
Definition is_send (c : Call) : bool :=
  match c with CSend _ _ => true | _ => false end.

(** A call on a stream: a write or an end. *)
Definition is_write_or_end (c : Call) : bool :=
  match c with CWrite _ _ | CEnd _ => true | _ => false end.

(** A stream-ending call. *)
Definition is_end (c : Call) : bool :=
  match c with CEnd _ => true | _ => false end.

(** The text [updateNodeStatus] publishes for a registry of [k] entries. *)
Definition count_text (k : nat) : string :=
  nat_to_string k +++ " client(s) connected".

(** The node with its registry replaced. *)
Definition with_registry (n : Node) (l : list Subscriber) : Node :=
  {| event := event n; data := data n; subscribers := l |}.

(** The registry after the guarded [push] of [registerSubscriber]. *)
Definition enrolled (entry : Subscriber) (subs : list Subscriber) : list Subscriber :=
  if existsb (fun sub => (id sub =? id entry)%string) subs
  then subs
  else subs ++ [entry].

(** The node after that guarded [push]: untouched when the id is there. *)
Definition enrol_node (entry : Subscriber) (n : Node) : Node :=
  if existsb (fun sub => (id sub =? id entry)%string) (subscribers n)
  then n
  else with_registry n (subscribers n ++ [entry]).

(** The calls [if (r.flush) r.flush()] makes. *)
Definition flush_calls (r : Response) : list Call :=
  match flush r with
  | None => []
  | Some _ => [CFlush (handle r)]
  end.

(** The calls that open a stream: the debug line, the head, the open
    frame and the flush. *)
Definition open_calls (msg : Msg) (r : Response) (line : string) : list Call :=
  [CLogDebug "Client connected";
   CWriteHead (handle r) 200 sse_headers;
   CWrite (handle r) ("event: open" +++ LF);
   CWrite (handle r) line;
   CWrite (handle r) ("id: " +++ _msgid msg +++ LF +++ LF)] ++ flush_calls r.

(** The entries each file pushes for a work item. *)
Definition entry_v1 (msg : Msg) (r : Response) : Subscriber :=
  {| id := _msgid msg; socket := r; closeHandler := None |}.
Definition entry_v2 (msg : Msg) (r : Response) : Subscriber :=
  {| id := _msgid msg; socket := r;
     closeHandler := Some {| subscriberId := _msgid msg; responseSocket := r;
                             clientIP := remoteAddress r |} |}.

(** What the ['input'] handler runs inside its [try]. *)
Definition work_of (registerSubscriber : Msg -> Op unit) (msg : Msg) : Op unit :=
  match res msg with
  | Some _ => registerSubscriber msg
  | None => handleServerEvent msg
  end.

(** What the [catch] of the ['input'] handler reports after that work:
    nothing when it returned, the error and the red status when it threw. *)
Definition error_report (o : Node * list Call * Completion unit) : list Call :=
  match completion_of o with
  | Normal _ => []
  | Throw e =>
      [CLogError e;
       CStatus "red" "dot" (count_text (List.length (subscribers (state_of o))))]
  end.

End WithBuiltins.
End Props.
Export Props.

(** ** Sample transports and work items *)

Module Samples.

Definition dquote : string := String (ascii_of_nat 34) EmptyString.

(** [JSON.stringify] on the values of [JSValue] whose strings need no
    escaping; [None] stands for [undefined]. *)
Fixpoint json_text (v : JSValue) : option string :=
  match v with
  | JUndefined => None
  | JNull | JNaN => Some "null"
  | JBool b => Some (ToString (JBool b))
  | JNum n => Some (ToString (JNum n))
  | JStr s => Some (dquote +++ s +++ dquote)
  | JObj fields =>
      let fix members (l : list (string * JSValue)) (first : bool) : string :=
        match l with
        | [] => EmptyString
        | (k, x) :: t =>
            match json_text x with
            | None => members t first
            | Some tx =>
                (if first then EmptyString else ",") +++
                dquote +++ k +++ dquote +++ ":" +++ tx +++ members t false
            end
        end in
      Some ("{" +++ members fields true +++ "}")
  end.

#[local] Instance plain_json : Builtins := {|
  JSON_stringify v :=
    match json_text v with
    | Some s => Normal (JStr s)
    | None => Normal JUndefined
    end
|}.

(** A [JSON.stringify] that meets a cyclic object. *)
#[local] Instance cyclic_json : Builtins := {|
  JSON_stringify _ := Throw (TypeError "Converting circular structure to JSON")
|}.

(** A stream on which every call returns. *)
Definition healthy (h : nat) (ip : string) : Response := {|
  handle := h;
  writeHead_fails := None;
  write_fails := fun _ => None;
  flush := Some None;
  end_fails := None;
  on_fails := None;
  removeListener_fails := None;
  remoteAddress := JStr ip
|}.

(** A half-dead stream: every write throws, and so does [end]. *)
Definition broken (h : nat) (ip : string) : Response := {|
  handle := h;
  writeHead_fails := None;
  write_fails := fun _ => Some "write EPIPE";
  flush := None;
  end_fails := Some "socket hang up";
  on_fails := None;
  removeListener_fails := None;
  remoteAddress := JStr ip
|}.

(** A response whose head cannot be written any more. *)
Definition headless (h : nat) : Response := {|
  handle := h;
  writeHead_fails := Some "Cannot set headers after they are sent to the client";
  write_fails := fun _ => None;
  flush := None;
  end_fails := None;
  on_fails := None;
  removeListener_fails := None;
  remoteAddress := JUndefined
|}.

Definition connect (mid : string) (r : Response) (p : JSValue) : Msg :=
  {| _msgid := mid; res := Some r; payload := p; topic := JUndefined |}.

Definition publish (mid : string) (t p : JSValue) : Msg :=
  {| _msgid := mid; res := None; payload := p; topic := t |}.

Definition fresh_node : Node :=
  {| event := JStr EmptyString; data := JStr EmptyString; subscribers := [] |}.

Definition with_subscribers (l : list Subscriber) : Node :=
  {| event := JStr EmptyString; data := JStr EmptyString; subscribers := l |}.

Definition listener_of (mid : string) (r : Response) : Closure :=
  {| subscriberId := mid; responseSocket := r; clientIP := remoteAddress r |}.

(** Entries as each file pushes them. *)
Definition entry1 (mid : string) (r : Response) : Subscriber :=
  {| id := mid; socket := r; closeHandler := None |}.
Definition entry2 (mid : string) (r : Response) : Subscriber :=
  {| id := mid; socket := r; closeHandler := Some (listener_of mid r) |}.

Definition A : Response := healthy 1 "10.0.0.1".
Definition B : Response := healthy 2 "10.0.0.2".
Definition X : Response := broken 3 "10.0.0.3".

(** A registry of three, the second half-dead. *)
Definition three : Node :=
  with_subscribers [entry2 "m1" A; entry2 "m2" X; entry2 "m3" B].

(** Four connection attempts: a retry of ["m1"], and one whose head
    cannot be written. *)
Definition arrivals : list Msg :=
  [connect "m1" A JUndefined;
   connect "m1" B JUndefined;
   connect "m2" (headless 9) JUndefined;
   connect "m3" B (JStr "hello")].

(** A registry holding the one healthy stream [A], as each file pushes it. *)
Definition lone1 : Node := with_subscribers [entry1 "m1" A].
Definition lone2 : Node := with_subscribers [entry2 "m1" A].

(** A registry of one half-dead stream. *)
Definition lone_broken : Node := with_subscribers [entry2 "m2" X].

(** The broadcast of the scenario: event [tick], payload [{n: 1}]. *)
Definition tick : Msg := publish "e1" (JStr "tick") (JObj [("n", JNum 1)]).
Definition tick_json : string := "{" +++ dquote +++ "n" +++ dquote +++ ":1}".

End Samples.

(** ** The node's life: construction and the callbacks it registers *)

Module Lifecycle.

(** The [config] object the constructor reads. *)
Record Config : Type := {
  event : JSValue;
  data : JSValue
}.

(** [CreateSseServerNode], lines 152-193 of [sse-server.js] and 216-292
    of [part_000]: the node starts with an empty registry and the
    configured event and data; the handlers it then registers are the
    actions below. *)
Definition CreateSseServerNode (config : Config) : Node :=
  {| Model.event := event config;
     Model.data := data config;
     subscribers := [] |}.

Section WithBuiltins.
Context `{Builtins}.

(** What can happen to a node of [sse-server.js]: a work item arrives, a
    client's request closes (the [closeHandler] that captured [msg]
    fires), or the runtime signals a redeploy. *)
Inductive Action1 : Type :=
| Input1 (msg : Msg) (done : bool)
| ClientClose1 (msg : Msg)
| Redeploy1.

Definition perform1 (a : Action1) : Op unit :=
  match a with
  | Input1 msg done => SseServer.input msg done
  | ClientClose1 msg => SseServer.closeHandler msg
  | Redeploy1 => SseServer.runtime_event
  end.

(** The same for [part_000], with the node's own close; a removal request
    stands for a call of [unregisterSubscriber], which nothing in the file
    makes. *)
Inductive Action2 : Type :=
| Input2 (msg : Msg) (done : bool)
| ClientClose2 (c : Closure)
| Removal2 (msg : Msg)
| Redeploy2
| NodeClose2.

Definition perform2 (a : Action2) : Op unit :=
  match a with
  | Input2 msg done => Part000.input msg done
  | ClientClose2 c => Part000.closeHandler c
  | Removal2 msg => Part000.unregisterSubscriber msg
  | Redeploy2 => Part000._runtimeHandler
  | NodeClose2 => Part000.on_close
  end.

End WithBuiltins.

(** The node after a run of callbacks, each entered with the node as the
    previous one left it (a throw does not undo a mutation). *)
Fixpoint after {A : Type} (perform : A -> Op unit) (acts : list A) (n : Node) : Node :=
  match acts with
  | [] => n
  | a :: t => after perform t (state_of (perform a n))
  end.

End Lifecycle.

(** ** Vocabulary of the further properties *)

Module Observe.

(** [l'] is [l] with some elements taken out, the rest in order. *)
Inductive subseq {A : Type} : list A -> list A -> Prop :=
| subseq_nil : subseq [] []
| subseq_skip x l' l : subseq l' l -> subseq l' (x :: l)
| subseq_keep x l' l : subseq l' l -> subseq (x :: l') (x :: l).

(** The node kept its configuration and lost subscribers at most. *)
Definition shrinks (n n' : Node) : Prop :=
  event n' = event n /\ data n' = data n /\
  subseq (subscribers n') (subscribers n).

(** The entry holds the closure [part_000] made for it. *)
Definition well_hooked (s : Subscriber) : Prop :=
  closeHandler s
  = Some {| subscriberId := id s; responseSocket := socket s;
            clientIP := remoteAddress (socket s) |}.

(** The response or request object a call is made on. *)
Definition stream_of (c : Call) : option nat :=
  match c with
  | CWriteHead h _ _ | CWrite h _ | CFlush h | CEnd h
  | COn h _ | CRemoveListener h _ => Some h
  | _ => None
  end.

Definition is_log (c : Call) : bool :=
  match c with
  | CLogDebug _ | CLogWarn _ | CLogError _ => true
  | _ => false
  end.

(** A write, a flush or an end. *)
Definition is_frame_call (c : Call) : bool :=
  match c with
  | CWrite _ _ | CFlush _ | CEnd _ => true
  | _ => false
  end.

Definition is_status (c : Call) : bool :=
  match c with CStatus _ _ _ => true | _ => false end.

(** The chunks passed to [write] on the stream [h], in order, as one text. *)
Fixpoint written (h : nat) (cs : list Call) : string :=
  match cs with
  | [] => EmptyString
  | CWrite h' chunk :: t =>
      if Nat.eqb h' h then chunk +++ written h t else written h t
  | _ :: t => written h t
  end.

(** One frame on the wire. *)
Definition frame (ev dat messageId : string) : string :=
  "event: " +++ ev +++ LF +++
  "data: " +++ dat +++ LF +++
  "id: " +++ messageId +++ LF +++ LF.

(** The closure [registerSubscriber] of [part_000] makes for a work item. *)
Definition closure_of (msg : Msg) (r : Response) : Closure :=
  {| subscriberId := _msgid msg; responseSocket := r; clientIP := remoteAddress r |}.

(** The close frame [unregisterSubscriber] writes and its flush return. *)
Definition server_close_ok (msg : Msg) (r : Response) : bool :=
  returns (write_fails r ("event: close" +++ LF)) &&
  returns (write_fails r ("data: The connection was closed by the server." +++ LF)) &&
  returns (write_fails r ("id: " +++ _msgid msg +++ LF +++ LF)) &&
  flush_returns r.

(** The registry without the entries of id [x]. *)
Definition without (x : string) (l : list Subscriber) : list Subscriber :=
  filter (fun s => negb (id s =? x)%string) l.

(** The texts of the warnings logged, in order. *)
Fixpoint warnings (cs : list Call) : list string :=
  match cs with
  | [] => []
  | CLogWarn text :: t => text :: warnings t
  | _ :: t => warnings t
  end.

(** The streams [end] was called on, in order. *)
Fixpoint ended (cs : list Call) : list nat :=
  match cs with
  | [] => []
  | CEnd h :: t => h :: ended t
  | _ :: t => ended t
  end.

(** The first of two calls that throws. *)
Definition or_else (a b : option string) : option string :=
  match a with
  | Some m => Some m
  | None => b
  end.

(** The message of the throw that stops the cleanup of a subscriber in a
    drain of [part_000], if any of its calls throws: the listener removal,
    the three writes, the flush and the end, in the order of the source. *)
Definition close_failure (reason : string) (s : Subscriber) : option string :=
  or_else (match closeHandler s with
           | Some _ => removeListener_fails (socket s)
           | None => None
           end)
    (or_else (write_fails (socket s) ("event: close" +++ LF))
       (or_else (write_fails (socket s) ("data: " +++ reason +++ LF))
          (or_else (write_fails (socket s) ("id: 0" +++ LF +++ LF))
             (or_else (match flush (socket s) with
                       | Some fails => fails
                       | None => None
                       end)
                (end_fails (socket s)))))).

(** The warning a drain logs for a throw with message [m]. *)
Definition close_warning (failure : option string) : list string :=
  match failure with
  | Some m => ["Error closing subscriber response: " +++ m]
  | None => []
  end.

(** The listener removal, the close frame and the flush of a drain of
    [part_000] return on this subscriber, so its [end] is reached. *)
Definition reaches_end (reason : string) (s : Subscriber) : bool :=
  unhooked_ok s && close_frame_ok reason s.

End Observe.
Export Observe.

Module MoreSamples.

(** A request on which no listener can be registered. *)
Definition deaf (h : nat) : Response := {|
  handle := h;
  writeHead_fails := None;
  write_fails := fun _ => None;
  flush := None;
  end_fails := None;
  on_fails := Some "req.on is not a function";
  removeListener_fails := None;
  remoteAddress := JUndefined
|}.

Definition plain_config : Lifecycle.Config :=
  {| Lifecycle.event := JStr EmptyString; Lifecycle.data := JStr EmptyString |}.

(** Two healthy subscribers, as [part_000] pushes them. *)
Definition pair2 : Node :=
  Samples.with_subscribers [Samples.entry2 "m1" Samples.A; Samples.entry2 "m3" Samples.B].

(** One healthy and one half-dead subscriber, in each file's form. *)
Definition mixed1 : Node :=
  Samples.with_subscribers [Samples.entry1 "m1" Samples.A; Samples.entry1 "m2" Samples.X].
Definition mixed2 : Node :=
  Samples.with_subscribers [Samples.entry2 "m1" Samples.A; Samples.entry2 "m2" Samples.X].

End MoreSamples.

(** * Properties *)

(** ** Running operations *)

#[local] Arguments String.append : simpl never.
#[local] Arguments nat_to_string : simpl never.

Lemma run_bind_normal {A B} (m : Op A) (k : A -> Op B) n n1 c1 a n2 c2 r :
  m n = (n1, c1, Normal a) ->
  k a n1 = (n2, c2, r) ->
  bind m k n = (n2, c1 ++ c2, r).
Proof. intros Hm Hk. unfold bind. rewrite Hm, Hk. reflexivity. Qed.

Lemma run_bind_throw {A B} (m : Op A) (k : A -> Op B) n n1 c1 e :
  m n = (n1, c1, Throw e) ->
  bind m k n = (n1, c1, Throw e).
Proof. intros Hm. unfold bind. rewrite Hm. reflexivity. Qed.

Lemma returns_true fails : returns fails = true -> fails = None.
Proof. destruct fails; [discriminate | reflexivity]. Qed.

Lemma flush_returns_run r n :
  flush_returns r = true ->
  exists cs, flush_if_supported r n = (n, cs, Normal tt) /\
             forall c, In c cs -> c = CFlush (handle r).
Proof.
  unfold flush_returns, flush_if_supported, transport, ret.
  destruct (flush r) as [[m|]|]; simpl; intros Hf; try discriminate.
  - exists [CFlush (handle r)]. split; [reflexivity|].
    intros c [<-|[]]. reflexivity.
  - exists []. split; [reflexivity|]. intros c [].
Qed.

(** Unfolds an operation built from the primitives down to its triple. *)
Ltac run_op :=
  unfold updateNodeStatus,
    write, writeHead, end_, req_on_close, req_removeListener,
    flush_if_supported, msg_res,
    RED_log_debug, RED_log_warn, RED_log_error, node_status, node_send,
    bind, try_catch, try_finally, lift, throw, ret, emit, transport,
    get_subscribers, set_subscribers,
    state_of, calls_of, completion_of in *;
  simpl in *.

(** Case analysis on the innermost scrutinee the goal is stuck on. *)
Ltac break_match :=
  match goal with
  | |- context [match ?X with _ => _ end] =>
      lazymatch X with
      | context [match _ with _ => _ end] => fail
      | _ => destruct X eqn:?
      end
  end.

(** ** Broadcast *)

Section Broadcast.
Context `{Builtins}.
Variables ev dat messageId : string.

(** One subscriber of a broadcast pass: the node is untouched, the
    callback returns whether the frame went out, a failed stream is ended
    and a warning names its subscriber, and nothing is sent downstream. *)
Lemma send_event_run s n :
  exists cs,
    send_event ev dat messageId s n = (n, cs, Normal (sent_ok ev dat messageId s)) /\
    (sent_ok ev dat messageId s = false ->
       In (CEnd (handle (socket s))) cs /\
       exists why, In (CLogWarn ("Error sending event to subscriber " +++ id s +++ ": " +++ why)) cs) /\
    (forall c, In c cs -> is_send c = false).
Proof.
  unfold send_event, sent_ok, flush_returns, returns. run_op.
  destruct (write_fails (socket s) ("event: " +++ ev +++ LF)) as [m1|];
  destruct (write_fails (socket s) ("data: " +++ dat +++ LF)) as [m2|];
  destruct (write_fails (socket s) ("id: " +++ messageId +++ LF +++ LF)) as [m3|];
  destruct (flush (socket s)) as [[m4|]|];
  destruct (end_fails (socket s)) as [m5|]; simpl;
  eexists; (split; [reflexivity|]);
  (split;
   [ intros Hf; first [discriminate Hf | split; [simpl; tauto | eexists; simpl; eauto 10]]
   | intros c Hc; simpl in Hc;
     repeat (destruct Hc as [<-|Hc]; [reflexivity|]); destruct Hc ]).
Qed.

Lemma filter_op_send_event l :
  forall n,
  exists cs,
    filter_op (send_event ev dat messageId) l n
      = (n, cs, Normal (filter (sent_ok ev dat messageId) l)) /\
    (forall s, In s l -> sent_ok ev dat messageId s = false ->
       In (CEnd (handle (socket s))) cs /\
       exists why, In (CLogWarn ("Error sending event to subscriber " +++ id s +++ ": " +++ why)) cs) /\
    (forall c, In c cs -> is_send c = false).
Proof.
  induction l as [|x t IH]; intros n.
  - exists []. simpl. repeat split; intros; contradiction.
  - destruct (send_event_run x n) as (c1 & E1 & F1 & S1).
    destruct (IH n) as (c2 & E2 & F2 & S2).
    exists (c1 ++ c2 ++ []). split; [|split].
    + simpl filter_op.
      eapply run_bind_normal; [exact E1|].
      eapply run_bind_normal; [exact E2|].
      unfold ret. simpl filter. destruct (sent_ok ev dat messageId x); reflexivity.
    + intros s [->|Hs] Hf.
      * destruct (F1 Hf) as (He & why & Hw). split.
        -- apply in_or_app. now left.
        -- exists why. apply in_or_app. now left.
      * destruct (F2 s Hs Hf) as (He & why & Hw). split.
        -- apply in_or_app. right. apply in_or_app. now left.
        -- exists why. apply in_or_app. right. apply in_or_app. now left.
    + intros c Hc. rewrite app_nil_r in Hc.
      apply in_app_or in Hc as [Hc|Hc]; auto.
Qed.

End Broadcast.

Lemma filter_length_complement {A} (p : A -> bool) (l : list A) :
  List.length (filter p l) = List.length l - List.length (filter (fun x => negb (p x)) l).
Proof.
  induction l as [|x t IH]; [reflexivity|].
  assert (Hle : List.length (filter (fun x => negb (p x)) t) <= List.length t)
    by apply filter_length_le.
  cbn [filter]. destruct (p x); cbn [negb List.length]; lia.
Qed.

(** The run of [handleServerEvent] once the payload has been serialized. *)
Lemma handleServerEvent_run `{Builtins} (n : Node) (msg : Msg) (d : JSValue) :
  _serializeData (broadcast_payload n msg) = Normal d ->
  let ev := broadcast_event n msg in
  let dat := ToString d in
  exists cs,
    handleServerEvent msg n =
      ({| event := event n; data := data n;
          subscribers := filter (sent_ok ev dat (_msgid msg)) (subscribers n) |},
       CLogDebug ("Sent event: " +++ ev) :: CLogDebug ("Data: " +++ dat) :: cs,
       Normal tt) /\
    filter_op (send_event ev dat (_msgid msg)) (subscribers n) n
      = (n, cs, Normal (filter (sent_ok ev dat (_msgid msg)) (subscribers n))) /\
    (forall s, In s (subscribers n) -> sent_ok ev dat (_msgid msg) s = false ->
       In (CEnd (handle (socket s))) cs /\
       exists why, In (CLogWarn ("Error sending event to subscriber " +++ id s +++ ": " +++ why)) cs) /\
    (forall c, In c cs -> is_send c = false).
Proof.
  intros Hd ev dat.
  destruct (filter_op_send_event ev dat (_msgid msg) (subscribers n) n)
    as (cs & E & F & S).
  exists cs. split; [|split; [exact E|split; assumption]].
  unfold handleServerEvent. cbv zeta. etransitivity.
  { eapply run_bind_normal. { unfold lift. rewrite Hd. reflexivity. }
    eapply run_bind_normal. { reflexivity. }
    eapply run_bind_normal. { reflexivity. }
    eapply run_bind_normal. { reflexivity. }
    eapply run_bind_normal. { exact E. }
    reflexivity. }
  simpl. rewrite app_nil_r. reflexivity.
Qed.

(** When the payload cannot be serialized there is no pass at all: the
    throw leaves the node as it was and no call is made. *)
Lemma handleServerEvent_unserializable `{Builtins} (n : Node) (msg : Msg) (e : Exn) :
  _serializeData (broadcast_payload n msg) = Throw e ->
  handleServerEvent msg n = (n, [], Throw e).
Proof.
  intros Hd. unfold handleServerEvent. cbv zeta.
  eapply run_bind_throw. unfold lift. rewrite Hd. reflexivity.
Qed.

(** C1. Broadcast reconciliation: once the payload is serialized, a
    broadcast pass returns normally and leaves in the registry exactly the
    subscribers on whose stream the frame went out, in their original
    order; they number N - |F| where F are the subscribers whose write (or
    flush) threw, and the stream of each subscriber in F was ended, a
    failure of that end being swallowed. *)
Theorem broadcast_reconciliation `{Builtins} (n : Node) (msg : Msg) (d : JSValue) :
  _serializeData (broadcast_payload n msg) = Normal d ->
  let ok := sent_ok (broadcast_event n msg) (ToString d) (_msgid msg) in
  let F := filter (fun s => negb (ok s)) (subscribers n) in
  let out := handleServerEvent msg n in
  completion_of out = Normal tt /\
  subscribers (state_of out) = filter ok (subscribers n) /\
  List.length (subscribers (state_of out))
    = List.length (subscribers n) - List.length F /\
  (forall s, In s F -> In (CEnd (handle (socket s))) (calls_of out)).
Proof.
  intros Hd ok F out.
  destruct (handleServerEvent_run n msg d Hd) as (cs & E & _ & Hend & _).
  subst out. rewrite E. unfold completion_of, state_of, calls_of. simpl.
  split; [reflexivity|]. split; [reflexivity|]. split.
  - apply filter_length_complement.
  - intros s Hs. apply filter_In in Hs as [Hin Hneg].
    apply negb_true_iff in Hneg.
    right. right. apply (Hend s Hin Hneg).
Qed.

Lemma broadcast_reconciliation_witness :
  let out := @handleServerEvent Samples.plain_json Samples.tick Samples.three in
  map id (subscribers (state_of out)) = ["m1"; "m3"] /\
  List.length (subscribers (state_of out)) = 3 - 1 /\
  In (CEnd 3) (calls_of out).
Proof.
  destruct (@broadcast_reconciliation Samples.plain_json Samples.three Samples.tick
              (JStr Samples.tick_json) eq_refl) as (_ & Hs & Hl & He).
  split; [|split].
  - rewrite Hs. reflexivity.
  - exact Hl.
  - apply (He (Samples.entry2 "m2" Samples.X)). simpl. tauto.
Defined.

(** Every call made for one subscriber is among the calls of the pass. *)
Lemma filter_op_send_event_calls `{Builtins} ev dat messageId l n s c :
  In s l ->
  In c (calls_of (send_event ev dat messageId s n)) ->
  In c (calls_of (filter_op (send_event ev dat messageId) l n)).
Proof.
  induction l as [|x t IH]; intros Hs Hc; [contradiction|].
  destruct (send_event_run ev dat messageId x n) as (c1 & E1 & _).
  destruct (filter_op_send_event ev dat messageId t n) as (c2 & E2 & _).
  simpl filter_op.
  erewrite run_bind_normal;
    [| exact E1 | eapply run_bind_normal; [exact E2 | reflexivity]].
  unfold calls_of in *. simpl.
  destruct Hs as [->|Hs].
  - rewrite E1 in Hc. apply in_or_app. now left.
  - apply in_or_app. right. apply in_or_app. left.
    specialize (IH Hs Hc). rewrite E2 in IH. exact IH.
Qed.

(** The first line of the frame is always attempted; the second once the
    first went out. *)
Lemma send_event_lines `{Builtins} ev dat messageId s n :
  In (CWrite (handle (socket s)) ("event: " +++ ev +++ LF))
     (calls_of (send_event ev dat messageId s n)) /\
  (write_fails (socket s) ("event: " +++ ev +++ LF) = None ->
   In (CWrite (handle (socket s)) ("data: " +++ dat +++ LF))
      (calls_of (send_event ev dat messageId s n))).
Proof.
  unfold send_event. run_op.
  destruct (write_fails (socket s) ("event: " +++ ev +++ LF)) as [m1|];
  destruct (write_fails (socket s) ("data: " +++ dat +++ LF)) as [m2|];
  destruct (write_fails (socket s) ("id: " +++ messageId +++ LF +++ LF)) as [m3|];
  destruct (flush (socket s)) as [[m4|]|];
  destruct (end_fails (socket s)) as [m5|]; simpl;
  (split; [tauto | intros Hw; first [discriminate Hw | tauto]]).
Qed.

(** C7. Broadcast name and payload resolution: the event name is the
    node's configured name when it is set (truthy), else the work item's
    topic when that is set, else ["message"]; the payload is the node's
    configured data when set, else the work item's payload; a string is
    serialized as itself and any other value by [JSON.stringify]; and these
    are the [event:] and [data:] lines written to each subscriber. *)
Theorem broadcast_resolution `{Builtins} (n : Node) (msg : Msg) :
  broadcast_event n msg
    = (if truthy (event n) then ToString (event n)
       else if truthy (topic msg) then ToString (topic msg)
       else "message") /\
  broadcast_payload n msg = (if truthy (data n) then data n else payload msg) /\
  (forall s, _serializeData (JStr s) = Normal (JStr s) /\ ToString (JStr s) = s) /\
  (forall v, is_string v = false -> _serializeData v = JSON_stringify v) /\
  (forall d s,
     _serializeData (broadcast_payload n msg) = Normal d ->
     In s (subscribers n) ->
     In (CWrite (handle (socket s)) ("event: " +++ broadcast_event n msg +++ LF))
        (calls_of (handleServerEvent msg n)) /\
     (write_fails (socket s) ("event: " +++ broadcast_event n msg +++ LF) = None ->
      In (CWrite (handle (socket s)) ("data: " +++ ToString d +++ LF))
         (calls_of (handleServerEvent msg n)))).
Proof.
  split; [|split; [|split; [|split]]].
  - unfold broadcast_event, js_or.
    destruct (truthy (event n)) eqn:E1; simpl; rewrite ?E1; [reflexivity|].
    destruct (truthy (topic msg)) eqn:E2; reflexivity.
  - reflexivity.
  - intros s. split; reflexivity.
  - intros v Hv. unfold _serializeData. rewrite Hv. reflexivity.
  - intros d s Hd Hs.
    destruct (handleServerEvent_run n msg d Hd) as (cs & E & Ef & _).
    destruct (send_event_lines (broadcast_event n msg) (ToString d) (_msgid msg) s n)
      as [L1 L2].
    pose proof (fun c => filter_op_send_event_calls
                  (broadcast_event n msg) (ToString d) (_msgid msg)
                  (subscribers n) n s c Hs) as Hall.
    rewrite Ef in Hall. rewrite E. unfold calls_of in *. cbn [fst snd] in *.
    split.
    + right. right. apply Hall. exact L1.
    + intros Hw. right. right. apply Hall. exact (L2 Hw).
Qed.

Lemma broadcast_resolution_witness :
  let out := @handleServerEvent Samples.plain_json Samples.tick Samples.three in
  @broadcast_event Samples.three Samples.tick = "tick" /\
  In (CWrite 1 ("event: tick" +++ LF)) (calls_of out) /\
  In (CWrite 1 ("data: " +++ Samples.tick_json +++ LF)) (calls_of out).
Proof.
  destruct (@broadcast_resolution Samples.plain_json Samples.three Samples.tick)
    as (He & _ & _ & _ & Hw).
  destruct (Hw (JStr Samples.tick_json) (Samples.entry2 "m1" Samples.A) eq_refl
              (or_introl eq_refl)) as [H1 H2].
  split; [|split].
  - rewrite He. reflexivity.
  - exact H1.
  - exact (H2 eq_refl).
Defined.

(** C10. Default payload of the open frame: a falsy payload ([undefined],
    [null], the empty string, [0], [false]) gives the data line
    ["Connection opened"]; a truthy string is written as it is and any
    other truthy payload as its JSON encoding; and that line is the one
    [registerSubscriber] writes second in both files. *)
Theorem open_frame_data_line `{Builtins} (msg : Msg) :
  Forall (fun p => truthy p = false)
         [JUndefined; JNull; JStr EmptyString; JNum 0; JBool false] /\
  (truthy (payload msg) = false ->
     open_data_line msg = Normal ("data: Connection opened" +++ LF)) /\
  (forall s, payload msg = JStr s -> truthy (payload msg) = true ->
     open_data_line msg = Normal ("data: " +++ s +++ LF)) /\
  (forall j, truthy (payload msg) = true -> is_string (payload msg) = false ->
     JSON_stringify (payload msg) = Normal (JStr j) ->
     open_data_line msg = Normal ("data: " +++ j +++ LF)) /\
  (forall n r line,
     res msg = Some r ->
     writeHead_fails r = None ->
     write_fails r ("event: open" +++ LF) = None ->
     open_data_line msg = Normal line ->
     In (CWrite (handle r) line) (calls_of (SseServer.registerSubscriber msg n)) /\
     In (CWrite (handle r) line) (calls_of (Part000.registerSubscriber msg n))).
Proof.
  split; [repeat constructor|].
  split; [|split; [|split]].
  - intros Hp. unfold open_data_line, js_or. rewrite Hp. reflexivity.
  - intros s Hs Hp. unfold open_data_line, js_or. rewrite Hp, Hs. reflexivity.
  - intros j Hp Hn Hj. unfold open_data_line, js_or, _serializeData.
    rewrite Hp, Hn, Hj. reflexivity.
  - intros n r line Hr Hh Hw Hl.
    unfold SseServer.registerSubscriber, Part000.registerSubscriber.
    run_op. rewrite Hr; simpl. rewrite Hh; simpl. rewrite Hw; simpl.
    rewrite Hl; simpl.
    destruct (write_fails r line);
    destruct (write_fails r ("id: " +++ _msgid msg +++ LF +++ LF));
    destruct (flush r) as [[?|]|];
    destruct (on_fails r); simpl; auto 10;
    destruct (existsb (fun sub => (id sub =? _msgid msg)%string) (subscribers n));
    simpl; auto 10.
Qed.

Lemma open_frame_data_line_witness :
  let m := Samples.connect "m1" Samples.A (JNum 0) in
  @open_data_line Samples.plain_json m = Normal ("data: Connection opened" +++ LF) /\
  In (CWrite 1 ("data: Connection opened" +++ LF))
     (calls_of (@Part000.registerSubscriber Samples.plain_json m Samples.fresh_node)) /\
  @open_data_line Samples.plain_json (Samples.connect "m2" Samples.B (JStr "hello"))
    = Normal ("data: hello" +++ LF) /\
  @open_data_line Samples.plain_json (Samples.connect "m3" Samples.B (JNum 7))
    = Normal ("data: 7" +++ LF).
Proof.
  intros m.
  destruct (@open_frame_data_line Samples.plain_json m) as (_ & Hd & _ & _ & Hw).
  destruct (@open_frame_data_line Samples.plain_json
              (Samples.connect "m2" Samples.B (JStr "hello"))) as (_ & _ & Hs & _).
  destruct (@open_frame_data_line Samples.plain_json
              (Samples.connect "m3" Samples.B (JNum 7))) as (_ & _ & _ & Hj & _).
  split; [exact (Hd eq_refl)|]. split.
  - exact (proj2 (Hw Samples.fresh_node Samples.A _ eq_refl eq_refl eq_refl eq_refl)).
  - split; [exact (Hs "hello" eq_refl eq_refl) | exact (Hj "7" eq_refl eq_refl eq_refl)].
Defined.

(** ** The ['input'] handler *)

(** Whatever the work does, the handler reports a throw, signals
    completion and returns. *)
Lemma on_input_run `{Builtins} (reg : Msg -> Op unit) (msg : Msg) (done : bool) (n : Node) :
  let work := work_of reg msg n in
  on_input reg msg done n
  = (state_of work,
     calls_of work ++ error_report work ++ (if done then [CDone] else []),
     Normal tt).
Proof.
  unfold on_input, work_of, error_report, count_text, updateNodeStatus.
  run_op.
  destruct (match res msg with Some _ => reg msg | None => handleServerEvent msg end n)
    as [[n1 c1] [[]|e]]; destruct done; simpl;
    rewrite <- ?app_assoc, ?app_nil_r; reflexivity.
Qed.

(** C8. Work-item completion under exceptions: in both files the input
    handler never throws; it leaves the node as the registration or the
    broadcast left it; when that work threw, the error is logged and the
    red status published; and the completion callback is the last call
    made, on the success and on the error path alike. *)
Theorem work_item_always_completed `{Builtins} (msg : Msg) (n : Node) :
  (let work := work_of SseServer.registerSubscriber msg n in
   let run := SseServer.input msg true n in
   completion_of run = Normal tt /\
   state_of run = state_of work /\
   calls_of run = calls_of work ++ error_report work ++ [CDone]) /\
  (let work := work_of Part000.registerSubscriber msg n in
   let run := Part000.input msg true n in
   completion_of run = Normal tt /\
   state_of run = state_of work /\
   calls_of run = calls_of work ++ error_report work ++ [CDone]) /\
  (forall e, completion_of (work_of SseServer.registerSubscriber msg n) = Throw e ->
     exists text, error_report (work_of SseServer.registerSubscriber msg n)
                  = [CLogError e; CStatus "red" "dot" text]) /\
  (forall e, completion_of (work_of Part000.registerSubscriber msg n) = Throw e ->
     exists text, error_report (work_of Part000.registerSubscriber msg n)
                  = [CLogError e; CStatus "red" "dot" text]) /\
  completion_of (SseServer.input msg false n) = Normal tt /\
  completion_of (Part000.input msg false n) = Normal tt.
Proof.
  unfold SseServer.input, Part000.input.
  rewrite !on_input_run. unfold completion_of, state_of, calls_of. simpl.
  repeat split; try reflexivity;
    intros e He; unfold error_report, completion_of; rewrite He; eexists; reflexivity.
Qed.

Lemma work_item_always_completed_witness :
  let m := Samples.connect "m1" (Samples.headless 9) JUndefined in
  let work := @work_of Samples.plain_json
                (@SseServer.registerSubscriber Samples.plain_json) m Samples.fresh_node in
  let run := @SseServer.input Samples.plain_json m true Samples.fresh_node in
  completion_of run = Normal tt /\
  calls_of run = calls_of work ++ error_report work ++ [CDone] /\
  exists text,
    error_report work
    = [CLogError (Error "Cannot set headers after they are sent to the client");
       CStatus "red" "dot" text].
Proof.
  intros m work run.
  destruct (@work_item_always_completed Samples.plain_json m Samples.fresh_node)
    as ((Hc & _ & Hcalls) & _ & He & _).
  split; [exact Hc|]. split; [exact Hcalls|].
  exact (He _ eq_refl).
Defined.

(** The two error paths, run: a response whose head cannot be written,
    and a broadcast whose payload cannot be serialized. *)
Example input_on_failed_head :
  @SseServer.input Samples.plain_json
     (Samples.connect "m1" (Samples.headless 9) JUndefined) true Samples.fresh_node
  = (Samples.fresh_node,
     [CLogDebug "Client connected";
      CWriteHead 9 200 sse_headers;
      CLogError (Error "Cannot set headers after they are sent to the client");
      CStatus "red" "dot" "0 client(s) connected";
      CDone],
     Normal tt).
Proof. reflexivity. Qed.

Example input_on_cyclic_payload :
  calls_of (@Part000.input Samples.cyclic_json Samples.tick true Samples.three)
  = [CLogError (TypeError "Converting circular structure to JSON");
     CStatus "red" "dot" "3 client(s) connected";
     CDone].
Proof. reflexivity. Qed.

(** ** Registration *)

Lemma opens_stream_inv `{Builtins} (msg : Msg) :
  opens_stream msg = true ->
  exists r line,
    res msg = Some r /\ open_data_line msg = Normal line /\
    writeHead_fails r = None /\
    write_fails r ("event: open" +++ LF) = None /\
    write_fails r line = None /\
    write_fails r ("id: " +++ _msgid msg +++ LF +++ LF) = None /\
    flush_returns r = true /\
    on_fails r = None.
Proof.
  unfold opens_stream.
  destruct (res msg) as [r|]; [|discriminate].
  destruct (open_data_line msg) as [line|e]; [|discriminate].
  intros Hb. repeat (apply andb_prop in Hb as [Hb ?]).
  exists r, line. repeat split; auto using returns_true.
Qed.

Lemma subscribers_enrol_node entry n :
  subscribers (enrol_node entry n) = enrolled entry (subscribers n).
Proof.
  unfold enrol_node, enrolled.
  destruct (existsb _ (subscribers n)); reflexivity.
Qed.

Lemma flush_returns_calls r n :
  flush_returns r = true ->
  flush_if_supported r n = (n, flush_calls r, Normal tt).
Proof.
  unfold flush_returns, flush_if_supported, flush_calls, transport, ret, returns.
  destruct (flush r) as [[m|]|]; intros Hf; try discriminate; reflexivity.
Qed.

(** The run of [registerSubscriber] of [sse-server.js] on a work item that
    opens its stream. *)
Lemma register_v1_opens `{Builtins} (msg : Msg) (n : Node) :
  opens_stream msg = true ->
  exists r line,
    res msg = Some r /\ open_data_line msg = Normal line /\
    SseServer.registerSubscriber msg n
    = (enrol_node (entry_v1 msg r) n,
       open_calls msg r line ++
       [CSend (_msgid msg) (JObj [("event", JStr "connect")]);
        COn (handle r) (_msgid msg);
        CStatus "green" "dot"
          (count_text (List.length (enrolled (entry_v1 msg r) (subscribers n))))],
       Normal tt).
Proof.
  intros Ho.
  destruct (opens_stream_inv msg Ho)
    as (r & line & Hr & Hl & Hh & Hw1 & Hw2 & Hw3 & Hf & Hon).
  exists r, line. split; [exact Hr|]. split; [exact Hl|].
  unfold SseServer.registerSubscriber, open_calls.
  etransitivity.
  { eapply run_bind_normal. { reflexivity. }
    eapply run_bind_normal. { unfold msg_res. rewrite Hr. reflexivity. }
    eapply run_bind_normal. { unfold writeHead, transport. rewrite Hh. reflexivity. }
    eapply run_bind_normal. { unfold write, transport. rewrite Hw1. reflexivity. }
    eapply run_bind_normal. { unfold lift. rewrite Hl. reflexivity. }
    eapply run_bind_normal. { unfold write, transport. rewrite Hw2. reflexivity. }
    eapply run_bind_normal. { unfold write, transport. rewrite Hw3. reflexivity. }
    eapply run_bind_normal. { apply flush_returns_calls, Hf. }
    eapply run_bind_normal. { reflexivity. }
    eapply run_bind_normal. { unfold req_on_close, transport. rewrite Hon. reflexivity. }
    eapply run_bind_normal. { reflexivity. }
    eapply run_bind_normal with (n1 := enrol_node (entry_v1 msg r) n) (c1 := []) (a := tt).
    { unfold enrol_node, entry_v1. simpl.
      destruct (existsb _ (subscribers n)); reflexivity. }
    unfold updateNodeStatus.
    eapply run_bind_normal. { reflexivity. }
    reflexivity. }
  rewrite subscribers_enrol_node. simpl.
  rewrite <- ?app_assoc. simpl. rewrite ?app_nil_r. reflexivity.
Qed.

(** The same for [part_000], which notifies last and with the count. *)
Lemma register_v2_opens `{Builtins} (msg : Msg) (n : Node) :
  opens_stream msg = true ->
  exists r line,
    res msg = Some r /\ open_data_line msg = Normal line /\
    Part000.registerSubscriber msg n
    = (enrol_node (entry_v2 msg r) n,
       open_calls msg r line ++
       [COn (handle r) (_msgid msg);
        CStatus "green" "dot"
          (count_text (List.length (enrolled (entry_v2 msg r) (subscribers n))));
        CSend (_msgid msg)
          (Part000.notification "connect"
             (List.length (enrolled (entry_v2 msg r) (subscribers n)))
             (remoteAddress r))],
       Normal tt).
Proof.
  intros Ho.
  destruct (opens_stream_inv msg Ho)
    as (r & line & Hr & Hl & Hh & Hw1 & Hw2 & Hw3 & Hf & Hon).
  exists r, line. split; [exact Hr|]. split; [exact Hl|].
  unfold Part000.registerSubscriber, open_calls.
  etransitivity.
  { eapply run_bind_normal. { reflexivity. }
    eapply run_bind_normal. { unfold msg_res. rewrite Hr. reflexivity. }
    eapply run_bind_normal. { unfold writeHead, transport. rewrite Hh. reflexivity. }
    eapply run_bind_normal. { unfold write, transport. rewrite Hw1. reflexivity. }
    eapply run_bind_normal. { unfold lift. rewrite Hl. reflexivity. }
    eapply run_bind_normal. { unfold write, transport. rewrite Hw2. reflexivity. }
    eapply run_bind_normal. { unfold write, transport. rewrite Hw3. reflexivity. }
    eapply run_bind_normal. { apply flush_returns_calls, Hf. }
    cbv zeta.
    eapply run_bind_normal. { unfold req_on_close, transport. rewrite Hon. reflexivity. }
    eapply run_bind_normal. { reflexivity. }
    eapply run_bind_normal with (n1 := enrol_node (entry_v2 msg r) n) (c1 := []) (a := tt).
    { unfold enrol_node, entry_v2. simpl.
      destruct (existsb _ (subscribers n)); reflexivity. }
    eapply run_bind_normal.
    { unfold updateNodeStatus. eapply run_bind_normal; reflexivity. }
    eapply run_bind_normal. { reflexivity. }
    reflexivity. }
  rewrite subscribers_enrol_node. simpl.
  rewrite <- ?app_assoc. simpl. rewrite ?app_nil_r. reflexivity.
Qed.

(** A work item that does not open its stream leaves the node as it was:
    every throw of [registerSubscriber] comes before the [push]. *)
Lemma register_fails_state `{Builtins} (msg : Msg) (n : Node) :
  opens_stream msg = false ->
  state_of (SseServer.registerSubscriber msg n) = n /\
  state_of (Part000.registerSubscriber msg n) = n /\
  (exists e, completion_of (SseServer.registerSubscriber msg n) = Throw e) /\
  (exists e, completion_of (Part000.registerSubscriber msg n) = Throw e) /\
  (forall c, In c (calls_of (Part000.registerSubscriber msg n)) -> is_send c = false).
Proof.
  unfold opens_stream, flush_returns, returns.
  unfold SseServer.registerSubscriber, Part000.registerSubscriber.
  run_op.
  destruct (res msg) as [r|]; simpl;
    [| intros _; repeat split; eauto;
       intros c [<-|[]]; reflexivity ].
  destruct (writeHead_fails r) as [m0|]; simpl;
    [ intros _; repeat split; eauto;
      intros c Hc; repeat (destruct Hc as [<-|Hc]; [reflexivity|]); destruct Hc |].
  destruct (write_fails r ("event: open" +++ LF)) as [m1|]; simpl;
    [ destruct (open_data_line msg); intros _; repeat split; eauto;
      intros c Hc; repeat (destruct Hc as [<-|Hc]; [reflexivity|]); destruct Hc |].
  destruct (open_data_line msg) as [line|e]; simpl;
    [| intros _; repeat split; eauto;
       intros c Hc; repeat (destruct Hc as [<-|Hc]; [reflexivity|]); destruct Hc ].
  destruct (write_fails r line) as [m2|]; simpl;
    [ intros _; repeat split; eauto;
      intros c Hc; repeat (destruct Hc as [<-|Hc]; [reflexivity|]); destruct Hc |].
  destruct (write_fails r ("id: " +++ _msgid msg +++ LF +++ LF)) as [m3|]; simpl;
    [ intros _; repeat split; eauto;
      intros c Hc; repeat (destruct Hc as [<-|Hc]; [reflexivity|]); destruct Hc |].
  destruct (flush r) as [[m4|]|]; simpl;
    try (intros _; repeat split; eauto;
         intros c Hc; repeat (destruct Hc as [<-|Hc]; [reflexivity|]); destruct Hc);
  (destruct (on_fails r) as [m5|]; simpl;
    [ intros _; repeat split; eauto;
      intros c Hc; repeat (destruct Hc as [<-|Hc]; [reflexivity|]); destruct Hc
    | intros Hd; discriminate Hd ]).
Qed.

Lemma existsb_id_In (x : string) (subs : list Subscriber) :
  existsb (fun sub => (id sub =? x)%string) subs = true <-> In x (map id subs).
Proof.
  rewrite existsb_exists, in_map_iff. split.
  - intros (s & Hs & He). apply String.eqb_eq in He. eauto.
  - intros (s & He & Hs). exists s. split; [exact Hs|]. now apply String.eqb_eq.
Qed.

Lemma enrolled_present entry subs :
  In (id entry) (map id subs) -> enrolled entry subs = subs.
Proof.
  intros Hin. unfold enrolled.
  apply existsb_id_In in Hin. rewrite Hin. reflexivity.
Qed.

Lemma enrolled_absent entry subs :
  ~ In (id entry) (map id subs) -> enrolled entry subs = subs ++ [entry].
Proof.
  intros Hin. unfold enrolled.
  destruct (existsb _ subs) eqn:E; [|reflexivity].
  apply existsb_id_In in E. contradiction.
Qed.

Lemma enrolled_In entry subs x :
  In x (map id (enrolled entry subs)) <-> In x (map id subs) \/ x = id entry.
Proof.
  destruct (in_dec string_dec (id entry) (map id subs)) as [Hin|Hout].
  - rewrite (enrolled_present _ _ Hin). split; [auto|].
    intros [Hx| ->]; assumption.
  - rewrite (enrolled_absent _ _ Hout), map_app, in_app_iff. simpl.
    split; intros [Hx|Hx]; auto; [destruct Hx as [<-|[]]; auto].
Qed.

Lemma enrolled_NoDup entry subs :
  NoDup (map id subs) -> NoDup (map id (enrolled entry subs)).
Proof.
  intros Hnd.
  destruct (in_dec string_dec (id entry) (map id subs)) as [Hin|Hout].
  - now rewrite (enrolled_present _ _ Hin).
  - rewrite (enrolled_absent _ _ Hout), map_app. simpl.
    apply NoDup_app; [exact Hnd | repeat constructor; intros [] |].
    intros x Hx [<-|[]]. contradiction.
Qed.

(** What the delivery of registration work items does to the registry,
    for any [registerSubscriber] that pushes behind the guard once the
    stream is open and throws before the push otherwise. *)
Section Delivery.
Context `{Builtins}.
Variable reg : Msg -> Op unit.
Variable done : bool.
Hypothesis reg_opens :
  forall msg n, opens_stream msg = true ->
    exists entry, id entry = _msgid msg /\
      subscribers (state_of (reg msg n)) = enrolled entry (subscribers n).
Hypothesis reg_fails :
  forall msg n, opens_stream msg = false -> state_of (reg msg n) = n.

Lemma deliver_cons (m : Msg) (t : list Msg) (n : Node) :
  state_of (deliver (fun m => on_input reg m done) (m :: t) n)
  = state_of (deliver (fun m => on_input reg m done) t
                (state_of (work_of reg m n))).
Proof.
  simpl deliver. unfold bind. rewrite on_input_run.
  unfold state_of. simpl.
  destruct (deliver _ t _) as [[n2 c2] r]. reflexivity.
Qed.

Lemma deliver_ids (msgs : list Msg) :
  Forall (fun m => res m <> None) msgs ->
  forall n, NoDup (ids n) ->
  let n' := state_of (deliver (fun m => on_input reg m done) msgs n) in
  NoDup (ids n') /\
  forall x, In x (ids n') <->
            In x (ids n) \/ In x (map _msgid (filter opens_stream msgs)).
Proof.
  induction 1 as [|m t Hm Ht IH]; intros n Hnd.
  - simpl. split; [exact Hnd|]. intros x. tauto.
  - cbv zeta. rewrite deliver_cons.
    assert (Hw : work_of reg m n = reg m n).
    { unfold work_of. destruct (res m); [reflexivity | contradiction]. }
    rewrite Hw. cbn [filter].
    destruct (opens_stream m) eqn:Ho.
    + destruct (reg_opens m n Ho) as (entry & Hid & Hsub).
      assert (Hnd' : NoDup (ids (state_of (reg m n)))).
      { unfold ids. rewrite Hsub. apply enrolled_NoDup, Hnd. }
      destruct (IH _ Hnd') as [IH1 IH2]. split; [exact IH1|].
      intros x. rewrite IH2. unfold ids at 1. rewrite Hsub, enrolled_In, Hid.
      simpl. unfold ids. intuition.
    + rewrite (reg_fails m n Ho). apply IH, Hnd.
Qed.

Lemma deliver_count (msgs : list Msg) (n : Node) :
  Forall (fun m => res m <> None) msgs ->
  NoDup (ids n) ->
  List.length (subscribers (state_of (deliver (fun m => on_input reg m done) msgs n)))
  = List.length (nodup string_dec (ids n ++ map _msgid (filter opens_stream msgs))).
Proof.
  intros Hres Hnd.
  destruct (deliver_ids msgs Hres n Hnd) as [H1 H2].
  rewrite <- (length_map id).
  apply Permutation_length, NoDup_Permutation.
  - exact H1.
  - apply NoDup_nodup.
  - intros x. rewrite nodup_In, in_app_iff. apply H2.
Qed.

End Delivery.

Lemma register_v1_delivery `{Builtins} :
  (forall msg n, opens_stream msg = true ->
     exists entry, id entry = _msgid msg /\
       subscribers (state_of (SseServer.registerSubscriber msg n))
       = enrolled entry (subscribers n)) /\
  (forall msg n, opens_stream msg = false ->
     state_of (SseServer.registerSubscriber msg n) = n).
Proof.
  split; intros msg n Ho.
  - destruct (register_v1_opens msg n Ho) as (r & line & _ & _ & E).
    exists (entry_v1 msg r). split; [reflexivity|].
    rewrite E. apply subscribers_enrol_node.
  - apply (register_fails_state msg n Ho).
Qed.

Lemma register_v2_delivery `{Builtins} :
  (forall msg n, opens_stream msg = true ->
     exists entry, id entry = _msgid msg /\
       subscribers (state_of (Part000.registerSubscriber msg n))
       = enrolled entry (subscribers n)) /\
  (forall msg n, opens_stream msg = false ->
     state_of (Part000.registerSubscriber msg n) = n).
Proof.
  split; intros msg n Ho.
  - destruct (register_v2_opens msg n Ho) as (r & line & _ & _ & E).
    exists (entry_v2 msg r). split; [reflexivity|].
    rewrite E. apply subscribers_enrol_node.
  - apply (register_fails_state msg n Ho).
Qed.

(** A registration never touches the registry when its id is there. *)
Lemma register_present `{Builtins} (msg : Msg) (n : Node) :
  In (_msgid msg) (ids n) ->
  state_of (SseServer.registerSubscriber msg n) = n /\
  state_of (Part000.registerSubscriber msg n) = n.
Proof.
  intros Hin. destruct (opens_stream msg) eqn:Ho.
  - destruct (register_v1_opens msg n Ho) as (r & line & Hr & _ & E1).
    destruct (register_v2_opens msg n Ho) as (r' & line' & Hr' & _ & E2).
    rewrite E1, E2. unfold state_of, enrol_node. simpl.
    apply existsb_id_In in Hin. rewrite !Hin. split; reflexivity.
  - split; apply (register_fails_state msg n Ho).
Qed.

(** C2. Idempotent admission: in both files a registration whose id is
    already in the registry leaves the node unchanged, so no duplicate is
    pushed; and after any sequence of registration work items, delivered
    to a registry of distinct ids, the registry size is the number of
    distinct ids among those it held and those of the work items that
    opened their stream. *)
Theorem idempotent_admission `{Builtins} :
  (forall msg n,
     In (_msgid msg) (ids n) ->
     state_of (SseServer.registerSubscriber msg n) = n /\
     state_of (Part000.registerSubscriber msg n) = n) /\
  (forall msgs done n,
     Forall (fun m => res m <> None) msgs ->
     NoDup (ids n) ->
     let distinct :=
       List.length (nodup string_dec (ids n ++ map _msgid (filter opens_stream msgs))) in
     List.length (subscribers (state_of (deliver (fun m => SseServer.input m done) msgs n)))
       = distinct /\
     List.length (subscribers (state_of (deliver (fun m => Part000.input m done) msgs n)))
       = distinct).
Proof.
  split.
  - intros msg n. apply register_present.
  - intros msgs done n Hres Hnd. cbv zeta. unfold SseServer.input, Part000.input.
    destruct register_v1_delivery as [O1 F1].
    destruct register_v2_delivery as [O2 F2].
    split; apply deliver_count; assumption.
Qed.

Lemma idempotent_admission_witness :
  state_of (@Part000.registerSubscriber Samples.plain_json
              (Samples.connect "m1" Samples.B JUndefined)
              (Samples.with_subscribers [Samples.entry2 "m1" Samples.A]))
  = Samples.with_subscribers [Samples.entry2 "m1" Samples.A] /\
  List.length (subscribers (state_of
     (deliver (fun m => @SseServer.input Samples.plain_json m true)
              Samples.arrivals Samples.fresh_node))) = 2 /\
  List.length (subscribers (state_of
     (deliver (fun m => @Part000.input Samples.plain_json m true)
              Samples.arrivals Samples.fresh_node))) = 2.
Proof.
  destruct (@idempotent_admission Samples.plain_json) as [Hdup Hcount].
  split.
  - apply Hdup. simpl. tauto.
  - apply (Hcount Samples.arrivals true Samples.fresh_node).
    + repeat constructor; discriminate.
    + constructor.
Defined.

(** C9. Duplicate admission: in both files a registration that opens its
    stream while its id is already in the registry returns normally and
    leaves the node unchanged, yet does everything else a registration
    does: its calls are exactly the debug line, the head, the open frame
    and the flush on its own response, then the connect notification sent
    downstream, the close listener hooked on its request and the green
    status republished with the unchanged count (in [part_000] the
    listener, the status, then the notification with that count).  The
    push is the one step left out. *)
Theorem duplicate_admission_still_notifies `{Builtins} (msg : Msg) (n : Node) :
  In (_msgid msg) (ids n) ->
  opens_stream msg = true ->
  exists r, res msg = Some r /\
  (let out := SseServer.registerSubscriber msg n in
   completion_of out = Normal tt /\
   state_of out = n /\
   In (CSend (_msgid msg) (bare "connect")) (calls_of out) /\
   In (CStatus "green" "dot" (count_text (List.length (subscribers n)))) (calls_of out)) /\
  (let out := Part000.registerSubscriber msg n in
   completion_of out = Normal tt /\
   state_of out = n /\
   In (CSend (_msgid msg)
         (shaped "connect" (List.length (subscribers n)) (remoteAddress r)))
      (calls_of out) /\
   In (CStatus "green" "dot" (count_text (List.length (subscribers n)))) (calls_of out)) /\
  exists line, open_data_line msg = Normal line /\
    calls_of (SseServer.registerSubscriber msg n)
    = [CLogDebug "Client connected";
       CWriteHead (handle r) 200 sse_headers;
       CWrite (handle r) ("event: open" +++ LF);
       CWrite (handle r) line;
       CWrite (handle r) ("id: " +++ _msgid msg +++ LF +++ LF)]
      ++ flush_calls r
      ++ [CSend (_msgid msg) (bare "connect");
          COn (handle r) (_msgid msg);
          CStatus "green" "dot" (count_text (List.length (subscribers n)))] /\
    calls_of (Part000.registerSubscriber msg n)
    = [CLogDebug "Client connected";
       CWriteHead (handle r) 200 sse_headers;
       CWrite (handle r) ("event: open" +++ LF);
       CWrite (handle r) line;
       CWrite (handle r) ("id: " +++ _msgid msg +++ LF +++ LF)]
      ++ flush_calls r
      ++ [COn (handle r) (_msgid msg);
          CStatus "green" "dot" (count_text (List.length (subscribers n)));
          CSend (_msgid msg)
            (shaped "connect" (List.length (subscribers n)) (remoteAddress r))].
Proof.
  intros Hin Ho.
  destruct (register_v1_opens msg n Ho) as (r & line & Hr & Hl & E1).
  destruct (register_v2_opens msg n Ho) as (r' & line' & Hr' & Hl' & E2).
  assert (r' = r) by congruence. subst r'.
  assert (line' = line) by congruence. subst line'.
  exists r. split; [exact Hr|].
  cbv zeta. rewrite E1, E2.
  rewrite !enrolled_present by exact Hin.
  unfold enrol_node, completion_of, state_of, calls_of. cbn [fst snd entry_v1 entry_v2 id].
  apply existsb_id_In in Hin. rewrite !Hin.
  split; [|split].
  - repeat split; apply in_or_app; right; simpl; auto.
  - repeat split; apply in_or_app; right; simpl; auto.
  - exists line. split; [exact Hl|].
    unfold open_calls. rewrite <- !app_assoc. split; reflexivity.
Qed.

Lemma duplicate_admission_still_notifies_witness :
  let n := Samples.with_subscribers [Samples.entry2 "m1" Samples.A] in
  let m := Samples.connect "m1" Samples.B JUndefined in
  state_of (@SseServer.registerSubscriber Samples.plain_json m n) = n /\
  In (CSend "m1" (bare "connect"))
     (calls_of (@SseServer.registerSubscriber Samples.plain_json m n)) /\
  state_of (@Part000.registerSubscriber Samples.plain_json m n) = n /\
  In (CSend "m1" (shaped "connect" 1 (JStr "10.0.0.2")))
     (calls_of (@Part000.registerSubscriber Samples.plain_json m n)) /\
  In (CStatus "green" "dot" "1 client(s) connected")
     (calls_of (@Part000.registerSubscriber Samples.plain_json m n)) /\
  calls_of (@SseServer.registerSubscriber Samples.plain_json m n)
  = [CLogDebug "Client connected";
     CWriteHead 2 200 sse_headers;
     CWrite 2 ("event: open" +++ LF);
     CWrite 2 ("data: Connection opened" +++ LF);
     CWrite 2 ("id: m1" +++ LF +++ LF);
     CFlush 2;
     CSend "m1" (bare "connect");
     COn 2 "m1";
     CStatus "green" "dot" "1 client(s) connected"] /\
  calls_of (@Part000.registerSubscriber Samples.plain_json m n)
  = [CLogDebug "Client connected";
     CWriteHead 2 200 sse_headers;
     CWrite 2 ("event: open" +++ LF);
     CWrite 2 ("data: Connection opened" +++ LF);
     CWrite 2 ("id: m1" +++ LF +++ LF);
     CFlush 2;
     COn 2 "m1";
     CStatus "green" "dot" "1 client(s) connected";
     CSend "m1" (shaped "connect" 1 (JStr "10.0.0.2"))].
Proof.
  intros n m.
  destruct (@duplicate_admission_still_notifies Samples.plain_json m n
              (or_introl eq_refl) eq_refl)
    as (r & Hr & (_ & S1 & N1 & _) & (_ & S2 & N2 & T2) & (line & Hl & C1 & C2)).
  injection Hr as <-. injection Hl as <-.
  repeat split; assumption.
Defined.

(** ** Downstream notifications *)

(** Goes through the calls of [H], an [In (CSend _ _) _] hypothesis. *)
Ltac send_cases H tac :=
  simpl in H;
  repeat (destruct H as [H|H];
          [ first [discriminate H | injection H as <- <-; tac] |]);
  try contradiction.

Lemma closeHandler_v2_sends (c : Closure) (n : Node) mid p :
  In (CSend mid p) (calls_of (Part000.closeHandler c n)) ->
  mid = subscriberId c /\
  p = shaped "disconnect"
        (List.length (subscribers (state_of (Part000.closeHandler c n))))
        (clientIP c).
Proof.
  unfold Part000.closeHandler, Part000.subscriber_at, Part000.notification, shaped.
  run_op.
  repeat (break_match; simpl); intros Hin;
    send_cases Hin ltac:(split; reflexivity).
Qed.

Lemma unregister_v2_sends (msg : Msg) (n : Node) mid p :
  In (CSend mid p) (calls_of (Part000.unregisterSubscriber msg n)) ->
  exists r, res msg = Some r /\ mid = _msgid msg /\
  p = shaped "disconnect"
        (List.length (subscribers (state_of (Part000.unregisterSubscriber msg n))))
        (remoteAddress r).
Proof.
  unfold Part000.unregisterSubscriber, Part000.subscriber_at,
    Part000.unbound_RED_log_warn, Part000.notification, shaped.
  run_op.
  repeat (break_match; simpl); intros Hin;
    send_cases Hin ltac:(eexists; repeat split; reflexivity).
Qed.

Lemma open_calls_no_send msg r line c :
  In c (open_calls msg r line) -> is_send c = false.
Proof.
  unfold open_calls, flush_calls. intros Hc.
  apply in_app_or in Hc as [Hc|Hc].
  - simpl in Hc. repeat (destruct Hc as [<-|Hc]; [reflexivity|]). destruct Hc.
  - destruct (flush r); simpl in Hc; [destruct Hc as [<-|[]]; reflexivity | destruct Hc].
Qed.

Lemma register_v2_sends `{Builtins} (msg : Msg) (n : Node) mid p :
  In (CSend mid p) (calls_of (Part000.registerSubscriber msg n)) ->
  exists r, res msg = Some r /\ mid = _msgid msg /\
  p = shaped "connect"
        (List.length (subscribers (state_of (Part000.registerSubscriber msg n))))
        (remoteAddress r).
Proof.
  destruct (opens_stream msg) eqn:Ho.
  - destruct (register_v2_opens msg n Ho) as (r & line & Hr & _ & E).
    rewrite E. unfold calls_of, state_of. cbn [fst snd].
    rewrite subscribers_enrol_node. intros Hin.
    apply in_app_or in Hin as [Hin|Hin].
    + apply open_calls_no_send in Hin. discriminate Hin.
    + exists r. split; [exact Hr|].
      send_cases Hin ltac:(split; reflexivity).
  - intros Hin.
    destruct (register_fails_state msg n Ho) as (_ & _ & _ & _ & Hno).
    apply Hno in Hin. discriminate Hin.
Qed.

Lemma register_v1_sends `{Builtins} (msg : Msg) (n : Node) mid p :
  In (CSend mid p) (calls_of (SseServer.registerSubscriber msg n)) ->
  mid = _msgid msg /\ p = bare "connect".
Proof.
  unfold SseServer.registerSubscriber, bare.
  run_op.
  repeat (break_match; simpl); intros Hin;
    send_cases Hin ltac:(split; reflexivity).
Qed.

Lemma closeHandler_v1_sends (msg : Msg) (n : Node) mid p :
  In (CSend mid p) (calls_of (SseServer.closeHandler msg n)) ->
  mid = _msgid msg /\ p = bare "disconnect".
Proof.
  unfold SseServer.closeHandler, SseServer.unregisterSubscriber,
    SseServer.unbound_RED_log_warn, bare.
  run_op.
  repeat (break_match; simpl); intros Hin;
    send_cases Hin ltac:(split; reflexivity).
Qed.

(** A broadcast sends nothing downstream, in either file. *)
Lemma handleServerEvent_no_send `{Builtins} (msg : Msg) (n : Node) c :
  In c (calls_of (handleServerEvent msg n)) -> is_send c = false.
Proof.
  destruct (_serializeData (broadcast_payload n msg)) as [d|e] eqn:Hd.
  - destruct (handleServerEvent_run n msg d Hd) as (cs & E & _ & _ & Hno).
    rewrite E. unfold calls_of. cbn [fst snd].
    intros [<-|[<-|Hc]]; [reflexivity | reflexivity | now apply Hno].
  - unfold handleServerEvent. cbv zeta.
    erewrite run_bind_throw by (unfold lift; rewrite Hd; reflexivity).
    intros [].
Qed.

(** C6, as the code has it.  In [part_000] every connect and disconnect
    notification has the shape [{event, subscribers: N, ip}], where N is
    the registry size when it is sent (no later step changes the registry)
    and [ip] the client's address; in [sse-server.js] a notification
    carries the event name alone; a broadcast pass sends no notification
    in either file. *)
Theorem notification_shape `{Builtins} (n : Node) (mid : string) (p : JSValue) :
  (forall msg,
     In (CSend mid p) (calls_of (Part000.registerSubscriber msg n)) ->
     exists r, res msg = Some r /\ mid = _msgid msg /\
       p = shaped "connect"
             (List.length (subscribers (state_of (Part000.registerSubscriber msg n))))
             (remoteAddress r)) /\
  (forall c,
     In (CSend mid p) (calls_of (Part000.closeHandler c n)) ->
     mid = subscriberId c /\
     p = shaped "disconnect"
           (List.length (subscribers (state_of (Part000.closeHandler c n))))
           (clientIP c)) /\
  (forall msg,
     In (CSend mid p) (calls_of (Part000.unregisterSubscriber msg n)) ->
     exists r, res msg = Some r /\ mid = _msgid msg /\
       p = shaped "disconnect"
             (List.length (subscribers (state_of (Part000.unregisterSubscriber msg n))))
             (remoteAddress r)) /\
  (forall msg,
     In (CSend mid p) (calls_of (SseServer.registerSubscriber msg n)) ->
     mid = _msgid msg /\ p = bare "connect") /\
  (forall msg,
     In (CSend mid p) (calls_of (SseServer.closeHandler msg n)) ->
     mid = _msgid msg /\ p = bare "disconnect") /\
  (forall msg, ~ In (CSend mid p) (calls_of (handleServerEvent msg n))).
Proof.
  split; [|split; [|split; [|split; [|split]]]].
  - intros msg. apply register_v2_sends.
  - intros c. apply closeHandler_v2_sends.
  - intros msg. apply unregister_v2_sends.
  - intros msg. apply register_v1_sends.
  - intros msg. apply closeHandler_v1_sends.
  - intros msg Hin. apply handleServerEvent_no_send in Hin. discriminate Hin.
Qed.

Lemma notification_shape_witness :
  let m := Samples.connect "m1" Samples.A JUndefined in
  let out := @Part000.registerSubscriber Samples.plain_json m Samples.fresh_node in
  exists r, res m = Some r /\ "m1" = _msgid m /\
    shaped "connect" 1 (JStr "10.0.0.1")
    = shaped "connect" (List.length (subscribers (state_of out))) (remoteAddress r).
Proof.
  intros m out.
  destruct (@notification_shape Samples.plain_json Samples.fresh_node "m1"
              (shaped "connect" 1 (JStr "10.0.0.1"))) as (Hreg & _).
  apply (Hreg m). simpl. auto 20.
Defined.

(** C6 as stated fails on [sse-server.js]: the connect notification of a
    registration there has neither the count nor the address. *)
Lemma bare_connect_notification :
  In (CSend "m1" (bare "connect"))
     (calls_of (@SseServer.registerSubscriber Samples.plain_json
                  (Samples.connect "m1" Samples.A JUndefined) Samples.fresh_node)) /\
  forall ev N ip, bare "connect" <> shaped ev N ip.
Proof.
  split.
  - simpl. auto 20.
  - intros ev N ip. discriminate.
Qed.

(** ** Drain *)

(** [forEach] over callbacks that return and leave the node alone: the
    calls of the loop are those of the callbacks. *)
Lemma forEach_run (f : Subscriber -> Op unit) (l : list Subscriber) (n : Node) :
  (forall s, In s l -> exists cs, f s n = (n, cs, Normal tt)) ->
  exists cs,
    forEach f l n = (n, cs, Normal tt) /\
    (forall s c, In s l -> In c (calls_of (f s n)) -> In c cs) /\
    (forall c, In c cs -> exists s, In s l /\ In c (calls_of (f s n))).
Proof.
  induction l as [|x t IH]; intros Hf.
  - exists []. simpl. repeat split; intros; contradiction.
  - destruct (Hf x (or_introl eq_refl)) as (c1 & E1).
    destruct IH as (c2 & E2 & In2 & Out2).
    { intros s Hs. apply Hf. now right. }
    exists (c1 ++ c2). split; [|split].
    + simpl forEach. eapply run_bind_normal; eassumption.
    + intros s c [->|Hs] Hc.
      * rewrite E1 in Hc. apply in_or_app. now left.
      * apply in_or_app. right. eapply In2; eassumption.
    + intros c Hc. apply in_app_or in Hc as [Hc|Hc].
      * exists x. split; [now left|]. rewrite E1. exact Hc.
      * destruct (Out2 c Hc) as (s & Hs & Hcs). exists s. split; [now right|exact Hcs].
Qed.

(** One subscriber of the drain of [part_000]: the callback always
    returns, its first call is always made, [end] is reached when nothing
    before it threw, and a throw is logged as a warning. *)
Lemma close_subscriber_run (reason : string) (s : Subscriber) (n : Node) :
  exists cs,
    Part000.close_subscriber reason s n = (n, cs, Normal tt) /\
    In (first_close_call s) cs /\
    (unhooked_ok s = true -> close_frame_ok reason s = true ->
       In (CEnd (handle (socket s))) cs) /\
    (closes_cleanly reason s = false ->
       exists why, In (CLogWarn ("Error closing subscriber response: " +++ why)) cs) /\
    (forall c, In c cs -> is_send c = false).
Proof.
  unfold Part000.close_subscriber, first_close_call, closes_cleanly,
    unhooked_ok, close_frame_ok, flush_returns, returns.
  run_op.
  destruct (closeHandler s) as [c|];
  try destruct (removeListener_fails (socket s)) as [m0|];
  destruct (write_fails (socket s) ("event: close" +++ LF)) as [m1|];
  destruct (write_fails (socket s) ("data: " +++ reason +++ LF)) as [m2|];
  destruct (write_fails (socket s) ("id: 0" +++ LF +++ LF)) as [m3|];
  destruct (flush (socket s)) as [[m4|]|];
  destruct (end_fails (socket s)) as [m5|]; simpl;
  eexists; (split; [reflexivity|]);
  (split; [simpl; auto 10|]);
  (split; [intros H1 H2; first [discriminate H1 | discriminate H2 | simpl; auto 10]|]);
  (split; [intros H1; first [discriminate H1 | eexists; simpl; eauto 10]|]);
  intros c0 Hc; simpl in Hc;
  repeat (destruct Hc as [<-|Hc]; [reflexivity|]); destruct Hc.
Qed.

(** The two drains of [part_000] differ in the reason only. *)
Lemma drain_v2_run (reason : string) (n : Node) :
  exists cs,
    forEach (Part000.close_subscriber reason) (subscribers n) n = (n, cs, Normal tt) /\
    (forall s, In s (subscribers n) ->
       In (first_close_call s) cs /\
       (unhooked_ok s = true -> close_frame_ok reason s = true ->
          In (CEnd (handle (socket s))) cs) /\
       (closes_cleanly reason s = false ->
          exists why, In (CLogWarn ("Error closing subscriber response: " +++ why)) cs)) /\
    (forall c, In c cs -> is_send c = false).
Proof.
  destruct (forEach_run (Part000.close_subscriber reason) (subscribers n) n)
    as (cs & E & Hin & Hout).
  { intros s _. destruct (close_subscriber_run reason s n) as (c & Ec & _). eauto. }
  exists cs. split; [exact E|]. split.
  - intros s Hs.
    destruct (close_subscriber_run reason s n) as (c & Ec & F & Hend & Hlog & _).
    assert (Hsub : forall x, In x c -> In x cs).
    { intros x Hx. apply (Hin s x Hs). rewrite Ec. exact Hx. }
    split; [auto|]. split; [auto|].
    intros Hc. destruct (Hlog Hc) as (why & Hw). eauto.
  - intros c Hc. destruct (Hout c Hc) as (s & Hs & Hcs).
    destruct (close_subscriber_run reason s n) as (c' & Ec & _ & _ & _ & Hno).
    rewrite Ec in Hcs. now apply Hno.
Qed.

(** The runs of the two drains of [part_000]. *)
Lemma runtimeHandler_v2_run (n : Node) (cs : list Call) :
  forEach (Part000.close_subscriber "Collection closed") (subscribers n) n
    = (n, cs, Normal tt) ->
  Part000._runtimeHandler n
  = (with_registry n [],
     CStatus "green" "dot" (count_text (List.length (subscribers n))) :: cs,
     Normal tt).
Proof.
  intros E. unfold Part000._runtimeHandler. etransitivity.
  { eapply run_bind_normal.
    { unfold updateNodeStatus. eapply run_bind_normal; reflexivity. }
    eapply run_bind_normal. { reflexivity. }
    eapply run_bind_normal. { exact E. }
    reflexivity. }
  simpl. rewrite app_nil_r. reflexivity.
Qed.

Lemma on_close_v2_run (n : Node) (cs : list Call) :
  forEach (Part000.close_subscriber "Node closed") (subscribers n) n
    = (n, cs, Normal tt) ->
  Part000.on_close n = (with_registry n [], cs, Normal tt).
Proof.
  intros E. unfold Part000.on_close. etransitivity.
  { eapply run_bind_normal. { reflexivity. }
    eapply run_bind_normal. { exact E. }
    reflexivity. }
  simpl. rewrite app_nil_r. reflexivity.
Qed.

Lemma drains_v2_empty (n : Node) :
  subscribers (state_of (Part000._runtimeHandler n)) = [] /\
  subscribers (state_of (Part000.on_close n)) = [].
Proof.
  destruct (drain_v2_run "Collection closed" n) as (c1 & E1 & _).
  destruct (drain_v2_run "Node closed" n) as (c2 & E2 & _).
  rewrite (runtimeHandler_v2_run n c1 E1), (on_close_v2_run n c2 E2).
  split; reflexivity.
Qed.

(** One subscriber of the drain of [sse-server.js], whose writes are
    outside the [try]. *)
Lemma close_collection_run (s : Subscriber) (n : Node) :
  close_frame_ok "Collection closed" s = true ->
  exists cs,
    SseServer.close_collection s n = (n, cs, Normal tt) /\
    In (CEnd (handle (socket s))) cs.
Proof.
  unfold SseServer.close_collection, close_frame_ok, flush_returns, returns.
  change ("data: " +++ "Collection closed" +++ LF) with ("data: Collection closed" +++ LF).
  run_op.
  destruct (write_fails (socket s) ("event: close" +++ LF)) as [m1|];
  destruct (write_fails (socket s) ("data: Collection closed" +++ LF)) as [m2|];
  destruct (write_fails (socket s) ("id: 0" +++ LF +++ LF)) as [m3|];
  destruct (flush (socket s)) as [[m4|]|];
  destruct (end_fails (socket s)) as [m5|]; simpl;
  intros Hok; try discriminate Hok;
  eexists; (split; [reflexivity | simpl; auto 10]).
Qed.

(** The drain as a whole: the calls of the loop are the calls of the
    callbacks, one subscriber after the other. *)
Lemma forEach_run_flat_map (f : Subscriber -> Op unit) (l : list Subscriber) (n : Node) :
  (forall s, In s l -> exists cs, f s n = (n, cs, Normal tt)) ->
  forEach f l n = (n, flat_map (fun s => calls_of (f s n)) l, Normal tt).
Proof.
  induction l as [|x t IH]; intros Hf; [reflexivity|].
  destruct (Hf x (or_introl eq_refl)) as (c1 & E1).
  simpl forEach. simpl flat_map.
  replace (calls_of (f x n)) with c1 by (rewrite E1; reflexivity).
  eapply run_bind_normal; [exact E1|].
  apply IH. intros s Hs. apply Hf. now right.
Qed.

Lemma warnings_app (a b : list Call) : warnings (a ++ b) = warnings a ++ warnings b.
Proof.
  induction a as [|c t IH]; [reflexivity|].
  destruct c; simpl; rewrite ?IH; reflexivity.
Qed.

Lemma ended_app (a b : list Call) : ended (a ++ b) = ended a ++ ended b.
Proof.
  induction a as [|c t IH]; [reflexivity|].
  destruct c; simpl; rewrite ?IH; reflexivity.
Qed.

Lemma warnings_flat_map (g : Subscriber -> list Call) (w : Subscriber -> list string)
    (l : list Subscriber) :
  (forall s, In s l -> warnings (g s) = w s) ->
  warnings (flat_map g l) = flat_map w l.
Proof.
  induction l as [|x t IH]; intros Hg; [reflexivity|].
  simpl. rewrite warnings_app, Hg by now left.
  f_equal. apply IH. intros s Hs. apply Hg. now right.
Qed.

Lemma ended_flat_map (g : Subscriber -> list Call) (ok : Subscriber -> bool)
    (l : list Subscriber) :
  (forall s, In s l ->
     ended (g s) = if ok s then [handle (socket s)] else []) ->
  ended (flat_map g l) = map (fun s => handle (socket s)) (filter ok l).
Proof.
  induction l as [|x t IH]; intros Hg; [reflexivity|].
  simpl. rewrite ended_app, Hg by now left.
  rewrite IH by (intros s Hs; apply Hg; now right).
  destruct (ok x); reflexivity.
Qed.

(** One subscriber of a drain of [part_000]: the warning logged is that
    of the first throw, and [end] is called when the calls before it
    returned, once. *)
Lemma close_subscriber_log (reason : string) (s : Subscriber) (n : Node) :
  warnings (calls_of (Part000.close_subscriber reason s n))
    = close_warning (close_failure reason s) /\
  ended (calls_of (Part000.close_subscriber reason s n))
    = if reaches_end reason s then [handle (socket s)] else [].
Proof.
  unfold Part000.close_subscriber, close_failure, close_warning, or_else,
    reaches_end, unhooked_ok, close_frame_ok, flush_returns, returns.
  run_op.
  destruct (closeHandler s) as [c|];
  try destruct (removeListener_fails (socket s)) as [m0|];
  destruct (write_fails (socket s) ("event: close" +++ LF)) as [m1|];
  destruct (write_fails (socket s) ("data: " +++ reason +++ LF)) as [m2|];
  destruct (write_fails (socket s) ("id: 0" +++ LF +++ LF)) as [m3|];
  destruct (flush (socket s)) as [[m4|]|];
  destruct (end_fails (socket s)) as [m5|]; simpl; split; reflexivity.
Qed.

(** One subscriber of the drain of [sse-server.js] whose close frame and
    flush return: a throw of [end] is logged, and [end] is called once. *)
Lemma close_collection_log (s : Subscriber) (n : Node) :
  close_frame_ok "Collection closed" s = true ->
  warnings (calls_of (SseServer.close_collection s n))
    = close_warning (end_fails (socket s)) /\
  ended (calls_of (SseServer.close_collection s n)) = [handle (socket s)].
Proof.
  unfold SseServer.close_collection, close_frame_ok, flush_returns, returns,
    close_warning.
  change ("data: " +++ "Collection closed" +++ LF) with ("data: Collection closed" +++ LF).
  run_op.
  destruct (write_fails (socket s) ("event: close" +++ LF)) as [m1|];
  destruct (write_fails (socket s) ("data: Collection closed" +++ LF)) as [m2|];
  destruct (write_fails (socket s) ("id: 0" +++ LF +++ LF)) as [m3|];
  destruct (flush (socket s)) as [[m4|]|];
  destruct (end_fails (socket s)) as [m5|]; simpl;
  intros Hok; try discriminate Hok; split; reflexivity.
Qed.

(** The warnings and the ends of a whole drain of [part_000]. *)
Lemma drain_v2_log (reason : string) (n : Node) :
  exists cs,
    forEach (Part000.close_subscriber reason) (subscribers n) n = (n, cs, Normal tt) /\
    warnings cs
      = flat_map (fun s => close_warning (close_failure reason s)) (subscribers n) /\
    ended cs
      = map (fun s => handle (socket s)) (filter (reaches_end reason) (subscribers n)).
Proof.
  eexists. split.
  - apply forEach_run_flat_map. intros s _.
    destruct (close_subscriber_run reason s n) as (c & Ec & _). eauto.
  - split.
    + apply warnings_flat_map. intros s _. apply close_subscriber_log.
    + apply ended_flat_map. intros s _. apply close_subscriber_log.
Qed.

(** C4, as the code has it.  Both drains of [part_000] (the redeploy
    signal and the node's close) return normally and empty the registry
    whatever throws; the cleanup of every tracked subscriber is attempted;
    every throw is caught and logged: the warnings of the drain are, in
    the order of the registry, one for each subscriber whose cleanup
    throws, carrying the message of that throw; and [end] is called on
    every stream whose listener removal, close frame and flush returned,
    once each and on no other.  The redeploy handler of [sse-server.js]
    does as much when no close frame or flush throws: it ends every
    stream once, and a throw of [end] is caught and logged, one warning
    for each stream whose [end] throws. *)
Theorem drain_completeness (n : Node) :
  (let out := Part000._runtimeHandler n in
   completion_of out = Normal tt /\
   subscribers (state_of out) = [] /\
   (forall s, In s (subscribers n) ->
     In (first_close_call s) (calls_of out) /\
     (unhooked_ok s = true -> close_frame_ok "Collection closed" s = true ->
        In (CEnd (handle (socket s))) (calls_of out)) /\
     (closes_cleanly "Collection closed" s = false ->
        exists why,
          In (CLogWarn ("Error closing subscriber response: " +++ why)) (calls_of out))) /\
   warnings (calls_of out)
     = flat_map (fun s => close_warning (close_failure "Collection closed" s))
         (subscribers n) /\
   ended (calls_of out)
     = map (fun s => handle (socket s))
         (filter (reaches_end "Collection closed") (subscribers n))) /\
  (let out := Part000.on_close n in
   completion_of out = Normal tt /\
   subscribers (state_of out) = [] /\
   (forall s, In s (subscribers n) ->
     In (first_close_call s) (calls_of out) /\
     (unhooked_ok s = true -> close_frame_ok "Node closed" s = true ->
        In (CEnd (handle (socket s))) (calls_of out)) /\
     (closes_cleanly "Node closed" s = false ->
        exists why,
          In (CLogWarn ("Error closing subscriber response: " +++ why)) (calls_of out))) /\
   warnings (calls_of out)
     = flat_map (fun s => close_warning (close_failure "Node closed" s))
         (subscribers n) /\
   ended (calls_of out)
     = map (fun s => handle (socket s))
         (filter (reaches_end "Node closed") (subscribers n))) /\
  (Forall (fun s => close_frame_ok "Collection closed" s = true) (subscribers n) ->
   let out := SseServer.runtime_event n in
   completion_of out = Normal tt /\
   subscribers (state_of out) = [] /\
   (forall s, In s (subscribers n) -> In (CEnd (handle (socket s))) (calls_of out)) /\
   warnings (calls_of out)
     = flat_map (fun s => close_warning (end_fails (socket s))) (subscribers n) /\
   ended (calls_of out) = map (fun s => handle (socket s)) (subscribers n)).
Proof.
  split; [|split].
  - destruct (drain_v2_run "Collection closed" n) as (cs & E & Hs & _).
    destruct (drain_v2_log "Collection closed" n) as (cs' & E' & Hw & He).
    assert (cs' = cs) by congruence. subst cs'.
    cbv zeta. rewrite (runtimeHandler_v2_run n cs E).
    unfold completion_of, state_of, calls_of. cbn [fst snd].
    split; [reflexivity|]. split; [reflexivity|].
    split; [|split; [exact Hw | exact He]].
    intros s Hin. destruct (Hs s Hin) as (F & Hend & Hlog).
    split; [now right|]. split; [intros; right; auto|].
    intros Hc. destruct (Hlog Hc) as (why & Hwhy). exists why. now right.
  - destruct (drain_v2_run "Node closed" n) as (cs & E & Hs & _).
    destruct (drain_v2_log "Node closed" n) as (cs' & E' & Hw & He).
    assert (cs' = cs) by congruence. subst cs'.
    cbv zeta. rewrite (on_close_v2_run n cs E).
    unfold completion_of, state_of, calls_of. cbn [fst snd].
    split; [reflexivity|]. split; [reflexivity|].
    split; [exact Hs | split; [exact Hw | exact He]].
  - intros Hall. rewrite Forall_forall in Hall.
    assert (Hret : forall s, In s (subscribers n) ->
              exists cs, SseServer.close_collection s n = (n, cs, Normal tt)).
    { intros s Hs. destruct (close_collection_run s n (Hall s Hs)) as (c & Ec & _). eauto. }
    pose proof (forEach_run_flat_map SseServer.close_collection (subscribers n) n Hret) as E.
    assert (Er : SseServer.runtime_event n
                 = (with_registry n [],
                    CStatus "green" "dot" (count_text (List.length (subscribers n)))
                    :: flat_map (fun s => calls_of (SseServer.close_collection s n))
                         (subscribers n),
                    Normal tt)).
    { unfold SseServer.runtime_event. etransitivity.
      { eapply run_bind_normal.
        { unfold updateNodeStatus. eapply run_bind_normal; reflexivity. }
        eapply run_bind_normal. { reflexivity. }
        eapply run_bind_normal. { exact E. }
        reflexivity. }
      simpl. rewrite app_nil_r. reflexivity. }
    cbv zeta. rewrite Er. unfold completion_of, state_of, calls_of. cbn [fst snd].
    split; [reflexivity|]. split; [reflexivity|]. split; [|split].
    + intros s Hs. right. apply in_flat_map. exists s. split; [exact Hs|].
      destruct (close_collection_run s n (Hall s Hs)) as (c & Ec & Hend).
      rewrite Ec. exact Hend.
    + cbn [warnings]. apply warnings_flat_map.
      intros s Hs. apply (close_collection_log s n (Hall s Hs)).
    + cbn [ended].
      rewrite (ended_flat_map _ (fun _ => true)).
      * f_equal. clear. induction (subscribers n) as [|x t IH]; simpl; congruence.
      * intros s Hs. apply (close_collection_log s n (Hall s Hs)).
Qed.

Lemma drain_completeness_witness :
  let out := Part000._runtimeHandler Samples.three in
  let out1 := SseServer.runtime_event
                (Samples.with_subscribers
                   [Samples.entry1 "m1" Samples.A; Samples.entry1 "m3" Samples.B]) in
  subscribers (state_of out) = [] /\
  In (CEnd 1) (calls_of out) /\
  In (CRemoveListener 3 "m2") (calls_of out) /\
  In (CEnd 2) (calls_of out) /\
  (exists why, In (CLogWarn ("Error closing subscriber response: " +++ why)) (calls_of out)) /\
  warnings (calls_of out) = ["Error closing subscriber response: write EPIPE"] /\
  ended (calls_of out) = [1; 2] /\
  subscribers (state_of out1) = [] /\
  In (CEnd 1) (calls_of out1) /\
  In (CEnd 2) (calls_of out1) /\
  warnings (calls_of out1) = [] /\
  ended (calls_of out1) = [1; 2].
Proof.
  intros out out1.
  destruct (drain_completeness Samples.three) as ((_ & Hempty & Hs & Hw & He) & _ & _).
  destruct (drain_completeness
              (Samples.with_subscribers
                 [Samples.entry1 "m1" Samples.A; Samples.entry1 "m3" Samples.B]))
    as (_ & _ & H1).
  destruct H1 as (_ & Hempty1 & Hs1 & Hw1 & He1).
  { repeat constructor. }
  destruct (Hs (Samples.entry2 "m1" Samples.A)) as (_ & HA & _); [simpl; tauto|].
  destruct (Hs (Samples.entry2 "m2" Samples.X)) as (HX & _ & HXlog); [simpl; tauto|].
  destruct (Hs (Samples.entry2 "m3" Samples.B)) as (_ & HB & _); [simpl; tauto|].
  split; [exact Hempty|].
  split; [exact (HA eq_refl eq_refl)|].
  split; [exact HX|].
  split; [exact (HB eq_refl eq_refl)|].
  split; [exact (HXlog eq_refl)|].
  split; [exact Hw|].
  split; [exact He|].
  split; [exact Hempty1|].
  split; [apply (Hs1 (Samples.entry1 "m1" Samples.A)); simpl; tauto|].
  split; [apply (Hs1 (Samples.entry1 "m3" Samples.B)); simpl; tauto|].
  split; [exact Hw1 | exact He1].
Defined.

(** C4 as stated fails: in [part_000] a tracked stream whose write throws
    during the drain never receives an [end] call. *)
Lemma drain_skips_end_after_failed_write :
  In (Samples.entry2 "m2" Samples.X) (subscribers Samples.lone_broken) /\
  subscribers (state_of (Part000._runtimeHandler Samples.lone_broken)) = [] /\
  ~ In (CEnd (handle Samples.X)) (calls_of (Part000._runtimeHandler Samples.lone_broken)).
Proof.
  split; [simpl; tauto|]. split; [reflexivity|].
  simpl. intros Hin.
  repeat (destruct Hin as [Hin|Hin]; [discriminate Hin|]). exact Hin.
Qed.

(** In [sse-server.js] the writes of the drain are outside the [try]: a
    write that throws aborts the handler, the registry is not emptied and
    the streams behind the failing one are not closed. *)
Example sse_server_drain_aborts :
  let n := Samples.with_subscribers
             [Samples.entry1 "m1" Samples.A; Samples.entry1 "m2" Samples.X;
              Samples.entry1 "m3" Samples.B] in
  let out := SseServer.runtime_event n in
  completion_of out = Throw (Error "write EPIPE") /\
  state_of out = n /\
  ~ In (CEnd 2) (calls_of out).
Proof.
  split; [reflexivity|]. split; [reflexivity|].
  simpl. intros Hin.
  repeat (destruct Hin as [Hin|Hin]; [discriminate Hin|]). exact Hin.
Qed.

(** ** Removal *)

Lemma findIndex_absent (x : string) (l : list Subscriber) :
  ~ In x (map id l) ->
  findIndex (fun sub => (id sub =? x)%string) l = None.
Proof.
  induction l as [|a t IH]; intros Hout; [reflexivity|].
  simpl in *. destruct (String.eqb_spec (id a) x) as [E|E].
  - exfalso. auto.
  - rewrite IH by tauto. reflexivity.
Qed.

Lemma findIndex_found (x : string) (l : list Subscriber) (i : nat) :
  findIndex (fun sub => (id sub =? x)%string) l = Some i ->
  exists s, nth_error l i = Some s /\ id s = x.
Proof.
  revert i. induction l as [|a t IH]; intros i Hf; [discriminate|].
  simpl in Hf. destruct (String.eqb_spec (id a) x) as [E|E].
  - injection Hf as <-. exists a. split; [reflexivity | exact E].
  - destruct (findIndex _ t) as [j|]; [|discriminate].
    injection Hf as <-. destruct (IH j eq_refl) as (s & Hs & Hid).
    exists s. split; assumption.
Qed.

(** With distinct ids, splicing out the index [findIndex] found removes
    the id from the registry. *)
Lemma splice1_removes_id (x : string) (l : list Subscriber) (i : nat) :
  NoDup (map id l) ->
  findIndex (fun sub => (id sub =? x)%string) l = Some i ->
  ~ In x (map id (splice1 i l)).
Proof.
  revert i. induction l as [|a t IH]; intros i Hnd Hf; [discriminate|].
  simpl in Hf, Hnd. inversion Hnd as [|? ? Ha Ht]; subst.
  destruct (String.eqb_spec (id a) x) as [E|E].
  - injection Hf as <-. simpl. now rewrite <- E.
  - destruct (findIndex _ t) as [j|] eqn:Ej; [|discriminate].
    injection Hf as <-. simpl. intros [Hx|Hx]; [contradiction|].
    now apply (IH j Ht eq_refl).
Qed.

(** The three Closed triggers of [part_000] on an id the registry does not
    hold: the disconnect callback republishes the status and unhooks
    itself, the removal request stops at its guard, and neither writes,
    ends a stream, notifies downstream or touches the registry. *)
Lemma closeHandler_v2_absent (c : Closure) (n : Node) :
  ~ In (subscriberId c) (ids n) ->
  state_of (Part000.closeHandler c n) = n /\
  calls_of (Part000.closeHandler c n)
  = [CStatus "green" "dot" (count_text (List.length (subscribers n)));
     CRemoveListener (handle (responseSocket c)) (subscriberId c)].
Proof.
  intros Hout. unfold Part000.closeHandler, count_text.
  run_op. rewrite (findIndex_absent _ _ Hout). simpl.
  destruct (removeListener_fails (responseSocket c)); split; reflexivity.
Qed.

Lemma unregister_v2_absent (msg : Msg) (n : Node) :
  ~ In (_msgid msg) (ids n) ->
  Part000.unregisterSubscriber msg n = (n, [], Throw (ReferenceError "RED is not defined")).
Proof.
  intros Hout. unfold Part000.unregisterSubscriber, Part000.unbound_RED_log_warn.
  run_op. rewrite (findIndex_absent _ _ Hout). reflexivity.
Qed.

(** Each trigger of [part_000] leaves the registry without the id. *)
Lemma closeHandler_v2_removes (c : Closure) (n : Node) :
  NoDup (ids n) ->
  ~ In (subscriberId c) (ids (state_of (Part000.closeHandler c n))).
Proof.
  intros Hnd.
  destruct (in_dec string_dec (subscriberId c) (ids n)) as [Hin|Hout].
  - pose proof (splice1_removes_id (subscriberId c) (subscribers n)) as Hsp.
    revert Hsp.
    unfold Part000.closeHandler, Part000.subscriber_at, ids. run_op.
    destruct (findIndex _ (subscribers n)) as [i|] eqn:Ei.
    + intros Hsp. specialize (Hsp i Hnd eq_refl).
      repeat (break_match; simpl); exact Hsp.
    + intros _. apply existsb_id_In in Hin.
      exfalso. clear - Hin Ei.
      induction (subscribers n) as [|a t IH]; [discriminate|].
      simpl in *. destruct (id a =? subscriberId c)%string; [discriminate|].
      destruct (findIndex _ t); [discriminate|]. auto.
  - rewrite (proj1 (closeHandler_v2_absent c n Hout)). exact Hout.
Qed.

Lemma unregister_v2_removes (msg : Msg) (n : Node) :
  NoDup (ids n) ->
  completion_of (Part000.unregisterSubscriber msg n) = Normal tt ->
  ~ In (_msgid msg) (ids (state_of (Part000.unregisterSubscriber msg n))).
Proof.
  intros Hnd.
  pose proof (splice1_removes_id (_msgid msg) (subscribers n)) as Hsp.
  revert Hsp.
  unfold Part000.unregisterSubscriber, Part000.subscriber_at,
    Part000.unbound_RED_log_warn, ids.
  run_op.
  destruct (findIndex _ (subscribers n)) as [i|] eqn:Ei; [|discriminate].
  intros Hsp. specialize (Hsp i Hnd eq_refl).
  repeat (break_match; simpl); intros Hc; first [discriminate Hc | exact Hsp].
Qed.

(** No trigger of [part_000] ends a stream twice in one run. *)
Lemma closeHandler_v2_ends_once (c : Closure) (n : Node) :
  List.length (filter is_end (calls_of (Part000.closeHandler c n))) <= 1.
Proof.
  unfold Part000.closeHandler, Part000.subscriber_at. run_op.
  repeat (break_match; simpl); auto.
Qed.

Lemma unregister_v2_ends_once (msg : Msg) (n : Node) :
  List.length (filter is_end (calls_of (Part000.unregisterSubscriber msg n))) <= 1.
Proof.
  unfold Part000.unregisterSubscriber, Part000.subscriber_at,
    Part000.unbound_RED_log_warn. run_op.
  repeat (break_match; simpl); auto.
Qed.

(** Exactly-once removal holds in [part_000]: after any of the three
    triggers the id is gone from a registry of distinct ids, and a
    trigger that finds the id gone makes no write and no end, sends
    nothing, and leaves the registry as it is. *)
Lemma part000_exactly_once_removal (n : Node) (c : Closure) (msg : Msg) :
  NoDup (ids n) ->
  ~ In (subscriberId c) (ids (state_of (Part000.closeHandler c n))) /\
  (completion_of (Part000.unregisterSubscriber msg n) = Normal tt ->
   ~ In (_msgid msg) (ids (state_of (Part000.unregisterSubscriber msg n)))) /\
  subscribers (state_of (Part000._runtimeHandler n)) = [] /\
  subscribers (state_of (Part000.on_close n)) = [] /\
  (~ In (subscriberId c) (ids n) ->
     state_of (Part000.closeHandler c n) = n /\
     forall x, In x (calls_of (Part000.closeHandler c n)) ->
       is_write_or_end x = false /\ is_send x = false) /\
  (~ In (_msgid msg) (ids n) ->
     state_of (Part000.unregisterSubscriber msg n) = n /\
     calls_of (Part000.unregisterSubscriber msg n) = []).
Proof.
  intros Hnd.
  split; [now apply closeHandler_v2_removes|].
  split; [now apply unregister_v2_removes|].
  split; [apply (drains_v2_empty n)|].
  split; [apply (drains_v2_empty n)|].
  split.
  - intros Hout. destruct (closeHandler_v2_absent c n Hout) as [Hs Hc].
    split; [exact Hs|]. rewrite Hc.
    intros x [<-|[<-|[]]]; split; reflexivity.
  - intros Hout. rewrite (unregister_v2_absent msg n Hout). split; reflexivity.
Qed.

(** The scenario of the specification, on [part_000]: after the removal
    of ["m1"] by the server the registry is empty and the close frame was
    written; the disconnect callback of the same connection, firing
    afterwards, writes nothing, ends nothing and sends nothing. *)
Example part000_close_after_removal :
  let removed := Part000.unregisterSubscriber
                   (Samples.connect "m1" Samples.A JUndefined) Samples.lone2 in
  let late := Part000.closeHandler (Samples.listener_of "m1" Samples.A) (state_of removed) in
  subscribers (state_of removed) = [] /\
  In (CWrite 1 ("data: The connection was closed by the server." +++ LF))
     (calls_of removed) /\
  In (CEnd 1) (calls_of removed) /\
  state_of late = state_of removed /\
  calls_of late = [CStatus "green" "dot" "0 client(s) connected";
                   CRemoveListener 1 "m1"].
Proof.
  repeat split; try reflexivity; simpl; auto 10.
Qed.

(** C3 on [sse-server.js], at the failing input.  The redeploy signal
    ends the stream of ["m1"] and empties the registry; when the
    disconnect callback of that connection then fires, it finds no guard:
    it writes a close frame to the ended stream, sends a disconnect
    notification and calls [end] a second time. *)
Theorem sse_server_close_after_drain :
  let drained := SseServer.runtime_event Samples.lone1 in
  let late := SseServer.closeHandler
                (Samples.connect "m1" Samples.A JUndefined) (state_of drained) in
  In (CEnd 1) (calls_of drained) /\
  subscribers (state_of drained) = [] /\
  completion_of late = Normal tt /\
  calls_of late
  = [CWrite 1 ("event: close" +++ LF);
     CWrite 1 ("data: The connection was closed by the server." +++ LF);
     CWrite 1 ("id: m1" +++ LF +++ LF);
     CFlush 1;
     CSend "m1" (bare "disconnect");
     CEnd 1;
     CStatus "green" "dot" "0 client(s) connected";
     CRemoveListener 1 "m1"].
Proof.
  repeat split; try reflexivity. simpl. auto 10.
Qed.

(** [unregisterSubscriber] of [sse-server.js] never looks its id up: the
    close frame is attempted on [msg.res] whatever the registry holds. *)
Lemma unregister_v1_unguarded (msg : Msg) (n : Node) (r : Response) :
  res msg = Some r ->
  In (CWrite (handle r) ("event: close" +++ LF))
     (calls_of (SseServer.unregisterSubscriber msg n)).
Proof.
  intros Hr. unfold SseServer.unregisterSubscriber, SseServer.unbound_RED_log_warn.
  run_op. rewrite Hr. simpl.
  repeat (break_match; simpl); auto.
Qed.

(** C5, at the failing inputs: a removal request for ["m9"], which the
    registry does not hold.  [sse-server.js] has no guard: it writes the
    close frame, sends a disconnect notification and ends the stream.
    [part_000] has the guard and changes nothing, but its warning is
    never logged: naming the unbound [RED] throws a [ReferenceError]. *)
Theorem unregister_unknown_id :
  let m := Samples.connect "m9" Samples.B JUndefined in
  SseServer.unregisterSubscriber m Samples.lone1
  = (Samples.lone1,
     [CWrite 2 ("event: close" +++ LF);
      CWrite 2 ("data: The connection was closed by the server." +++ LF);
      CWrite 2 ("id: m9" +++ LF +++ LF);
      CFlush 2;
      CSend "m9" (bare "disconnect");
      CEnd 2],
     Normal tt) /\
  Part000.unregisterSubscriber m Samples.lone2
  = (Samples.lone2, [], Throw (ReferenceError "RED is not defined")).
Proof.
  split; reflexivity.
Qed.

(** The first scenario of the specification: one subscriber, one
    broadcast, one frame, and the registry keeps its size. *)
Example tick_scenario :
  let n := state_of (@Part000.registerSubscriber Samples.plain_json
                       (Samples.connect "m1" Samples.A JUndefined) Samples.fresh_node) in
  let out := @handleServerEvent Samples.plain_json
               (Samples.publish "m1" (JStr "tick") (JObj [("n", JNum 1)])) n in
  filter is_write_or_end (calls_of out)
  = [CWrite 1 ("event: tick" +++ LF);
     CWrite 1 ("data: " +++ Samples.tick_json +++ LF);
     CWrite 1 ("id: m1" +++ LF +++ LF)] /\
  List.length (subscribers (state_of out)) = 1.
Proof.
  split; reflexivity.
Qed.

(** * Further properties *)

(** ** Projections of a run *)

Lemma state_of_bind {A B} (m : Op A) (k : A -> Op B) n :
  state_of (bind m k n)
  = match completion_of (m n) with
    | Normal a => state_of (k a (state_of (m n)))
    | Throw _ => state_of (m n)
    end.
Proof.
  unfold bind, completion_of, state_of.
  destruct (m n) as [[n1 c1] [a|e]]; simpl; [|reflexivity].
  destruct (k a n1) as [[n2 c2] r]. reflexivity.
Qed.

Lemma calls_of_bind {A B} (m : Op A) (k : A -> Op B) n :
  calls_of (bind m k n)
  = calls_of (m n) ++
    match completion_of (m n) with
    | Normal a => calls_of (k a (state_of (m n)))
    | Throw _ => []
    end.
Proof.
  unfold bind, calls_of, completion_of, state_of.
  destruct (m n) as [[n1 c1] [a|e]]; simpl.
  - destruct (k a n1) as [[n2 c2] r]. reflexivity.
  - now rewrite app_nil_r.
Qed.

Lemma append_assoc (a b c : string) : (a +++ b) +++ c = a +++ b +++ c.
Proof.
  induction a as [|x a IH]; [reflexivity|].
  change (String x ((a +++ b) +++ c) = String x (a +++ b +++ c)).
  now rewrite IH.
Qed.

Lemma append_empty (a : string) : a +++ EmptyString = a.
Proof.
  induction a as [|x a IH]; [reflexivity|].
  change (String x (a +++ EmptyString) = String x a).
  now rewrite IH.
Qed.

(** ** Sub-registries *)

Lemma subseq_refl {A} (l : list A) : subseq l l.
Proof. induction l; constructor; assumption. Qed.

Lemma subseq_empty {A} (l : list A) : subseq [] l.
Proof. induction l; constructor; assumption. Qed.

Lemma subseq_filter {A} (p : A -> bool) (l : list A) : subseq (filter p l) l.
Proof.
  induction l as [|x t IH]; simpl; [constructor|].
  destruct (p x); constructor; assumption.
Qed.

Lemma subseq_splice1 (i : nat) (l : list Subscriber) : subseq (splice1 i l) l.
Proof.
  revert i. induction l as [|x t IH]; intros i; simpl.
  - destruct i; constructor.
  - destruct i; [apply subseq_skip, subseq_refl | apply subseq_keep, IH].
Qed.

Lemma subseq_trans {A} (l1 l2 l3 : list A) :
  subseq l1 l2 -> subseq l2 l3 -> subseq l1 l3.
Proof.
  intros H12 H23. revert l1 H12.
  induction H23 as [|x l2 l3 H IH|x l2 l3 H IH]; intros l1 H12.
  - exact H12.
  - apply subseq_skip, IH, H12.
  - inversion H12; subst.
    + apply subseq_skip, IH. assumption.
    + apply subseq_keep, IH. assumption.
Qed.

Lemma subseq_In {A} (l' l : list A) x : subseq l' l -> In x l' -> In x l.
Proof.
  induction 1 as [|y l' l H IH|y l' l H IH]; simpl; intros Hx; auto.
  destruct Hx; auto.
Qed.

Lemma subseq_length {A} (l' l : list A) :
  subseq l' l -> List.length l' <= List.length l.
Proof. induction 1; simpl; lia. Qed.

Lemma subseq_map {A B} (f : A -> B) (l' l : list A) :
  subseq l' l -> subseq (map f l') (map f l).
Proof. induction 1; simpl; constructor; assumption. Qed.

Lemma subseq_NoDup {A} (l' l : list A) : subseq l' l -> NoDup l -> NoDup l'.
Proof.
  induction 1 as [|y l' l H IH|y l' l H IH]; intros Hnd.
  - constructor.
  - inversion Hnd; auto.
  - inversion Hnd as [|? ? Hy Hl]; subst. constructor; [|auto].
    intros Hin. apply Hy. eapply subseq_In; eassumption.
Qed.

Lemma subseq_Forall {A} (P : A -> Prop) (l' l : list A) :
  subseq l' l -> Forall P l -> Forall P l'.
Proof.
  intros Hs Hall. rewrite Forall_forall in *.
  intros x Hx. apply Hall. eapply subseq_In; eassumption.
Qed.

Lemma shrinks_refl n : shrinks n n.
Proof. repeat split. apply subseq_refl. Qed.

(** Closes a goal [shrinks n n'] once the run has been computed. *)
Ltac shrinks_done :=
  unfold shrinks; simpl; repeat split;
  first [ apply subseq_refl | apply subseq_filter | apply subseq_splice1
        | apply subseq_empty ].

(** ** Loops that leave the node alone *)

Lemma forEach_state (f : Subscriber -> Op unit) (l : list Subscriber) (n : Node) :
  (forall s m, state_of (f s m) = m) ->
  state_of (forEach f l n) = n.
Proof.
  intros Hf. induction l as [|x t IH]; [reflexivity|].
  simpl forEach. rewrite state_of_bind.
  destruct (completion_of (f x n)); rewrite Hf; [exact IH | reflexivity].
Qed.

Lemma forEach_calls_from (f : Subscriber -> Op unit) (l : list Subscriber) (n : Node) c :
  (forall s m, state_of (f s m) = m) ->
  In c (calls_of (forEach f l n)) ->
  exists s, In s l /\ In c (calls_of (f s n)).
Proof.
  intros Hf. induction l as [|x t IH]; [intros []|].
  simpl forEach. rewrite calls_of_bind. intros Hc.
  apply in_app_or in Hc as [Hc|Hc].
  - exists x. split; [now left | exact Hc].
  - destruct (completion_of (f x n)); [|destruct Hc].
    rewrite Hf in Hc. destruct (IH Hc) as (s & Hs & Hcs).
    exists s. split; [now right | exact Hcs].
Qed.

Lemma close_collection_state (s : Subscriber) (m : Node) :
  state_of (SseServer.close_collection s m) = m.
Proof.
  unfold SseServer.close_collection. run_op.
  repeat (break_match; simpl); reflexivity.
Qed.

Lemma close_subscriber_state (reason : string) (s : Subscriber) (m : Node) :
  state_of (Part000.close_subscriber reason s m) = m.
Proof.
  destruct (close_subscriber_run reason s m) as (cs & E & _).
  now rewrite E.
Qed.

(** ** What each operation does to the registry *)

Lemma handleServerEvent_shrinks `{Builtins} (msg : Msg) (n : Node) :
  shrinks n (state_of (handleServerEvent msg n)).
Proof.
  destruct (_serializeData (broadcast_payload n msg)) as [d|e] eqn:Hd.
  - destruct (handleServerEvent_run n msg d Hd) as (cs & E & _).
    rewrite E. shrinks_done.
  - rewrite (handleServerEvent_unserializable n msg e Hd). apply shrinks_refl.
Qed.

Lemma unregister_v1_shrinks (msg : Msg) (n : Node) :
  shrinks n (state_of (SseServer.unregisterSubscriber msg n)).
Proof.
  unfold SseServer.unregisterSubscriber, SseServer.unbound_RED_log_warn.
  run_op. repeat (break_match; simpl); shrinks_done.
Qed.

Lemma closeHandler_v1_shrinks (msg : Msg) (n : Node) :
  shrinks n (state_of (SseServer.closeHandler msg n)).
Proof.
  unfold SseServer.closeHandler, SseServer.unregisterSubscriber,
    SseServer.unbound_RED_log_warn.
  run_op. repeat (break_match; simpl); shrinks_done.
Qed.

Lemma runtime_event_v1_state (n : Node) :
  state_of (SseServer.runtime_event n) = n \/
  state_of (SseServer.runtime_event n) = with_registry n [].
Proof.
  pose proof (forEach_state SseServer.close_collection (subscribers n) n
                close_collection_state) as Hf.
  unfold SseServer.runtime_event. run_op.
  destruct (forEach SseServer.close_collection (subscribers n) n)
    as [[n1 c1] [[]|e]]; simpl in *; subst n1; [right | left]; reflexivity.
Qed.

Lemma runtime_event_v1_shrinks (n : Node) :
  shrinks n (state_of (SseServer.runtime_event n)).
Proof.
  destruct (runtime_event_v1_state n) as [E|E]; rewrite E;
    [apply shrinks_refl | shrinks_done].
Qed.

Lemma closeHandler_v2_shrinks (c : Closure) (n : Node) :
  shrinks n (state_of (Part000.closeHandler c n)).
Proof.
  unfold Part000.closeHandler, Part000.subscriber_at.
  run_op. repeat (break_match; simpl); shrinks_done.
Qed.

Lemma unregister_v2_shrinks (msg : Msg) (n : Node) :
  shrinks n (state_of (Part000.unregisterSubscriber msg n)).
Proof.
  unfold Part000.unregisterSubscriber, Part000.subscriber_at,
    Part000.unbound_RED_log_warn.
  run_op. repeat (break_match; simpl); shrinks_done.
Qed.

Lemma drains_v2_state (n : Node) :
  state_of (Part000._runtimeHandler n) = with_registry n [] /\
  state_of (Part000.on_close n) = with_registry n [].
Proof.
  destruct (drain_v2_run "Collection closed" n) as (c1 & E1 & _).
  destruct (drain_v2_run "Node closed" n) as (c2 & E2 & _).
  rewrite (runtimeHandler_v2_run n c1 E1), (on_close_v2_run n c2 E2).
  split; reflexivity.
Qed.

(** X1. Nothing but a registration adds a subscriber.  A broadcast, a
    disconnect callback, a removal request and a drain, in either file and
    whatever throws, leave the configuration as it was and a registry that
    is the old one with entries taken out: the survivors keep their order
    and no entry is new. *)
Theorem registry_never_grows `{Builtins} (n : Node) :
  (forall msg, shrinks n (state_of (handleServerEvent msg n))) /\
  (forall msg, shrinks n (state_of (SseServer.unregisterSubscriber msg n))) /\
  (forall msg, shrinks n (state_of (SseServer.closeHandler msg n))) /\
  shrinks n (state_of (SseServer.runtime_event n)) /\
  (forall c, shrinks n (state_of (Part000.closeHandler c n))) /\
  (forall msg, shrinks n (state_of (Part000.unregisterSubscriber msg n))) /\
  shrinks n (state_of (Part000._runtimeHandler n)) /\
  shrinks n (state_of (Part000.on_close n)).
Proof.
  split; [intros msg; apply handleServerEvent_shrinks|].
  split; [intros msg; apply unregister_v1_shrinks|].
  split; [intros msg; apply closeHandler_v1_shrinks|].
  split; [apply runtime_event_v1_shrinks|].
  split; [intros c; apply closeHandler_v2_shrinks|].
  split; [intros msg; apply unregister_v2_shrinks|].
  destruct (drains_v2_state n) as [E1 E2]. rewrite E1, E2.
  split; shrinks_done.
Qed.

(** ** Reachable states *)

Lemma after_invariant {A} (perform : A -> Op unit) (P : Node -> Prop) :
  (forall a n, P n -> P (state_of (perform a n))) ->
  forall acts n, P n -> P (Lifecycle.after perform acts n).
Proof.
  intros Hstep acts. induction acts as [|a t IH]; intros n Hn; [exact Hn|].
  simpl. apply IH, Hstep, Hn.
Qed.

Lemma enrol_node_config entry n :
  event (enrol_node entry n) = event n /\ data (enrol_node entry n) = data n.
Proof.
  unfold enrol_node. destruct (existsb _ (subscribers n)); split; reflexivity.
Qed.

(** A step of either file takes entries out or is a guarded push. *)
Lemma perform1_step `{Builtins} (a : Lifecycle.Action1) (n : Node) :
  shrinks n (state_of (Lifecycle.perform1 a n)) \/
  exists msg r, state_of (Lifecycle.perform1 a n) = enrol_node (entry_v1 msg r) n.
Proof.
  destruct a as [msg done|msg|]; simpl.
  - unfold SseServer.input. rewrite on_input_run. unfold state_of at 1. cbn [fst].
    unfold work_of. destruct (res msg) as [r0|].
    + destruct (opens_stream msg) eqn:Ho.
      * destruct (register_v1_opens msg n Ho) as (r & line & _ & _ & E).
        right. exists msg, r. now rewrite E.
      * left. rewrite (proj1 (register_fails_state msg n Ho)). apply shrinks_refl.
    + left. apply handleServerEvent_shrinks.
  - left. apply closeHandler_v1_shrinks.
  - left. apply runtime_event_v1_shrinks.
Qed.

Lemma perform2_step `{Builtins} (a : Lifecycle.Action2) (n : Node) :
  shrinks n (state_of (Lifecycle.perform2 a n)) \/
  exists msg r, state_of (Lifecycle.perform2 a n) = enrol_node (entry_v2 msg r) n.
Proof.
  destruct a as [msg done|c|msg| |]; simpl.
  - unfold Part000.input. rewrite on_input_run. unfold state_of at 1. cbn [fst].
    unfold work_of. destruct (res msg) as [r0|].
    + destruct (opens_stream msg) eqn:Ho.
      * destruct (register_v2_opens msg n Ho) as (r & line & _ & _ & E).
        right. exists msg, r. now rewrite E.
      * left. rewrite (proj1 (proj2 (register_fails_state msg n Ho))).
        apply shrinks_refl.
    + left. apply handleServerEvent_shrinks.
  - left. apply closeHandler_v2_shrinks.
  - left. apply unregister_v2_shrinks.
  - left. rewrite (proj1 (drains_v2_state n)). shrinks_done.
  - left. rewrite (proj2 (drains_v2_state n)). shrinks_done.
Qed.

Lemma shrinks_distinct n n' :
  shrinks n n' -> NoDup (ids n) -> NoDup (ids n').
Proof.
  intros (_ & _ & Hs) Hnd. unfold ids in *.
  eapply subseq_NoDup; [apply subseq_map, Hs | exact Hnd].
Qed.

Lemma enrol_node_distinct entry n :
  NoDup (ids n) -> NoDup (ids (enrol_node entry n)).
Proof.
  intros Hnd. unfold ids. rewrite subscribers_enrol_node.
  apply enrolled_NoDup, Hnd.
Qed.

(** X2. The registry never holds two entries of one id, and the
    configuration never changes: from the node the constructor makes,
    after any run of work items, disconnect callbacks, removal requests
    and drains, in any order and whatever throws, the ids of the registry
    are distinct and [event] and [data] are the configured ones.  Both
    files. *)
Theorem reachable_registry_distinct `{Builtins}
    (config : Lifecycle.Config)
    (acts1 : list Lifecycle.Action1) (acts2 : list Lifecycle.Action2) :
  let n1 := Lifecycle.after Lifecycle.perform1 acts1
              (Lifecycle.CreateSseServerNode config) in
  let n2 := Lifecycle.after Lifecycle.perform2 acts2
              (Lifecycle.CreateSseServerNode config) in
  (NoDup (ids n1) /\
   event n1 = Lifecycle.event config /\ data n1 = Lifecycle.data config) /\
  (NoDup (ids n2) /\
   event n2 = Lifecycle.event config /\ data n2 = Lifecycle.data config).
Proof.
  cbv zeta. split.
  - apply (after_invariant Lifecycle.perform1
             (fun n => NoDup (ids n) /\
                       event n = Lifecycle.event config /\
                       data n = Lifecycle.data config)).
    + intros a n (Hnd & He & Hd).
      destruct (perform1_step a n) as [Hs|(msg & r & E)].
      * split; [eapply shrinks_distinct; eassumption|].
        destruct Hs as (He' & Hd' & _). split; congruence.
      * rewrite E. split; [now apply enrol_node_distinct|].
        destruct (enrol_node_config (entry_v1 msg r) n) as [He' Hd'].
        split; congruence.
    + split; [constructor | split; reflexivity].
  - apply (after_invariant Lifecycle.perform2
             (fun n => NoDup (ids n) /\
                       event n = Lifecycle.event config /\
                       data n = Lifecycle.data config)).
    + intros a n (Hnd & He & Hd).
      destruct (perform2_step a n) as [Hs|(msg & r & E)].
      * split; [eapply shrinks_distinct; eassumption|].
        destruct Hs as (He' & Hd' & _). split; congruence.
      * rewrite E. split; [now apply enrol_node_distinct|].
        destruct (enrol_node_config (entry_v2 msg r) n) as [He' Hd'].
        split; congruence.
    + split; [constructor | split; reflexivity].
Qed.

Lemma enrolled_Forall (P : Subscriber -> Prop) entry subs :
  P entry -> Forall P subs -> Forall P (enrolled entry subs).
Proof.
  intros He Hs. unfold enrolled. destruct (existsb _ subs); [exact Hs|].
  apply Forall_app. split; [exact Hs | constructor; [exact He | constructor]].
Qed.

(** X3. Every entry carries its own listener in [part_000] and none in
    [sse-server.js]: in every reachable state of [part_000] the
    [closeHandler] stored in an entry is the closure made for that entry's
    id, socket and address, so the drain and the removal always find the
    listener to unhook; in [sse-server.js] no entry has the property. *)
Theorem reachable_entries_hooked `{Builtins}
    (config : Lifecycle.Config)
    (acts1 : list Lifecycle.Action1) (acts2 : list Lifecycle.Action2) :
  Forall (fun s => closeHandler s = None)
    (subscribers (Lifecycle.after Lifecycle.perform1 acts1
                    (Lifecycle.CreateSseServerNode config))) /\
  Forall well_hooked
    (subscribers (Lifecycle.after Lifecycle.perform2 acts2
                    (Lifecycle.CreateSseServerNode config))).
Proof.
  split.
  - apply (after_invariant Lifecycle.perform1
             (fun n => Forall (fun s => closeHandler s = None) (subscribers n))).
    + intros a n Hall.
      destruct (perform1_step a n) as [(_ & _ & Hs)|(msg & r & E)].
      * eapply subseq_Forall; eassumption.
      * rewrite E, subscribers_enrol_node.
        apply enrolled_Forall; [reflexivity | exact Hall].
    + constructor.
  - apply (after_invariant Lifecycle.perform2
             (fun n => Forall well_hooked (subscribers n))).
    + intros a n Hall.
      destruct (perform2_step a n) as [(_ & _ & Hs)|(msg & r & E)].
      * eapply subseq_Forall; eassumption.
      * rewrite E, subscribers_enrol_node.
        apply enrolled_Forall; [reflexivity | exact Hall].
    + constructor.
Qed.

(** ** What the calls of an operation are *)

(** Goes through the calls of [H], an [In c _] hypothesis over a computed
    list, leaving [tac] to close each case that [c] can be. *)
Ltac call_cases H tac :=
  simpl in H;
  repeat (destruct H as [H|H];
          [ first [discriminate H | inversion H; subst; tac] |]);
  try contradiction.

Lemma filter_op_calls_flat_map `{Builtins} ev dat messageId l n :
  calls_of (filter_op (send_event ev dat messageId) l n)
  = flat_map (fun s => calls_of (send_event ev dat messageId s n)) l.
Proof.
  induction l as [|x t IH]; [reflexivity|].
  destruct (send_event_run ev dat messageId x n) as (c1 & E1 & _).
  destruct (filter_op_send_event ev dat messageId t n) as (c2 & E2 & _).
  simpl filter_op.
  erewrite run_bind_normal;
    [| exact E1 | eapply run_bind_normal; [exact E2 | reflexivity]].
  rewrite E2 in IH. simpl flat_map. rewrite E1, <- IH.
  unfold calls_of. simpl. now rewrite app_nil_r.
Qed.

(** The calls made for one subscriber of a broadcast are warnings and
    writes, flushes and ends on that subscriber's stream. *)
Lemma send_event_kinds `{Builtins} ev dat messageId s n c :
  In c (calls_of (send_event ev dat messageId s n)) ->
  is_log c = true \/
  (is_frame_call c = true /\ stream_of c = Some (handle (socket s))).
Proof.
  unfold send_event. run_op.
  repeat (break_match; simpl); intros Hin;
    repeat (destruct Hin as [<-|Hin]; [simpl; auto|]); destruct Hin.
Qed.

Lemma handleServerEvent_kinds `{Builtins} (msg : Msg) (n : Node) c :
  In c (calls_of (handleServerEvent msg n)) ->
  is_log c = true \/
  (is_frame_call c = true /\
   exists s, In s (subscribers n) /\ stream_of c = Some (handle (socket s))).
Proof.
  destruct (_serializeData (broadcast_payload n msg)) as [d|e] eqn:Hd.
  - destruct (handleServerEvent_run n msg d Hd) as (cs & E & Ef & _).
    rewrite E. unfold calls_of at 1. cbn [fst snd].
    intros [<-|[<-|Hc]]; [left; reflexivity | left; reflexivity |].
    pose proof (filter_op_calls_flat_map (broadcast_event n msg) (ToString d)
                  (_msgid msg) (subscribers n) n) as Hfm.
    rewrite Ef in Hfm. unfold calls_of at 1 in Hfm. cbn [fst snd] in Hfm.
    rewrite Hfm in Hc. apply in_flat_map in Hc as (s & Hs & Hcs).
    destruct (send_event_kinds _ _ _ _ _ _ Hcs) as [Hl|[Hk Hh]]; [now left|].
    right. split; [exact Hk|]. exists s. split; assumption.
  - rewrite (handleServerEvent_unserializable n msg e Hd). intros [].
Qed.

(** X4. A broadcast reaches nothing but the registry's own streams.  Every
    call of [handleServerEvent] is a log line or a write, flush or end on
    the stream of a subscriber that was in the registry: it never writes a
    head, touches a listener, publishes a status (not even when it evicts
    subscribers, so the published count goes stale), notifies downstream
    or signals completion. *)
Theorem broadcast_stays_on_registry `{Builtins} (msg : Msg) (n : Node) (c : Call) :
  In c (calls_of (handleServerEvent msg n)) ->
  (is_log c = true \/
   (is_frame_call c = true /\
    exists s, In s (subscribers n) /\ stream_of c = Some (handle (socket s)))) /\
  is_status c = false /\ is_send c = false /\ c <> CDone.
Proof.
  intros Hc. pose proof (handleServerEvent_kinds msg n c Hc) as Hk.
  split; [exact Hk|].
  destruct Hk as [Hl|[Hf _]]; destruct c; try discriminate;
    repeat split; discriminate.
Qed.

Lemma broadcast_stays_on_registry_witness :
  let out := @handleServerEvent Samples.plain_json Samples.tick Samples.three in
  In (CEnd 3) (calls_of out) /\
  exists s, In s (subscribers Samples.three) /\
            stream_of (CEnd 3) = Some (handle (socket s)).
Proof.
  intros out.
  assert (Hin : In (CEnd 3) (calls_of out)) by (simpl; auto 20).
  split; [exact Hin|].
  destruct (@broadcast_stays_on_registry Samples.plain_json Samples.tick Samples.three
              (CEnd 3) Hin) as ([Hl|(_ & Hs)] & _).
  - discriminate Hl.
  - exact Hs.
Defined.

(** ** Registration *)

Lemma register_v1_kinds `{Builtins} (msg : Msg) (n : Node) c :
  In c (calls_of (SseServer.registerSubscriber msg n)) ->
  (stream_of c = None \/ exists r, res msg = Some r /\ stream_of c = Some (handle r)) /\
  is_end c = false /\
  (forall fill shape text, c = CStatus fill shape text ->
     fill = "green" /\
     text = count_text (List.length
                          (subscribers (state_of (SseServer.registerSubscriber msg n))))).
Proof.
  unfold SseServer.registerSubscriber, count_text. run_op.
  repeat (break_match; simpl); intros Hin;
    repeat (destruct Hin as [<-|Hin];
            [ split; [first [left; reflexivity | right; eexists; split; reflexivity]|];
              split; [reflexivity|];
              intros fill shape text Hc; first [discriminate Hc | inversion Hc; subst; auto] |]);
    destruct Hin.
Qed.

Lemma register_v2_kinds `{Builtins} (msg : Msg) (n : Node) c :
  In c (calls_of (Part000.registerSubscriber msg n)) ->
  (stream_of c = None \/ exists r, res msg = Some r /\ stream_of c = Some (handle r)) /\
  is_end c = false /\
  (forall fill shape text, c = CStatus fill shape text ->
     fill = "green" /\
     text = count_text (List.length
                          (subscribers (state_of (Part000.registerSubscriber msg n))))).
Proof.
  unfold Part000.registerSubscriber, count_text. run_op.
  repeat (break_match; simpl); intros Hin;
    repeat (destruct Hin as [<-|Hin];
            [ split; [first [left; reflexivity | right; eexists; split; reflexivity]|];
              split; [reflexivity|];
              intros fill shape text Hc; first [discriminate Hc | inversion Hc; subst; auto] |]);
    destruct Hin.
Qed.

(** X5. A registration keeps to its own connection.  Every call
    [registerSubscriber] makes on a stream is made on the response (or the
    request) of its own work item, and it never ends a stream: the
    subscribers already in the registry see nothing of a new connection,
    also when the registration throws.  Both files. *)
Theorem registration_keeps_to_its_response `{Builtins} (msg : Msg) (n : Node) (c : Call) :
  (In c (calls_of (SseServer.registerSubscriber msg n)) ->
   (stream_of c = None \/ exists r, res msg = Some r /\ stream_of c = Some (handle r)) /\
   is_end c = false) /\
  (In c (calls_of (Part000.registerSubscriber msg n)) ->
   (stream_of c = None \/ exists r, res msg = Some r /\ stream_of c = Some (handle r)) /\
   is_end c = false).
Proof.
  split; intros Hc.
  - destruct (register_v1_kinds msg n c Hc) as (H1 & H2 & _). split; assumption.
  - destruct (register_v2_kinds msg n c Hc) as (H1 & H2 & _). split; assumption.
Qed.

Lemma registration_keeps_to_its_response_witness :
  let m := Samples.connect "m9" Samples.B JUndefined in
  In (CWriteHead 2 200 sse_headers)
     (calls_of (@Part000.registerSubscriber Samples.plain_json m Samples.three)) /\
  (stream_of (CWriteHead 2 200 sse_headers) = None \/
   exists r, res m = Some r /\ stream_of (CWriteHead 2 200 sse_headers) = Some (handle r)).
Proof.
  intros m.
  assert (Hin : In (CWriteHead 2 200 sse_headers)
                  (calls_of (@Part000.registerSubscriber Samples.plain_json m Samples.three)))
    by (simpl; auto 20).
  split; [exact Hin|].
  exact (proj1 (proj2 (@registration_keeps_to_its_response Samples.plain_json m
                         Samples.three (CWriteHead 2 200 sse_headers)) Hin)).
Defined.

(** ** The published count *)

Lemma closeHandler_v1_status (msg : Msg) (n : Node) fill shape text :
  In (CStatus fill shape text) (calls_of (SseServer.closeHandler msg n)) ->
  text = count_text (List.length (subscribers (state_of (SseServer.closeHandler msg n)))).
Proof.
  unfold SseServer.closeHandler, SseServer.unregisterSubscriber,
    SseServer.unbound_RED_log_warn, count_text.
  run_op.
  repeat (break_match; simpl); intros Hin; call_cases Hin ltac:(reflexivity).
Qed.

Lemma closeHandler_v2_status (c : Closure) (n : Node) fill shape text :
  In (CStatus fill shape text) (calls_of (Part000.closeHandler c n)) ->
  text = count_text (List.length (subscribers (state_of (Part000.closeHandler c n)))).
Proof.
  unfold Part000.closeHandler, Part000.subscriber_at, count_text.
  run_op.
  repeat (break_match; simpl); intros Hin; call_cases Hin ltac:(reflexivity).
Qed.

Lemma on_input_status `{Builtins} (reg : Msg -> Op unit) (msg : Msg) (done : bool)
    (n : Node) fill shape text :
  (forall c, In c (calls_of (reg msg n)) ->
     forall f s t, c = CStatus f s t ->
       f = "green" /\ t = count_text (List.length (subscribers (state_of (reg msg n))))) ->
  In (CStatus fill shape text) (calls_of (on_input reg msg done n)) ->
  text = count_text (List.length (subscribers (state_of (on_input reg msg done n)))).
Proof.
  intros Hreg. rewrite on_input_run.
  unfold calls_of at 1, state_of at 1. cbn [fst snd].
  intros Hin. apply in_app_or in Hin as [Hin|Hin].
  - unfold work_of in *. destruct (res msg).
    + apply (Hreg _ Hin fill shape text eq_refl).
    + apply handleServerEvent_kinds in Hin as [Hl|[Hf _]]; discriminate.
  - apply in_app_or in Hin as [Hin|Hin].
    + unfold error_report in Hin.
      destruct (completion_of (work_of reg msg n)); [destruct Hin|].
      destruct Hin as [Hin|[Hin|[]]]; [discriminate Hin|].
      now inversion Hin.
    + destruct done; [destruct Hin as [Hin|[]]; discriminate Hin | destruct Hin].
Qed.

(** X6. The published count is the registry's size.  Whenever the input
    handler or a disconnect callback publishes a status, on the success
    path or the error path, its text counts the subscribers the registry
    holds when the handler is done.  Both files. *)
Theorem status_counts_the_registry `{Builtins} (n : Node) (fill shape text : string) :
  (forall msg done,
     In (CStatus fill shape text) (calls_of (SseServer.input msg done n)) ->
     text = count_text (List.length (subscribers (state_of (SseServer.input msg done n))))) /\
  (forall msg done,
     In (CStatus fill shape text) (calls_of (Part000.input msg done n)) ->
     text = count_text (List.length (subscribers (state_of (Part000.input msg done n))))) /\
  (forall msg,
     In (CStatus fill shape text) (calls_of (SseServer.closeHandler msg n)) ->
     text = count_text (List.length (subscribers (state_of (SseServer.closeHandler msg n))))) /\
  (forall c,
     In (CStatus fill shape text) (calls_of (Part000.closeHandler c n)) ->
     text = count_text (List.length (subscribers (state_of (Part000.closeHandler c n))))).
Proof.
  split; [|split; [|split]].
  - intros msg done. apply on_input_status.
    intros c Hc. apply (register_v1_kinds msg n c Hc).
  - intros msg done. apply on_input_status.
    intros c Hc. apply (register_v2_kinds msg n c Hc).
  - intros msg. apply closeHandler_v1_status.
  - intros c. apply closeHandler_v2_status.
Qed.

Lemma status_counts_the_registry_witness :
  let m := Samples.connect "m2" Samples.B JUndefined in
  let out := @Part000.input Samples.plain_json m true Samples.lone2 in
  In (CStatus "green" "dot" "2 client(s) connected") (calls_of out) /\
  "2 client(s) connected" = count_text (List.length (subscribers (state_of out))).
Proof.
  intros m out.
  assert (Hin : In (CStatus "green" "dot" "2 client(s) connected") (calls_of out))
    by (simpl; auto 20).
  split; [exact Hin|].
  destruct (@status_counts_the_registry Samples.plain_json Samples.lone2
              "green" "dot" "2 client(s) connected") as (_ & H2 & _).
  exact (H2 m true Hin).
Defined.

Lemma close_collection_no_status (s : Subscriber) (n : Node) c :
  In c (calls_of (SseServer.close_collection s n)) -> is_status c = false.
Proof.
  unfold SseServer.close_collection. run_op.
  repeat (break_match; simpl); intros Hin;
    repeat (destruct Hin as [<-|Hin]; [reflexivity|]); destruct Hin.
Qed.

Lemma close_subscriber_no_status (reason : string) (s : Subscriber) (n : Node) c :
  In c (calls_of (Part000.close_subscriber reason s n)) -> is_status c = false.
Proof.
  unfold Part000.close_subscriber. run_op.
  repeat (break_match; simpl); intros Hin;
    repeat (destruct Hin as [<-|Hin]; [reflexivity|]); destruct Hin.
Qed.

(** X7. A redeploy publishes the count it found, not the count it leaves.
    The redeploy handler of either file publishes the status first, with
    the size of the registry before the drain, and no status after it; the
    handler of [part_000] then always leaves the registry empty, so after
    a redeploy of N subscribers the node still shows N.  The node's own
    close publishes no status at all. *)
Theorem redeploy_publishes_old_count (n : Node) :
  (exists cs,
     calls_of (SseServer.runtime_event n)
     = CStatus "green" "dot" (count_text (List.length (subscribers n))) :: cs /\
     forall c, In c cs -> is_status c = false) /\
  (exists cs,
     calls_of (Part000._runtimeHandler n)
     = CStatus "green" "dot" (count_text (List.length (subscribers n))) :: cs /\
     (forall c, In c cs -> is_status c = false) /\
     subscribers (state_of (Part000._runtimeHandler n)) = []) /\
  (forall c, In c (calls_of (Part000.on_close n)) -> is_status c = false).
Proof.
  split; [|split].
  - pose proof (forEach_calls_from SseServer.close_collection (subscribers n) n) as Hfrom.
    unfold SseServer.runtime_event, count_text. run_op.
    destruct (forEach SseServer.close_collection (subscribers n) n)
      as [[n1 c1] [[]|e]]; simpl in *; eexists; (split; [reflexivity|]);
      intros c Hc; rewrite ?app_nil_r in Hc;
      destruct (Hfrom c close_collection_state Hc) as (s & _ & Hs);
      exact (close_collection_no_status s n c Hs).
  - destruct (forEach_run (Part000.close_subscriber "Collection closed") (subscribers n) n)
      as (cs & E & _ & Hout).
    { intros s _. destruct (close_subscriber_run "Collection closed" s n) as (c & Ec & _).
      eauto. }
    exists cs. rewrite (runtimeHandler_v2_run n cs E).
    split; [reflexivity|]. split; [|reflexivity].
    intros c Hc. destruct (Hout c Hc) as (s & _ & Hs).
    exact (close_subscriber_no_status _ s n c Hs).
  - destruct (forEach_run (Part000.close_subscriber "Node closed") (subscribers n) n)
      as (cs & E & _ & Hout).
    { intros s _. destruct (close_subscriber_run "Node closed" s n) as (c & Ec & _).
      eauto. }
    rewrite (on_close_v2_run n cs E). unfold calls_of. cbn [fst snd].
    intros c Hc. destruct (Hout c Hc) as (s & _ & Hs).
    exact (close_subscriber_no_status _ s n c Hs).
Qed.

(** X8. In [part_000] a connect notification means a registered
    subscriber: when [registerSubscriber] sends a notification, the stream
    was opened, the call returns normally and the id is in the registry
    afterwards.  (In [sse-server.js] the notification is sent before the
    listener is hooked and the entry pushed, as the example below runs.) *)
Theorem connect_means_registered `{Builtins} (msg : Msg) (n : Node) mid p :
  In (CSend mid p) (calls_of (Part000.registerSubscriber msg n)) ->
  opens_stream msg = true /\
  completion_of (Part000.registerSubscriber msg n) = Normal tt /\
  In (_msgid msg) (ids (state_of (Part000.registerSubscriber msg n))).
Proof.
  intros Hin. destruct (opens_stream msg) eqn:Ho.
  - destruct (register_v2_opens msg n Ho) as (r & line & _ & _ & E).
    rewrite E. split; [reflexivity|]. split; [reflexivity|].
    unfold state_of, ids. cbn [fst]. rewrite subscribers_enrol_node.
    apply enrolled_In. right. reflexivity.
  - destruct (register_fails_state msg n Ho) as (_ & _ & _ & _ & Hno).
    apply Hno in Hin. discriminate Hin.
Qed.

Lemma connect_means_registered_witness :
  let m := Samples.connect "m9" Samples.B JUndefined in
  let out := @Part000.registerSubscriber Samples.plain_json m Samples.lone2 in
  In (CSend "m9" (shaped "connect" 2 (JStr "10.0.0.2"))) (calls_of out) /\
  In "m9" (ids (state_of out)).
Proof.
  intros m out.
  assert (Hin : In (CSend "m9" (shaped "connect" 2 (JStr "10.0.0.2"))) (calls_of out))
    by (simpl; auto 20).
  split; [exact Hin|].
  exact (proj2 (proj2 (@connect_means_registered Samples.plain_json m Samples.lone2
                         _ _ Hin))).
Defined.

(** In [sse-server.js] a registration whose listener cannot be hooked has
    already told downstream of the connection it then does not register. *)
Example sse_server_notifies_before_registering :
  let m := Samples.connect "m9" (MoreSamples.deaf 7) JUndefined in
  let out := @SseServer.registerSubscriber Samples.plain_json m Samples.fresh_node in
  In (CSend "m9" (bare "connect")) (calls_of out) /\
  subscribers (state_of out) = [] /\
  completion_of out = Throw (Error "req.on is not a function").
Proof.
  split; [simpl; auto 20 | split; reflexivity].
Qed.

(** X9. A registration that cannot open its stream is reported and leaves
    no trace in the registry: the input handler of either file returns
    normally with the node unchanged, logs the error and publishes the red
    status with the unchanged count; [part_000] sends nothing downstream. *)
Theorem failed_registration_reports_red `{Builtins} (msg : Msg) (n : Node) (r : Response) :
  res msg = Some r ->
  opens_stream msg = false ->
  (let out := SseServer.input msg true n in
   completion_of out = Normal tt /\ state_of out = n /\
   (exists e, In (CLogError e) (calls_of out)) /\
   In (CStatus "red" "dot" (count_text (List.length (subscribers n)))) (calls_of out) /\
   In CDone (calls_of out)) /\
  (let out := Part000.input msg true n in
   completion_of out = Normal tt /\ state_of out = n /\
   (exists e, In (CLogError e) (calls_of out)) /\
   In (CStatus "red" "dot" (count_text (List.length (subscribers n)))) (calls_of out) /\
   In CDone (calls_of out) /\
   forall c, In c (calls_of out) -> is_send c = false).
Proof.
  intros Hr Ho.
  destruct (register_fails_state msg n Ho) as (S1 & S2 & (e1 & C1) & (e2 & C2) & Hno).
  cbv zeta. unfold SseServer.input, Part000.input. rewrite !on_input_run.
  unfold work_of, error_report. rewrite Hr, C1, C2, S1, S2.
  unfold completion_of, state_of, calls_of in *. cbn [fst snd] in *.
  split.
  - split; [reflexivity|]. split; [reflexivity|].
    split; [exists e1; apply in_or_app; right; simpl; auto|].
    split; apply in_or_app; right; simpl; auto.
  - split; [reflexivity|]. split; [reflexivity|].
    split; [exists e2; apply in_or_app; right; simpl; auto|].
    split; [apply in_or_app; right; simpl; auto|].
    split; [apply in_or_app; right; simpl; auto|].
    intros c Hc. apply in_app_or in Hc as [Hc|Hc]; [now apply Hno|].
    simpl in Hc. repeat (destruct Hc as [<-|Hc]; [reflexivity|]). destruct Hc.
Qed.

Lemma failed_registration_reports_red_witness :
  let m := Samples.connect "m2" (Samples.headless 9) JUndefined in
  let out := @Part000.input Samples.plain_json m true Samples.lone2 in
  state_of out = Samples.lone2 /\
  In (CStatus "red" "dot" (count_text 1)) (calls_of out) /\
  forall c, In c (calls_of out) -> is_send c = false.
Proof.
  intros m out.
  destruct (@failed_registration_reports_red Samples.plain_json m Samples.lone2
              (Samples.headless 9) eq_refl eq_refl) as (_ & (_ & Hs & _ & Hred & _ & Hno)).
  split; [exact Hs|]. split; [exact Hred | exact Hno].
Defined.

(** ** Taking an entry out *)

Lemma without_absent (x : string) (l : list Subscriber) :
  ~ In x (map id l) -> without x l = l.
Proof.
  unfold without. induction l as [|a t IH]; intros Hout; [reflexivity|].
  simpl in *. destruct (String.eqb_spec (id a) x) as [E|E].
  - exfalso. auto.
  - simpl. rewrite IH by tauto. reflexivity.
Qed.

Lemma splice1_is_without (x : string) (l : list Subscriber) (i : nat) :
  NoDup (map id l) ->
  findIndex (fun sub => (id sub =? x)%string) l = Some i ->
  splice1 i l = without x l.
Proof.
  unfold without. revert i. induction l as [|a t IH]; intros i Hnd Hf; [discriminate|].
  simpl in Hf, Hnd. inversion Hnd as [|? ? Ha Ht]; subst.
  simpl. destruct (String.eqb_spec (id a) x) as [E|E].
  - injection Hf as <-. simpl. subst x.
    symmetry. apply (without_absent (id a) t Ha).
  - destruct (findIndex _ t) as [j|] eqn:Ej; [|discriminate].
    injection Hf as <-. simpl. f_equal. apply (IH j Ht eq_refl).
Qed.

Lemma findIndex_present (x : string) (l : list Subscriber) :
  In x (map id l) ->
  exists i, findIndex (fun sub => (id sub =? x)%string) l = Some i.
Proof.
  induction l as [|a t IH]; intros Hin; [destruct Hin|].
  simpl. destruct (String.eqb_spec (id a) x) as [E|E]; [eauto|].
  destruct Hin as [Hin|Hin]; [contradiction|].
  destruct (IH Hin) as (j & Ej). rewrite Ej. simpl. eauto.
Qed.

Lemma findIndex_none_absent (x : string) (l : list Subscriber) :
  findIndex (fun sub => (id sub =? x)%string) l = None -> ~ In x (map id l).
Proof.
  intros Hf Hin. destruct (findIndex_present x l Hin) as (i & Ei). congruence.
Qed.

Lemma splice1_length (x : string) (l : list Subscriber) (i : nat) :
  findIndex (fun sub => (id sub =? x)%string) l = Some i ->
  S (List.length (splice1 i l)) = List.length l.
Proof.
  revert i. induction l as [|a t IH]; intros i Hf; [discriminate|].
  simpl in Hf. destruct (id a =? x)%string.
  - injection Hf as <-. reflexivity.
  - destruct (findIndex _ t) as [j|] eqn:Ej; [|discriminate].
    injection Hf as <-. simpl. f_equal. apply (IH j eq_refl).
Qed.

Lemma findIndex_app_fresh (x : string) (l : list Subscriber) (e : Subscriber) :
  ~ In x (map id l) -> id e = x ->
  findIndex (fun sub => (id sub =? x)%string) (l ++ [e]) = Some (List.length l).
Proof.
  intros Hout He. induction l as [|a t IH]; simpl.
  - rewrite He, String.eqb_refl. reflexivity.
  - simpl in Hout. destruct (String.eqb_spec (id a) x) as [E|E].
    + exfalso. auto.
    + rewrite IH by tauto. reflexivity.
Qed.

Lemma splice1_app_last (l : list Subscriber) (e : Subscriber) :
  splice1 (List.length l) (l ++ [e]) = l.
Proof. induction l as [|a t IH]; simpl; [reflexivity | now rewrite IH]. Qed.

Lemma without_app_fresh (x : string) (l : list Subscriber) (e : Subscriber) :
  ~ In x (map id l) -> id e = x -> without x (l ++ [e]) = l.
Proof.
  intros Hout He. unfold without. rewrite filter_app. simpl.
  rewrite He, String.eqb_refl. simpl. rewrite app_nil_r.
  apply (without_absent x l Hout).
Qed.

(** The registry after the disconnect callback of [part_000], whatever
    the stream does. *)
Lemma closeHandler_v2_registry (c : Closure) (n : Node) :
  subscribers (state_of (Part000.closeHandler c n))
  = match findIndex (fun sub => (id sub =? subscriberId c)%string) (subscribers n) with
    | Some i => splice1 i (subscribers n)
    | None => subscribers n
    end.
Proof.
  unfold Part000.closeHandler, Part000.subscriber_at. run_op.
  destruct (findIndex _ (subscribers n)) as [i|];
    repeat (break_match; simpl); reflexivity.
Qed.

(** The registry after a removal that returns, in either file. *)
Lemma unregister_v2_registry (msg : Msg) (n : Node) :
  completion_of (Part000.unregisterSubscriber msg n) = Normal tt ->
  exists i,
    findIndex (fun sub => (id sub =? _msgid msg)%string) (subscribers n) = Some i /\
    subscribers (state_of (Part000.unregisterSubscriber msg n))
    = splice1 i (subscribers n).
Proof.
  unfold Part000.unregisterSubscriber, Part000.subscriber_at,
    Part000.unbound_RED_log_warn. run_op.
  destruct (findIndex _ (subscribers n)) as [i|]; [|discriminate].
  repeat (break_match; simpl); intros Hc;
    first [discriminate Hc | exists i; split; reflexivity].
Qed.

Lemma unregister_v1_registry (msg : Msg) (n : Node) :
  completion_of (SseServer.unregisterSubscriber msg n) = Normal tt ->
  subscribers (state_of (SseServer.unregisterSubscriber msg n))
  = without (_msgid msg) (subscribers n).
Proof.
  unfold SseServer.unregisterSubscriber, SseServer.unbound_RED_log_warn, without.
  run_op.
  repeat (break_match; simpl); intros Hc; first [discriminate Hc | reflexivity].
Qed.

(** X10. The three removal paths take out the same entries.  On a
    registry of distinct ids, the disconnect callback of [part_000]
    (always) and [unregisterSubscriber] of either file (when it returns)
    leave exactly the entries whose id is not the one removed, in their
    order: the [splice] of [part_000] and the [filter] of [sse-server.js]
    agree. *)
Theorem removal_takes_out_the_id (n : Node) (c : Closure) (msg : Msg) :
  NoDup (ids n) ->
  subscribers (state_of (Part000.closeHandler c n))
    = without (subscriberId c) (subscribers n) /\
  (completion_of (Part000.unregisterSubscriber msg n) = Normal tt ->
   subscribers (state_of (Part000.unregisterSubscriber msg n))
     = without (_msgid msg) (subscribers n)) /\
  (completion_of (SseServer.unregisterSubscriber msg n) = Normal tt ->
   subscribers (state_of (SseServer.unregisterSubscriber msg n))
     = without (_msgid msg) (subscribers n)).
Proof.
  intros Hnd. split; [|split].
  - rewrite closeHandler_v2_registry.
    destruct (findIndex _ (subscribers n)) as [i|] eqn:Ei.
    + apply splice1_is_without; assumption.
    + symmetry. apply without_absent, findIndex_none_absent, Ei.
  - intros Hc. destruct (unregister_v2_registry msg n Hc) as (i & Ei & E).
    rewrite E. apply splice1_is_without; assumption.
  - apply unregister_v1_registry.
Qed.

Lemma removal_takes_out_the_id_witness :
  map id (subscribers (state_of
     (Part000.closeHandler (Samples.listener_of "m2" Samples.X) Samples.three)))
  = ["m1"; "m3"] /\
  map id (subscribers (state_of
     (Part000.unregisterSubscriber (Samples.connect "m1" Samples.A JUndefined)
        Samples.three)))
  = ["m2"; "m3"].
Proof.
  destruct (removal_takes_out_the_id Samples.three
              (Samples.listener_of "m2" Samples.X)
              (Samples.connect "m1" Samples.A JUndefined)) as (H1 & H2 & _).
  { repeat constructor; simpl; intuition discriminate. }
  split.
  - rewrite H1. reflexivity.
  - rewrite (H2 eq_refl). reflexivity.
Defined.

Lemma closeHandler_v2_present_calls (c : Closure) (n : Node) (i : nat) :
  findIndex (fun sub => (id sub =? subscriberId c)%string) (subscribers n) = Some i ->
  In (CSend (subscriberId c)
        (shaped "disconnect" (List.length (splice1 i (subscribers n))) (clientIP c)))
     (calls_of (Part000.closeHandler c n)) /\
  In (CStatus "green" "dot" (count_text (List.length (splice1 i (subscribers n)))))
     (calls_of (Part000.closeHandler c n)) /\
  In (CRemoveListener (handle (responseSocket c)) (subscriberId c))
     (calls_of (Part000.closeHandler c n)).
Proof.
  intros Ei.
  unfold Part000.closeHandler, Part000.subscriber_at, Part000.notification,
    shaped, count_text. run_op. rewrite Ei.
  repeat (break_match; simpl); repeat split; auto 20.
Qed.

(** X11. A client's disconnect is always accounted for in [part_000].
    When the id is in the registry, the disconnect callback takes one
    entry out, sends the disconnect notification with the new count,
    publishes the new count and unhooks itself, whether or not the
    close frame, the flush or the end throw. *)
Theorem disconnect_always_accounted (c : Closure) (n : Node) :
  In (subscriberId c) (ids n) ->
  let out := Part000.closeHandler c n in
  let left := List.length (subscribers (state_of out)) in
  S left = List.length (subscribers n) /\
  In (CSend (subscriberId c) (shaped "disconnect" left (clientIP c))) (calls_of out) /\
  In (CStatus "green" "dot" (count_text left)) (calls_of out) /\
  In (CRemoveListener (handle (responseSocket c)) (subscriberId c)) (calls_of out).
Proof.
  intros Hin. cbv zeta.
  destruct (findIndex_present _ _ Hin) as (i & Ei).
  rewrite closeHandler_v2_registry, Ei.
  split; [apply (splice1_length _ _ _ Ei)|].
  apply (closeHandler_v2_present_calls c n i Ei).
Qed.

Lemma disconnect_always_accounted_witness :
  let out := Part000.closeHandler (Samples.listener_of "m2" Samples.X) Samples.three in
  List.length (subscribers (state_of out)) = 2 /\
  In (CSend "m2" (shaped "disconnect" 2 (JStr "10.0.0.3"))) (calls_of out) /\
  In (CStatus "green" "dot" (count_text 2)) (calls_of out).
Proof.
  intros out.
  destruct (disconnect_always_accounted (Samples.listener_of "m2" Samples.X)
              Samples.three) as (Hl & Hs & Ht & _).
  { simpl. tauto. }
  split; [apply eq_add_S; exact Hl|]. split; [exact Hs | exact Ht].
Defined.

Lemma closeHandler_v1_registry (msg : Msg) (n : Node) (r : Response) :
  res msg = Some r ->
  server_close_ok msg r = true ->
  subscribers (state_of (SseServer.closeHandler msg n))
  = without (_msgid msg) (subscribers n).
Proof.
  intros Hr.
  unfold SseServer.closeHandler, SseServer.unregisterSubscriber,
    SseServer.unbound_RED_log_warn, server_close_ok, flush_returns, returns, without.
  run_op. rewrite Hr. simpl.
  repeat (break_match; simpl); intros Hok; first [discriminate Hok | reflexivity].
Qed.

(** The index [findIndex] returns is an index of the array. *)
Ltac impossible_index :=
  match goal with
  | Hf : findIndex _ ?l = Some ?i, Hn : nth_error ?l ?i = None |- _ =>
      exfalso; destruct (findIndex_found _ _ _ Hf) as (? & ? & _); congruence
  end.

(** X12. Connecting and disconnecting gives the registry back.  A work
    item with a fresh id that opens its stream, followed by the disconnect
    callback made for it, leaves the registry exactly as it was before
    the registration: in [part_000] whatever the close frame does, in
    [sse-server.js] when the close frame and its flush return. *)
Theorem register_then_disconnect_restores `{Builtins} (msg : Msg) (n : Node) :
  opens_stream msg = true ->
  ~ In (_msgid msg) (ids n) ->
  exists r, res msg = Some r /\
    subscribers (state_of (Part000.closeHandler (closure_of msg r)
                             (state_of (Part000.registerSubscriber msg n))))
      = subscribers n /\
    (server_close_ok msg r = true ->
     subscribers (state_of (SseServer.closeHandler msg
                              (state_of (SseServer.registerSubscriber msg n))))
       = subscribers n).
Proof.
  intros Ho Hout.
  destruct (register_v1_opens msg n Ho) as (r & line & Hr & _ & E1).
  destruct (register_v2_opens msg n Ho) as (r' & line' & Hr' & _ & E2).
  assert (r' = r) by congruence. subst r'.
  exists r. split; [exact Hr|]. split.
  - rewrite E2. unfold state_of at 2. cbn [fst].
    rewrite closeHandler_v2_registry, subscribers_enrol_node.
    rewrite (enrolled_absent (entry_v2 msg r) (subscribers n) Hout).
    cbn [closure_of subscriberId].
    rewrite (findIndex_app_fresh (_msgid msg) (subscribers n) (entry_v2 msg r) Hout eq_refl).
    apply splice1_app_last.
  - intros Hok. rewrite E1. unfold state_of at 2. cbn [fst].
    rewrite (closeHandler_v1_registry msg _ r Hr Hok), subscribers_enrol_node.
    rewrite (enrolled_absent (entry_v1 msg r) (subscribers n) Hout).
    apply without_app_fresh; [exact Hout | reflexivity].
Qed.

Lemma register_then_disconnect_restores_witness :
  let m := Samples.connect "m9" Samples.B JUndefined in
  subscribers (state_of
    (Part000.closeHandler (closure_of m Samples.B)
       (state_of (@Part000.registerSubscriber Samples.plain_json m Samples.three))))
  = subscribers Samples.three /\
  subscribers (state_of
    (SseServer.closeHandler m
       (state_of (@SseServer.registerSubscriber Samples.plain_json m MoreSamples.mixed1))))
  = subscribers MoreSamples.mixed1.
Proof.
  intros m.
  destruct (@register_then_disconnect_restores Samples.plain_json m Samples.three eq_refl)
    as (r & Hr & H2 & _).
  { simpl. intuition discriminate. }
  destruct (@register_then_disconnect_restores Samples.plain_json m MoreSamples.mixed1 eq_refl)
    as (r1 & Hr1 & _ & H1).
  { simpl. intuition discriminate. }
  injection Hr as <-. injection Hr1 as <-.
  split; [exact H2 | exact (H1 eq_refl)].
Defined.

(** X13. A close frame that throws leaves the subscriber registered.  In
    both files the [catch] blocks of [unregisterSubscriber] name the
    unbound [RED], so when a write or the flush of the close frame throws,
    the function ends in a [ReferenceError] having made nothing but those
    writes: the registry is unchanged, the stream is not ended, no
    disconnect is notified and, in [sse-server.js], the disconnect
    callback publishes no status and does not unhook itself. *)
Theorem failed_close_frame_keeps_entry (msg : Msg) (n : Node) (r : Response) :
  res msg = Some r ->
  server_close_ok msg r = false ->
  (let out := SseServer.closeHandler msg n in
   completion_of out = Throw (ReferenceError "RED is not defined") /\
   state_of out = n /\
   forall c, In c (calls_of out) ->
     is_frame_call c = true /\ is_end c = false /\ stream_of c = Some (handle r)) /\
  (let out := Part000.unregisterSubscriber msg n in
   completion_of out = Throw (ReferenceError "RED is not defined") /\
   state_of out = n /\
   forall c, In c (calls_of out) ->
     is_frame_call c = true /\ is_end c = false /\ stream_of c = Some (handle r)).
Proof.
  intros Hr. cbv zeta.
  unfold SseServer.closeHandler, SseServer.unregisterSubscriber,
    SseServer.unbound_RED_log_warn,
    Part000.unregisterSubscriber, Part000.subscriber_at,
    Part000.unbound_RED_log_warn, server_close_ok, flush_returns, returns.
  run_op. rewrite Hr. simpl.
  repeat (break_match; simpl); intros Hok; try discriminate Hok;
    try impossible_index;
    (split; (split; [reflexivity|]; split; [reflexivity|];
             intros c Hc; repeat (destruct Hc as [<-|Hc]; [repeat split|]); destruct Hc)).
Qed.

Lemma failed_close_frame_keeps_entry_witness :
  let m := Samples.connect "m2" Samples.X JUndefined in
  state_of (SseServer.closeHandler m MoreSamples.mixed1) = MoreSamples.mixed1 /\
  completion_of (SseServer.closeHandler m MoreSamples.mixed1)
    = Throw (ReferenceError "RED is not defined") /\
  state_of (Part000.unregisterSubscriber m MoreSamples.mixed2) = MoreSamples.mixed2.
Proof.
  intros m.
  destruct (failed_close_frame_keeps_entry m MoreSamples.mixed1 Samples.X eq_refl eq_refl)
    as ((Hc & Hs & _) & _).
  destruct (failed_close_frame_keeps_entry m MoreSamples.mixed2 Samples.X eq_refl eq_refl)
    as (_ & (_ & Hs2 & _)).
  split; [exact Hs|]. split; [exact Hc | exact Hs2].
Defined.

(** Splits a computed list of calls before its last two. *)
Ltac split_last_two :=
  match goal with
  | |- exists pre, ?l = pre ++ _ /\ _ =>
      exists (removelast (removelast l)); simpl; split; [reflexivity|]
  end.

(** X14. A removal that returns has ended the stream once and notified
    once.  When [unregisterSubscriber] returns normally, [msg.res] was
    ended exactly once and exactly one disconnect notification was sent;
    in [part_000] the end comes first and the notification, with the
    count after the removal, is the last call; in [sse-server.js] the
    notification comes before the end. *)
Theorem removal_ends_and_notifies_once (msg : Msg) (n : Node) :
  (let out := Part000.unregisterSubscriber msg n in
   completion_of out = Normal tt ->
   exists r, res msg = Some r /\
   exists pre,
     calls_of out
     = pre ++ [CEnd (handle r);
               CSend (_msgid msg)
                 (shaped "disconnect" (List.length (subscribers (state_of out)))
                    (remoteAddress r))] /\
     forall c, In c pre -> is_end c = false /\ is_send c = false) /\
  (let out := SseServer.unregisterSubscriber msg n in
   completion_of out = Normal tt ->
   exists r, res msg = Some r /\
   exists pre,
     calls_of out
     = pre ++ [CSend (_msgid msg) (bare "disconnect"); CEnd (handle r)] /\
     forall c, In c pre -> is_end c = false /\ is_send c = false).
Proof.
  cbv zeta.
  unfold Part000.unregisterSubscriber, Part000.subscriber_at,
    Part000.unbound_RED_log_warn, Part000.notification, shaped,
    SseServer.unregisterSubscriber, SseServer.unbound_RED_log_warn, bare.
  run_op.
  split; repeat (break_match; simpl); intros Hc; try discriminate Hc;
    eexists; (split; [reflexivity|]); split_last_two;
    intros c0 Hin; repeat (destruct Hin as [<-|Hin]; [split; reflexivity|]);
    destruct Hin.
Qed.

Lemma removal_ends_and_notifies_once_witness :
  let m := Samples.connect "m1" Samples.A JUndefined in
  exists pre,
    calls_of (Part000.unregisterSubscriber m Samples.three)
    = pre ++ [CEnd 1; CSend "m1" (shaped "disconnect" 2 (JStr "10.0.0.1"))] /\
    forall c, In c pre -> is_end c = false /\ is_send c = false.
Proof.
  intros m.
  destruct (proj1 (removal_ends_and_notifies_once m Samples.three) eq_refl)
    as (r & Hr & Hpre).
  injection Hr as <-. exact Hpre.
Defined.

(** ** The frame on the wire *)

Lemma written_app (h : nat) (a b : list Call) :
  written h (a ++ b) = written h a +++ written h b.
Proof.
  induction a as [|c t IH]; [reflexivity|].
  destruct c; simpl; try exact IH.
  destruct (Nat.eqb h0 h); [|exact IH].
  rewrite IH. symmetry. apply append_assoc.
Qed.

Lemma written_none (h : nat) (cs : list Call) :
  (forall c, In c cs -> stream_of c <> Some h) ->
  written h cs = EmptyString.
Proof.
  induction cs as [|c t IH]; intros Hno; [reflexivity|].
  assert (Ht : written h t = EmptyString) by (apply IH; intros x Hx; apply Hno; now right).
  destruct c; simpl; try exact Ht.
  destruct (Nat.eqb_spec h0 h) as [E|E]; [|exact Ht].
  exfalso. apply (Hno (CWrite h0 chunk)); [now left | simpl; now rewrite E].
Qed.

Lemma send_event_written_other `{Builtins} ev dat messageId s n h :
  handle (socket s) <> h ->
  written h (calls_of (send_event ev dat messageId s n)) = EmptyString.
Proof.
  intros Hne. apply written_none. intros c Hc Hs.
  apply send_event_kinds in Hc as [Hl|[_ Hh]].
  - destruct c; discriminate.
  - rewrite Hh in Hs. injection Hs as Hs. contradiction.
Qed.

Lemma send_event_written_own `{Builtins} ev dat messageId s n :
  sent_ok ev dat messageId s = true ->
  written (handle (socket s)) (calls_of (send_event ev dat messageId s n))
  = frame ev dat messageId.
Proof.
  unfold sent_ok, flush_returns, returns, send_event, frame. run_op.
  repeat (break_match; simpl); intros Hok; try discriminate Hok;
    try match goal with
        | Hb : Nat.eqb ?x ?x = false |- _ =>
            rewrite Nat.eqb_refl in Hb; discriminate Hb
        end;
    rewrite ?append_assoc, ?append_empty; reflexivity.
Qed.

Lemma flat_map_written_others `{Builtins} ev dat messageId l n h :
  ~ In h (map (fun s => handle (socket s)) l) ->
  written h (flat_map (fun s => calls_of (send_event ev dat messageId s n)) l)
  = EmptyString.
Proof.
  induction l as [|x t IH]; intros Hout; [reflexivity|].
  simpl in *. rewrite written_app, send_event_written_other by tauto.
  apply IH. tauto.
Qed.

Lemma flat_map_written_one `{Builtins} ev dat messageId l n s :
  NoDup (map (fun s => handle (socket s)) l) ->
  In s l ->
  sent_ok ev dat messageId s = true ->
  written (handle (socket s))
    (flat_map (fun s => calls_of (send_event ev dat messageId s n)) l)
  = frame ev dat messageId.
Proof.
  induction l as [|x t IH]; intros Hnd Hin Hok; [destruct Hin|].
  simpl in Hnd. inversion Hnd as [|? ? Hx Ht]; subst.
  simpl flat_map. rewrite written_app.
  destruct Hin as [->|Hin].
  - rewrite send_event_written_own by exact Hok.
    rewrite flat_map_written_others by exact Hx. apply append_empty.
  - rewrite send_event_written_other.
    + apply (IH Ht Hin Hok).
    + intros E. apply Hx. rewrite E. apply in_map_iff. eauto.
Qed.

(** X15. A healthy subscriber receives the frame once, whole.  When the
    streams of the registry are distinct objects, the chunks one broadcast
    pass writes to a subscriber on whose stream every call returns,
    joined, are exactly [event: <name>\ndata: <data>\nid: <msgid>\n\n],
    once, and the subscriber stays registered, whatever happens on the
    other subscribers' streams.  Both files. *)
Theorem healthy_subscriber_gets_one_frame `{Builtins}
    (n : Node) (msg : Msg) (d : JSValue) (s : Subscriber) :
  _serializeData (broadcast_payload n msg) = Normal d ->
  NoDup (map (fun s => handle (socket s)) (subscribers n)) ->
  In s (subscribers n) ->
  sent_ok (broadcast_event n msg) (ToString d) (_msgid msg) s = true ->
  written (handle (socket s)) (calls_of (handleServerEvent msg n))
    = frame (broadcast_event n msg) (ToString d) (_msgid msg) /\
  In s (subscribers (state_of (handleServerEvent msg n))).
Proof.
  intros Hd Hnd Hin Hok.
  destruct (handleServerEvent_run n msg d Hd) as (cs & E & Ef & _).
  pose proof (filter_op_calls_flat_map (broadcast_event n msg) (ToString d)
                (_msgid msg) (subscribers n) n) as Hfm.
  rewrite Ef in Hfm. unfold calls_of at 1 in Hfm. cbn [fst snd] in Hfm.
  rewrite E. unfold calls_of, state_of. cbn [fst snd subscribers]. split.
  - cbn [written]. rewrite Hfm.
    apply flat_map_written_one; assumption.
  - apply filter_In. split; assumption.
Qed.

Lemma healthy_subscriber_gets_one_frame_witness :
  let out := @handleServerEvent Samples.plain_json Samples.tick Samples.three in
  written 2 (calls_of out) = frame "tick" Samples.tick_json "e1" /\
  In (Samples.entry2 "m3" Samples.B) (subscribers (state_of out)).
Proof.
  intros out.
  apply (@healthy_subscriber_gets_one_frame Samples.plain_json Samples.three Samples.tick
           (JStr Samples.tick_json) (Samples.entry2 "m3" Samples.B)).
  - reflexivity.
  - repeat constructor; simpl; intuition discriminate.
  - simpl. tauto.
  - reflexivity.
Defined.

Lemma written_flush_calls (h : nat) (r : Response) :
  written h (flush_calls r) = EmptyString.
Proof. unfold flush_calls. destruct (flush r); reflexivity. Qed.

Lemma open_data_line_inv `{Builtins} (msg : Msg) (line : string) :
  open_data_line msg = Normal line ->
  exists d,
    _serializeData (js_or (payload msg) (JStr "Connection opened")) = Normal d /\
    line = "data: " +++ ToString d +++ LF.
Proof.
  unfold open_data_line.
  destruct (_serializeData _) as [d|e]; intros E; [|discriminate].
  injection E as <-. eauto.
Qed.

(** X16. The first thing a client receives is the open frame.  For a work
    item that opens its stream, the chunks [registerSubscriber] writes to
    the response, joined, are exactly one frame of event [open], whose
    data is the serialized payload (or the default) and whose id is the
    work item's id; nothing else is written to the response.  Both files. *)
Theorem registration_writes_open_frame `{Builtins} (msg : Msg) (n : Node) :
  opens_stream msg = true ->
  exists r d,
    res msg = Some r /\
    _serializeData (js_or (payload msg) (JStr "Connection opened")) = Normal d /\
    written (handle r) (calls_of (SseServer.registerSubscriber msg n))
      = frame "open" (ToString d) (_msgid msg) /\
    written (handle r) (calls_of (Part000.registerSubscriber msg n))
      = frame "open" (ToString d) (_msgid msg).
Proof.
  intros Ho.
  destruct (register_v1_opens msg n Ho) as (r & line & Hr & Hl & E1).
  destruct (register_v2_opens msg n Ho) as (r' & line' & Hr' & Hl' & E2).
  assert (r' = r) by congruence. subst r'.
  assert (line' = line) by congruence. subst line'.
  destruct (open_data_line_inv msg line Hl) as (d & Hd & ->).
  exists r, d. split; [exact Hr|]. split; [exact Hd|].
  rewrite E1, E2. unfold calls_of. cbn [fst snd]. unfold open_calls.
  rewrite !written_app, !written_flush_calls. simpl.
  rewrite !Nat.eqb_refl, !append_empty, !append_assoc.
  split; reflexivity.
Qed.

Lemma registration_writes_open_frame_witness :
  let m := Samples.connect "m9" Samples.B (JStr "hello") in
  written 2 (calls_of (@Part000.registerSubscriber Samples.plain_json m Samples.lone2))
  = frame "open" "hello" "m9".
Proof.
  intros m.
  destruct (@registration_writes_open_frame Samples.plain_json m Samples.lone2 eq_refl)
    as (r & d & Hr & Hd & _ & H2).
  injection Hr as <-. injection Hd as <-. exact H2.
Defined.

(** ** The close frame of a drain *)

Lemma forEach_calls_flat_map (f : Subscriber -> Op unit) (l : list Subscriber) (n : Node) :
  (forall s, In s l -> exists cs, f s n = (n, cs, Normal tt)) ->
  calls_of (forEach f l n) = flat_map (fun s => calls_of (f s n)) l.
Proof.
  induction l as [|x t IH]; intros Hf; [reflexivity|].
  destruct (Hf x (or_introl eq_refl)) as (c1 & E1).
  simpl forEach. rewrite calls_of_bind, E1.
  unfold calls_of at 1, completion_of, state_of. cbn [fst snd].
  simpl flat_map. rewrite E1. unfold calls_of at 2. cbn [fst snd].
  f_equal. apply IH. intros s Hs. apply Hf. now right.
Qed.

Lemma close_subscriber_kinds (reason : string) (s : Subscriber) (n : Node) c :
  In c (calls_of (Part000.close_subscriber reason s n)) ->
  is_log c = true \/ stream_of c = Some (handle (socket s)).
Proof.
  unfold Part000.close_subscriber. run_op.
  repeat (break_match; simpl); intros Hin;
    repeat (destruct Hin as [<-|Hin]; [simpl; auto|]); destruct Hin.
Qed.

Lemma close_subscriber_written_other (reason : string) (s : Subscriber) (n : Node) h :
  handle (socket s) <> h ->
  written h (calls_of (Part000.close_subscriber reason s n)) = EmptyString.
Proof.
  intros Hne. apply written_none. intros c Hc Hs.
  apply close_subscriber_kinds in Hc as [Hl|Hh].
  - destruct c; discriminate.
  - rewrite Hh in Hs. injection Hs as Hs. contradiction.
Qed.

Lemma close_subscriber_written_own (reason : string) (s : Subscriber) (n : Node) :
  unhooked_ok s = true ->
  close_frame_ok reason s = true ->
  written (handle (socket s)) (calls_of (Part000.close_subscriber reason s n))
  = frame "close" reason "0".
Proof.
  unfold unhooked_ok, close_frame_ok, flush_returns, returns,
    Part000.close_subscriber, frame. run_op.
  repeat (break_match; simpl); intros Hu Hok;
    try discriminate Hu; try discriminate Hok;
    try match goal with
        | Hb : Nat.eqb ?x ?x = false |- _ =>
            rewrite Nat.eqb_refl in Hb; discriminate Hb
        end;
    rewrite ?append_assoc, ?append_empty; reflexivity.
Qed.

Lemma drain_written_others (reason : string) (l : list Subscriber) (n : Node) h :
  ~ In h (map (fun s => handle (socket s)) l) ->
  written h (flat_map (fun s => calls_of (Part000.close_subscriber reason s n)) l)
  = EmptyString.
Proof.
  induction l as [|x t IH]; intros Hout; [reflexivity|].
  simpl in *. rewrite written_app, close_subscriber_written_other by tauto.
  apply IH. tauto.
Qed.

Lemma drain_written_one (reason : string) (l : list Subscriber) (n : Node) s :
  NoDup (map (fun s => handle (socket s)) l) ->
  In s l ->
  unhooked_ok s = true ->
  close_frame_ok reason s = true ->
  written (handle (socket s))
    (flat_map (fun s => calls_of (Part000.close_subscriber reason s n)) l)
  = frame "close" reason "0".
Proof.
  induction l as [|x t IH]; intros Hnd Hin Hu Hok; [destruct Hin|].
  simpl in Hnd. inversion Hnd as [|? ? Hx Ht]; subst.
  simpl flat_map. rewrite written_app.
  destruct Hin as [->|Hin].
  - rewrite close_subscriber_written_own by assumption.
    rewrite drain_written_others by exact Hx. apply append_empty.
  - rewrite close_subscriber_written_other.
    + apply (IH Ht Hin Hu Hok).
    + intros E. apply Hx. rewrite E. apply in_map_iff. eauto.
Qed.

(** X17. A drained subscriber receives the close frame once.  When the
    streams of the registry are distinct objects, the chunks a drain of
    [part_000] writes to a subscriber whose listener removal, writes and
    flush return, joined, are exactly one frame of event [close] with id
    [0], whose data is [Collection closed] on a redeploy and [Node closed]
    on the node's close, whatever the other streams do. *)
Theorem drain_writes_close_frame (n : Node) (s : Subscriber) :
  NoDup (map (fun s => handle (socket s)) (subscribers n)) ->
  In s (subscribers n) ->
  unhooked_ok s = true ->
  (close_frame_ok "Collection closed" s = true ->
   written (handle (socket s)) (calls_of (Part000._runtimeHandler n))
     = frame "close" "Collection closed" "0") /\
  (close_frame_ok "Node closed" s = true ->
   written (handle (socket s)) (calls_of (Part000.on_close n))
     = frame "close" "Node closed" "0").
Proof.
  intros Hnd Hin Hu.
  assert (Hret : forall reason x, In x (subscribers n) ->
            exists cs, Part000.close_subscriber reason x n = (n, cs, Normal tt)).
  { intros reason x _. destruct (close_subscriber_run reason x n) as (c & Ec & _). eauto. }
  split; intros Hok.
  - destruct (drain_v2_run "Collection closed" n) as (cs & E & _).
    pose proof (forEach_calls_flat_map _ _ n (Hret "Collection closed")) as Hfm.
    rewrite E in Hfm. unfold calls_of at 1 in Hfm. cbn [fst snd] in Hfm.
    rewrite (runtimeHandler_v2_run n cs E). unfold calls_of. cbn [fst snd written].
    rewrite Hfm. apply drain_written_one; assumption.
  - destruct (drain_v2_run "Node closed" n) as (cs & E & _).
    pose proof (forEach_calls_flat_map _ _ n (Hret "Node closed")) as Hfm.
    rewrite E in Hfm. unfold calls_of at 1 in Hfm. cbn [fst snd] in Hfm.
    rewrite (on_close_v2_run n cs E). unfold calls_of. cbn [fst snd].
    rewrite Hfm. apply drain_written_one; assumption.
Qed.

Lemma drain_writes_close_frame_witness :
  written 2 (calls_of (Part000._runtimeHandler Samples.three))
    = frame "close" "Collection closed" "0" /\
  written 2 (calls_of (Part000.on_close Samples.three))
    = frame "close" "Node closed" "0".
Proof.
  destruct (drain_writes_close_frame Samples.three (Samples.entry2 "m3" Samples.B))
    as [H1 H2].
  - repeat constructor; simpl; intuition discriminate.
  - simpl. tauto.
  - reflexivity.
  - split; [exact (H1 eq_refl) | exact (H2 eq_refl)].
Defined.
